(** * alertmanager_bot: menu/session state machine and message delivery

    A shallow embedding of the Telegram bot for Alertmanager / Prometheus
    (package [main]: the update router, the webhook handler, the inline
    keyboard builders, the message chunker and [sendMessage]), followed by
    the properties of the specification that were checked against it.

    Go strings are byte sequences, so they are Rocq [string]s and [len] is
    the number of characters.  Go [int]s are [Z].  A Go [map[string]string]
    is a [gmap string string]; reading a missing key gives the empty
    string.  The TTL cache of the bot is created without a TTL, so an entry
    stays until it is removed: it is a [gmap string Callback]. *)

From Stdlib Require Import ZArith String Ascii List Sorted.
From stdpp Require Import base gmap strings pretty list fin_maps.

Local Open Scope Z_scope.

(** ** Strings *)

Definition nl : string := String "010"%char EmptyString.

(** [len(s)] of a Go string (a byte count) and of a slice. *)
Definition strlen (s : string) : Z := Z.of_nat (String.length s).
Definition len {A} (l : list A) : Z := Z.of_nat (length l).

(** [strings.Split(s, sep)] of the Go standard library for a separator of
    one byte: the pieces between the separators, in order; a string
    without separator (the empty one too) gives one piece. *)
Fixpoint strings_Split (s : string) (sep : ascii) : list string :=
  match s with
  | EmptyString => [EmptyString]
  | String c r =>
      if Ascii.eqb c sep then EmptyString :: strings_Split r sep
      else match strings_Split r sep with
           | [] => [String c EmptyString]
           | h :: t => String c h :: t
           end
  end.

(** [n] copies of the byte [c]; used to build long inputs. *)
Fixpoint string_repeat (c : ascii) (n : nat) : string :=
  match n with
  | O => EmptyString
  | S k => String c (string_repeat c k)
  end.

(** ** The message chunker *)

Definition maxMessageTextLength : Z := 4096.

(** The [for _, s := range splitted] loop of [splitStringIntoChunks] with
    its two variables [chunks] and [chunk], and the final [append]. *)
Fixpoint splitLoop (splitted : list string) (chunks : list string)
    (chunk : string) : list string :=
  match splitted with
  | [] => chunks ++ [chunk]
  | s :: rest =>
      if maxMessageTextLength <? strlen ((chunk +:+ nl) +:+ s)
      then splitLoop rest (chunks ++ [chunk]) ((EmptyString +:+ nl) +:+ s)
      else splitLoop rest chunks ((chunk +:+ nl) +:+ s)
  end.

Definition splitStringIntoChunks (text : string) : list string :=
  splitLoop (strings_Split text "010"%char) [] EmptyString.

(** A chunk as the chunker assembles it from a run of lines: every line
    preceded by a newline. *)
Definition renderLines (g : list string) : string :=
  String.concat EmptyString (map (fun l => nl +:+ l) g).

Definition beginsWithNewline (c : string) : Prop := exists r, c = nl +:+ r.

(** ** Data model *)

(** [type Callback struct { Type string; Data map[string]string }]: the
    intent stored in the cache under the token a button carries. *)
Record Callback := mkCallback {
  cb_Type : string;
  cb_Data : gmap string string;
}.

(** [m[k]] on a Go [map[string]string]: the empty string when [k] is
    absent (also on a nil map, which is [∅] here). *)
Definition mapGet (m : gmap string string) (k : string) : string :=
  default EmptyString (m !! k).

Record InlineKeyboardButton := mkButton {
  btn_Text : string;
  btn_CallbackData : string;
}.

(** [tgbotapi.InlineKeyboardMarkup]: the rows of [InlineKeyboard]. *)
Abbreviation InlineKeyboardMarkup := (list (list InlineKeyboardButton)).

Definition NewInlineKeyboardButtonData (text data : string) : InlineKeyboardButton :=
  mkButton text data.

Record MessageConfig := mkMessage {
  msg_ChatID : Z;
  msg_Text : string;
  msg_ParseMode : string;
  msg_ReplyMarkup : option InlineKeyboardMarkup;
}.

Record EditMessageTextConfig := mkEditText {
  edit_ChatID : Z;
  edit_MessageID : Z;
  edit_Text : string;
  edit_ParseMode : string;
  edit_ReplyMarkup : option InlineKeyboardMarkup;
}.

Record DeleteMessageConfig := mkDelete {
  del_ChatID : Z;
  del_MessageID : Z;
}.

Record EditMessageReplyMarkupConfig := mkEditMarkup {
  erm_ChatID : Z;
  erm_MessageID : Z;
  erm_ReplyMarkup : option InlineKeyboardMarkup;
}.

(** [tgbotapi.Chattable]: the four kinds [sendMessage] supports and any
    other kind, named by its Go type. *)
Inductive Chattable :=
| CMessage (m : MessageConfig)
| CEditText (m : EditMessageTextConfig)
| CDelete (m : DeleteMessageConfig)
| CEditMarkup (m : EditMessageReplyMarkupConfig)
| COther (typeName : string).

Definition ModeHTML : string := "HTML".

Definition NewMessage (chatID : Z) (text : string) : MessageConfig :=
  mkMessage chatID text EmptyString None.
Definition NewEditMessageText (chatID messageID : Z) (text : string) : EditMessageTextConfig :=
  mkEditText chatID messageID text EmptyString None.
Definition NewDeleteMessage (chatID messageID : Z) : DeleteMessageConfig :=
  mkDelete chatID messageID.
Definition NewEditMessageReplyMarkup (chatID messageID : Z)
    (markup : InlineKeyboardMarkup) : EditMessageReplyMarkupConfig :=
  mkEditMarkup chatID messageID (Some markup).

(** Records of the two services, as far as the bot looks into them. *)
Record GettableAlert := mkAlert {
  alert_Labels : gmap string string;
  alert_Annotations : gmap string string;
  alert_State : string;
  alert_StartsAt : Z;
  alert_EndsAt : Z;
}.

Record GettableSilence := mkSilence {
  sil_ID : string;
  sil_State : string;
  sil_CreatedBy : string;
  sil_Comment : string;
  sil_StartsAt : Z;
  sil_EndsAt : Z;
}.

Record ActiveTarget := mkTarget {
  tgt_Labels : gmap string string;
  tgt_ScrapeURL : string;
  tgt_Health : string;
}.

(** [alerttmpl.Data], the body of a webhook, and its alerts. *)
Record Alert := mkWebhookAlert {
  wa_Status : string;
  wa_Labels : gmap string string;
  wa_Annotations : gmap string string;
  wa_StartsAt : Z;
  wa_EndsAt : Z;
  wa_GeneratorURL : string;
  wa_Fingerprint : string;
}.

Record Data := mkData {
  data_Receiver : string;
  data_Status : string;
  data_Alerts : list Alert;
  data_GroupLabels : gmap string string;
  data_CommonLabels : gmap string string;
  data_CommonAnnotations : gmap string string;
  data_ExternalURL : string;
}.

(** The values handed to [encoding/json] and to [html/template]. *)
Inductive Value :=
| VAlerts (l : list GettableAlert)
| VSilences (l : list GettableSilence)
| VData (d : Data)
| VCallback (c : Callback)
| VTarget (t : ActiveTarget).

(** A Go [(T, error)] result, and a bare [error] ([None] is [nil]). *)
Inductive result (A : Type) :=
| Ok (a : A)
| Err (e : string).
Arguments Ok {A} a.
Arguments Err {A} e.

Abbreviation error := (option string).

(** What [bot.BotAPI.Send] answers, as the closure [send] tells the
    answers apart: no error, an error on which the type assertion
    [err.(telebot.FloodError)] succeeds, with its [RetryAfter], or any
    other error.  The transport is [tgbotapi]'s and the asserted type is
    [telebot]'s, a different library: nothing in the package makes the
    transport return that type, so [SendFlood] is an answer that the type
    [error] admits and the loop handles, not one the bot is known to
    receive; a flood-control answer of [tgbotapi] is a [SendErr]. *)
Inductive SendResult :=
| SendOk
| SendFlood (RetryAfter : Z) (e : string)
| SendErr (e : string).

(** The matcher pair and window of a [PostSilences] request. *)
Record PostableSilence := mkPostable {
  ps_Matchers : list (string * string * bool);
  ps_StartsAt : Z;
  ps_EndsAt : Z;
  ps_CreatedBy : string;
  ps_Comment : string;
}.

(** ** Configuration and environment *)

(** The fields of the global [cfg] that the modelled functions read. *)
Record Config := mkConfig {
  KeyboardRows : Z;
  WebhookAlertsTemplatePath : string;
  GettableAlertsTemplatePath : string;
  SilencesTemplatePath : string;
  Users : list string;
  ButtonPrefixOK : string;
  ButtonPrefixFail : string;
  SendMessageRetryCount : Z;
  SilenceDuration : Z;
}.

(** Everything outside the package: the chat transport, the two services,
    the identifier generator, the clock and the library functions whose
    result depends on files or on the wire format.  The [n]-th call of
    [BotAPI.Send], the [n]-th [ksuid.New] and the [n]-th reading of the
    clock ([time.Now]) are indexed by [n]. *)
Record Env := mkEnv {
  cfg : Config;
  versionString : string;
  programName : string;
  ksuid_New : nat -> string;
  BotAPI_Send : nat -> Chattable -> SendResult;
  Alert_GetAlerts : list string -> result (list GettableAlert);
  Silence_GetSilences : result (list GettableSilence);
  Silence_PostSilences : PostableSilence -> result string;
  General_GetStatus : result (string * Z);
  v1_LabelValues : string -> result (list string);
  v1_Targets : result (list ActiveTarget);
  v1_Buildinfo : result string;
  v1_Runtimeinfo : result Z;
  template_ParseFiles : string -> option string;
  template_Execute : string -> Value -> result string;
  json_Marshal : Value -> result string;
  json_MarshalIndent : Value -> result string;
  json_Unmarshal : string -> result Data;
  strconv_ParseInt : string -> result Z;
  time_Now : nat -> Z;
  duration_String : Z -> string;
  bot_StartTime : Z;
  formatDateTime : Z -> string;
  formatTarget : ActiveTarget -> string;
}.

(** ** State, trace and the monad of the bot *)

(** The mutable state: the cache of the bot, and how many identifiers,
    transport calls and readings of the clock have been made so far. *)
Record World := mkWorld {
  Cache : gmap string Callback;
  ksuids : nat;
  sends : nat;
  clock : nat;
}.

(** The trace of a run, in order: log lines, the calls of [sendMessage]
    ([EvSendMessage], recorded on entry), the calls of [bot.BotAPI.Send]
    ([EvSend]), the pauses of the retry loop, the queries to the two
    services, and the calls of the template and JSON libraries. *)
Inductive Event :=
| EvLog (line : string)
| EvSendMessage (c : Chattable)
| EvSend (c : Chattable)
| EvSleep (seconds : Z)
| EvGetAlerts (filter : list string)
| EvGetSilences
| EvPostSilences (s : PostableSilence)
| EvGetStatus
| EvLabelValues (label : string)
| EvTargets
| EvBuildinfo
| EvRuntimeinfo
| EvTemplate (path : string) (v : Value)
| EvMarshal (v : Value)
| EvMarshalIndent (v : Value).

Record Out (A : Type) := mkOut {
  value : A;
  world : World;
  events : list Event;
}.
Arguments mkOut {A} value world events.
Arguments value {A} o.
Arguments world {A} o.
Arguments events {A} o.

Definition M (A : Type) : Type := World -> Out A.

Definition ret {A} (a : A) : M A := fun w => mkOut a w [].

Definition bind {A B} (m : M A) (k : A -> M B) : M B :=
  fun w =>
    let o1 := m w in
    let o2 := k (value o1) (world o1) in
    mkOut (value o2) (world o2) (events o1 ++ events o2).

Notation "'do' x <- m ; k" := (bind m (fun x => k))
  (at level 10, x name, m at level 100, k at level 200).
Notation "'run' m ; k" := (bind m (fun _ => k))
  (at level 10, m at level 100, k at level 200).

Definition emit (e : Event) : M unit := fun w => mkOut tt w [e].

Definition log_Printf (line : string) : M unit := emit (EvLog line).

(** A call of a service: the call is recorded and its answer returned. *)
Definition call {A} (e : Event) (answer : A) : M A :=
  run emit e; ret answer.

(** [fmt.Errorf(prefix + "%s", err)] as an [error]. *)
Definition Errorf (prefix e : string) : error := Some (prefix +:+ e).

Section Bot.

Variable env : Env.

(** *** The cache *)

Definition ErrNotFound : string := "key not found".

Definition Cache_Set (key : string) (cb : Callback) : M unit :=
  fun w => mkOut tt (mkWorld (<[key := cb]> (Cache w)) (ksuids w) (sends w) (clock w)) [].

Definition Cache_Get (key : string) : M (result Callback) :=
  fun w => mkOut (match Cache w !! key with
                  | Some cb => Ok cb
                  | None => Err ErrNotFound
                  end) w [].

Definition Cache_Remove (key : string) : M unit :=
  fun w => mkOut tt (mkWorld (delete key (Cache w)) (ksuids w) (sends w) (clock w)) [].

(** [ksuid.New().String()]. *)
Definition ksuid_New_String : M string :=
  fun w => mkOut (ksuid_New env (ksuids w))
                 (mkWorld (Cache w) (S (ksuids w)) (sends w) (clock w)) [].

(** [time.Now()]: one reading of the clock. *)
Definition time_Now_call : M Z :=
  fun w => mkOut (time_Now env (clock w))
                 (mkWorld (Cache w) (ksuids w) (sends w) (S (clock w))) [].

(** [time.Since(t)] is [time.Now().Sub(t)]: it reads the clock. *)
Definition time_Since (t : Z) : M Z :=
  do now <- time_Now_call; ret (now - t).

(** *** Templates *)

(** [applyTemplate]: parsing the file and executing the template are the
    library's part; either error is logged and returned. *)
Definition applyTemplate (v : Value) (templatePath : string) : M (result string) :=
  run emit (EvTemplate templatePath v);
  match template_ParseFiles env templatePath with
  | Some err => run log_Printf ("error loading template file: " +:+ err); ret (Err err)
  | None =>
      match template_Execute env templatePath v with
      | Err err => run log_Printf ("error executing template: " +:+ err); ret (Err err)
      | Ok s => ret (Ok s)
      end
  end.

(** *** Sending *)

Definition BotAPI_Send_call (m : Chattable) : M SendResult :=
  fun w => mkOut (BotAPI_Send env (sends w) m)
                 (mkWorld (Cache w) (ksuids w) (S (sends w)) (clock w)) [EvSend m].

(** The closure [send] of [sendMessage]: the loop
    [for i := 0; i < cfg.SendMessageRetryCount; i++] with the variable
    [err] it returns; [iters] is the number of iterations left. *)
Fixpoint sendLoop (iters : nat) (m : Chattable) (err : error) : M error :=
  match iters with
  | O => ret err
  | S k =>
      do r <- BotAPI_Send_call m;
      match r with
      | SendOk => ret None
      | SendFlood retryAfter e =>
          run log_Printf ("got FloodError, retrying in " +:+ pretty retryAfter);
          run emit (EvSleep retryAfter);
          sendLoop k m (Some e)
      | SendErr e => ret (Some e)
      end
  end.

Definition send (m : Chattable) : M error :=
  sendLoop (Z.to_nat (SendMessageRetryCount (cfg env))) m None.

(** [for i, c := range chunks]: one new message per chunk, the reply
    markup on the last one ([i == len(chunks)-1]), stopping at the first
    error. *)
Fixpoint sendChunks (chatID : Z) (parseMode : string)
    (markup : option InlineKeyboardMarkup) (chunks : list string) : M error :=
  match chunks with
  | [] => ret None
  | c :: rest =>
      let msg := mkMessage chatID c parseMode
                   (match rest with [] => markup | _ => None end) in
      do err <- send (CMessage msg);
      match err with
      | Some e => ret (Some e)
      | None => sendChunks chatID parseMode markup rest
      end
  end.

Definition sendMessage (c : Chattable) : M error :=
  run emit (EvSendMessage c);
  match c with
  | CMessage m =>
      let chunks := splitStringIntoChunks (msg_Text m) in
      sendChunks (msg_ChatID m) (msg_ParseMode m) (msg_ReplyMarkup m) chunks
  | CEditText m =>
      let chunks := splitStringIntoChunks (edit_Text m) in
      if 1 <? len chunks then
        do err <- send (CDelete (NewDeleteMessage (edit_ChatID m) (edit_MessageID m)));
        match err with
        | Some e => ret (Some e)
        | None => sendChunks (edit_ChatID m) (edit_ParseMode m) (edit_ReplyMarkup m) chunks
        end
      else send (CEditText m)
  | CDelete m => send (CDelete m)
  | CEditMarkup m => send (CEditMarkup m)
  | COther typeName => ret (Errorf "unsupported tgbotapi.Chattable type " typeName)
  end.

(** *** The inline keyboards *)

(** The [for _, l := range labels] loop of [newJobsKB] with the keyboard
    built so far and the current row [r]. *)
Fixpoint jobsLoop (labels : list string) (kb : InlineKeyboardMarkup)
    (r : list InlineKeyboardButton)
    : M (InlineKeyboardMarkup * list InlineKeyboardButton) :=
  match labels with
  | [] => ret (kb, r)
  | l :: rest =>
      do al <- call (EvGetAlerts ["job=" +:+ l]) (Alert_GetAlerts env ["job=" +:+ l]);
      match al with
      | Err err =>
          run log_Printf ("error getting alerts for job '" +:+ l +:+ "': " +:+ err);
          jobsLoop rest kb r
      | Ok payload =>
          let btnLabel :=
            if len payload =? 0 then ButtonPrefixOK (cfg env) +:+ l
            else ButtonPrefixFail (cfg env) +:+ l in
          do cacheID <- ksuid_New_String;
          let newCallback := mkCallback "job" (<["job_name" := l]> ∅) in
          run Cache_Set cacheID newCallback;
          let r := r ++ [NewInlineKeyboardButtonData btnLabel cacheID] in
          if len r =? KeyboardRows (cfg env)
          then jobsLoop rest (kb ++ [r]) []
          else jobsLoop rest kb r
      end
  end.

Definition newJobsKB : M (result InlineKeyboardMarkup) :=
  do labels <- call (EvLabelValues "job") (v1_LabelValues env "job");
  match labels with
  | Err err => ret (Err ("error getting jobs: " +:+ err))
  | Ok labels =>
      do kbr <- jobsLoop labels [] [];
      let kb := if 0 <? len (snd kbr) then fst kbr ++ [snd kbr] else fst kbr in
      do cacheID <- ksuid_New_String;
      let newCallback := mkCallback "close" ∅ in
      run Cache_Set cacheID newCallback;
      ret (Ok (kb ++ [[NewInlineKeyboardButtonData "Close menu" cacheID]]))
  end.

(** [sort.Slice(targets.Active, less)] with [less] comparing the
    [instance] labels as strings.  [sort.Slice] fixes the order only up to
    targets with equal labels; this insertion sort keeps those in their
    original order. *)
Definition instanceLess (a b : ActiveTarget) : bool :=
  String.ltb (mapGet (tgt_Labels a) "instance") (mapGet (tgt_Labels b) "instance").

Fixpoint insertTarget (t : ActiveTarget) (sorted : list ActiveTarget) : list ActiveTarget :=
  match sorted with
  | [] => [t]
  | x :: rest => if instanceLess x t then x :: insertTarget t rest else t :: x :: rest
  end.

Definition sortTargets (l : list ActiveTarget) : list ActiveTarget :=
  foldr insertTarget [] l.

(** The [for _, t := range targets.Active] loop of [newTargetsKB]. *)
Fixpoint targetsLoop (jobName : string) (targets : list ActiveTarget)
    (kb : InlineKeyboardMarkup) (r : list InlineKeyboardButton)
    : M (InlineKeyboardMarkup * list InlineKeyboardButton) :=
  match targets with
  | [] => ret (kb, r)
  | t :: rest =>
      let job := mapGet (tgt_Labels t) "job" in
      let instance := mapGet (tgt_Labels t) "instance" in
      (* the label check: [true] when it ends the iteration ([continue]) *)
      do continue <-
        (if (strlen job =? 0) || (strlen instance =? 0) then
           do b <- call (EvMarshal (VTarget t)) (json_Marshal env (VTarget t));
           match b with
           | Err _ =>
               run log_Printf ("could not get labels [job, instance] for target '"
                               +:+ formatTarget env t +:+ "'");
               ret true
           | Ok b =>
               run log_Printf ("could not get labels [job, instance] for target '"
                               +:+ b +:+ "'");
               ret false
           end
         else ret false);
      if (continue : bool) then targetsLoop jobName rest kb r
      else if negb (String.eqb job jobName) then targetsLoop jobName rest kb r
      else
        do al <- call (EvGetAlerts ["instance=" +:+ instance])
                      (Alert_GetAlerts env ["instance=" +:+ instance]);
        match al with
        | Err err =>
            run log_Printf ("error getting alerts for target '" +:+ instance
                            +:+ "': " +:+ err);
            targetsLoop jobName rest kb r
        | Ok payload =>
            let btnLabel :=
              if len payload =? 0 then ButtonPrefixOK (cfg env) +:+ instance
              else ButtonPrefixFail (cfg env) +:+ instance in
            do cacheID <- ksuid_New_String;
            let newCallback :=
              mkCallback "target"
                (<["target_name" := instance]> (<["job_name" := jobName]> ∅)) in
            run Cache_Set cacheID newCallback;
            let r := r ++ [NewInlineKeyboardButtonData btnLabel cacheID] in
            if len r =? KeyboardRows (cfg env)
            then targetsLoop jobName rest (kb ++ [r]) []
            else targetsLoop jobName rest kb r
        end
  end.

Definition newTargetsKB (jobName : string) : M (result InlineKeyboardMarkup) :=
  do targets <- call EvTargets (v1_Targets env);
  match targets with
  | Err err => ret (Err ("error getting targets data: " +:+ err))
  | Ok active =>
      do kbr <- targetsLoop jobName (sortTargets active) [] [];
      let kb := if 0 <? len (snd kbr) then fst kbr ++ [snd kbr] else fst kbr in
      ret (Ok kb)
  end.

(** *** Messages *)

(** A [tgbotapi.Message] as [processMessage] reads it: the sender
    ([m.From.String()]), the chat, and what the library's [IsCommand],
    [Command] and [CommandArguments] return for its text. *)
Record Message := mkMsg {
  m_From : string;
  m_ChatID : Z;
  m_Text : string;
  m_IsCommand : bool;
  m_Command : string;
  m_CommandArguments : string;
}.

Definition tab : string := String "009"%char EmptyString.
Definition dquote : string := String "034"%char EmptyString.

Definition helpMsg : string :=
  nl +:+ "Available commands:" +:+ nl
  +:+ "/status - show alertmanager & bot status" +:+ nl
  +:+ "/alerts - show active alerts" +:+ nl
  +:+ "/targets - show alerts per target" +:+ nl
  +:+ "/silences - show active silences" +:+ nl.

(** The recurring end of a branch:
    [if err := sendMessage(bot, msg); err != nil { return fmt.Errorf(...) }]
    and then [return nil]. *)
Definition sendMessageOrError (c : Chattable) : M error :=
  do err <- sendMessage c;
  match err with
  | Some e => ret (Errorf "error sending message: " e)
  | None => ret None
  end.

(** The argument check shared by [/alerts] and [/silences]: [None] when
    the arguments are accepted, otherwise the reply. *)
Definition argumentError (argsArr : list string) : option string :=
  if 1 <? len argsArr then Some "Too many arguments."
  else if negb (strlen (hd EmptyString argsArr) =? 0)
          && negb (String.eqb (hd EmptyString argsArr) "json")
       then Some "Unknown argument."
       else None.

Definition processMessage (m : Message) : M error :=
  (* accept messages only from configured users *)
  let updateUserIsAdmin := existsb (fun u => String.eqb u (m_From m)) (Users (cfg env)) in
  if negb updateUserIsAdmin then
    sendMessageOrError (CMessage (NewMessage (m_ChatID m) "I can't talk to you, sorry."))
  else if negb (m_IsCommand m) then
    sendMessageOrError
      (CMessage (NewMessage (m_ChatID m)
                   ("Message doesn't look like a command." +:+ nl +:+ helpMsg)))
  else if String.eqb (m_Command m) "help" || String.eqb (m_Command m) "start" then
    let strMsg := "Telegram Bot for Alertmanager" +:+ nl +:+ "Version <b>"
                  +:+ versionString env +:+ "</b>" +:+ nl +:+ helpMsg in
    sendMessageOrError (CMessage (mkMessage (m_ChatID m) strMsg ModeHTML None))
  else if String.eqb (m_Command m) "alerts" then
    let argsArr := strings_Split (m_CommandArguments m) " "%char in
    match argumentError argsArr with
    | Some reply => sendMessageOrError (CMessage (NewMessage (m_ChatID m) reply))
    | None =>
        do alerts <- call (EvGetAlerts []) (Alert_GetAlerts env []);
        match alerts with
        | Err err => ret (Errorf "error getting alerts: " err)
        | Ok payload =>
            if len payload =? 0 then
              sendMessageOrError (CMessage (NewMessage (m_ChatID m) "No active alerts found."))
            else if (strlen (GettableAlertsTemplatePath (cfg env)) =? 0)
                    || String.eqb (hd EmptyString argsArr) "json" then
              do bytes <- call (EvMarshalIndent (VAlerts payload))
                               (json_MarshalIndent env (VAlerts payload));
              match bytes with
              | Err err => ret (Errorf "error marshalling alerts: " err)
              | Ok bytes => sendMessageOrError (CMessage (NewMessage (m_ChatID m) bytes))
              end
            else
              do s <- applyTemplate (VAlerts payload) (GettableAlertsTemplatePath (cfg env));
              match s with
              | Err err => ret (Errorf "error applying template: " err)
              | Ok s => sendMessageOrError (CMessage (mkMessage (m_ChatID m) s ModeHTML None))
              end
        end
    end
  else if String.eqb (m_Command m) "targets" then
    do kb <- newJobsKB;
    match kb with
    | Err err => ret (Errorf "error creating jobs menu: " err)
    | Ok kb =>
        sendMessageOrError
          (CMessage (mkMessage (m_ChatID m) "Select job:" EmptyString (Some kb)))
    end
  else if String.eqb (m_Command m) "status" then
    do aStatus <- call EvGetStatus (General_GetStatus env);
    match aStatus with
    | Err err => ret (Errorf "error getting alertmanager status: " err)
    | Ok (aVersion, aUptime) =>
        do pBuildInfo <- call EvBuildinfo (v1_Buildinfo env);
        match pBuildInfo with
        | Err err => ret (Errorf "error getting prometheus status: " err)
        | Ok pVersion =>
            do pRTInfo <- call EvRuntimeinfo (v1_Runtimeinfo env);
            match pRTInfo with
            | Err err => ret (Errorf "error getting prometheus status: " err)
            | Ok pStartTime =>
                do aSince <- time_Since aUptime;
                do pSince <- time_Since pStartTime;
                do botSince <- time_Since (bot_StartTime env);
                let status :=
                  nl +:+ "Alertmanager" +:+ nl
                  +:+ "Version: <b>" +:+ aVersion +:+ "</b>" +:+ nl
                  +:+ "Uptime: <b>" +:+ duration_String env aSince +:+ "</b>" +:+ nl
                  +:+ nl +:+ "Prometheus" +:+ nl
                  +:+ "Version: <b>" +:+ pVersion +:+ "</b>" +:+ nl
                  +:+ "Uptime: <b>" +:+ duration_String env pSince +:+ "</b>" +:+ nl
                  +:+ nl +:+ "Bot" +:+ nl
                  +:+ "Version: <b>" +:+ versionString env +:+ "</b>" +:+ nl
                  +:+ "Uptime: <b>" +:+ duration_String env botSince +:+ "</b>" +:+ nl
                  +:+ tab +:+ tab in
                sendMessageOrError (CMessage (mkMessage (m_ChatID m) status ModeHTML None))
            end
        end
    end
  else if String.eqb (m_Command m) "silences" then
    let argsArr := strings_Split (m_CommandArguments m) " "%char in
    match argumentError argsArr with
    | Some reply => sendMessageOrError (CMessage (NewMessage (m_ChatID m) reply))
    | None =>
        do silences <- call EvGetSilences (Silence_GetSilences env);
        match silences with
        | Err err => ret (Errorf "error gettnig silences: " err)
        | Ok payload =>
            let activeSilences :=
              List.filter (fun s => String.eqb (sil_State s) "active") payload in
            if len activeSilences =? 0 then
              sendMessageOrError (CMessage (NewMessage (m_ChatID m) "No active silences found."))
            else if (strlen (GettableAlertsTemplatePath (cfg env)) =? 0)
                    || String.eqb (hd EmptyString argsArr) "json" then
              do bytes <- call (EvMarshalIndent (VSilences activeSilences))
                               (json_MarshalIndent env (VSilences activeSilences));
              match bytes with
              | Err err => ret (Errorf "error marshalling silences: " err)
              | Ok bytes => sendMessageOrError (CMessage (NewMessage (m_ChatID m) bytes))
              end
            else
              do s <- applyTemplate (VSilences activeSilences) (SilencesTemplatePath (cfg env));
              match s with
              | Err err => ret (Errorf "error applying template: " err)
              | Ok s => sendMessageOrError (CMessage (mkMessage (m_ChatID m) s ModeHTML None))
              end
        end
    end
  else
    sendMessageOrError
      (CMessage (NewMessage (m_ChatID m) ("Unknown command." +:+ nl +:+ helpMsg))).

(** *** Callback queries *)

(** A [tgbotapi.CallbackQuery] as the router reads it: the sender, the
    data of the pressed button (a cache key) and the message that carries
    the keyboard. *)
Record CallbackQuery := mkQuery {
  cq_From : string;
  cq_Data : string;
  cq_ChatID : Z;
  cq_MessageID : Z;
}.

Definition goBackRow (cacheID : string) : list InlineKeyboardButton :=
  [NewInlineKeyboardButtonData "Go back" cacheID].

Definition processCallbackQuery (cq : CallbackQuery) (cb : Callback) : M error :=
  if String.eqb (cb_Type cb) "job" then
    (* create inline keyboard with targets for requested job *)
    do kb <- newTargetsKB (mapGet (cb_Data cb) "job_name");
    match kb with
    | Err err => ret (Errorf "error creating targets menu: " err)
    | Ok kb =>
        do cacheID <- ksuid_New_String;
        let newCallback := mkCallback "jobs" ∅ in
        run Cache_Set cacheID newCallback;
        let kb := kb ++ [goBackRow cacheID] in
        if String.eqb (mapGet (cb_Data cb) "leave_last_message") "yes" then
          (* remove 'Go back' button in previous message *)
          do err <- sendMessage
                      (CEditMarkup (NewEditMessageReplyMarkup (cq_ChatID cq) (cq_MessageID cq) []));
          match err with
          | Some e => ret (Errorf "error sending message: " e)
          | None =>
              sendMessageOrError
                (CMessage (mkMessage (cq_ChatID cq) "Select target:" EmptyString (Some kb)))
          end
        else
          sendMessageOrError
            (CEditText (mkEditText (cq_ChatID cq) (cq_MessageID cq) "Select target:"
                          EmptyString (Some kb)))
    end
  else if String.eqb (cb_Type cb) "target" then
    let target_name := mapGet (cb_Data cb) "target_name" in
    do al <- call (EvGetAlerts ["instance=" +:+ target_name])
                  (Alert_GetAlerts env ["instance=" +:+ target_name]);
    match al with
    | Err err =>
        ret (Errorf ("error getting alerts for target '" +:+ target_name +:+ "': ") err)
    | Ok payload =>
        do msgText <-
          (if 0 <? len payload then
             applyTemplate (VAlerts payload) (GettableAlertsTemplatePath (cfg env))
           else ret (Ok ("No active alerts for " +:+ target_name)));
        match msgText with
        | Err err => ret (Errorf "error applying template: " err)
        | Ok msgText =>
            do cacheID <- ksuid_New_String;
            let newCallback :=
              mkCallback "job"
                (<["leave_last_message" := "yes"]>
                   (<["job_name" := mapGet (cb_Data cb) "job_name"]> ∅)) in
            run Cache_Set cacheID newCallback;
            let kb := [goBackRow cacheID] in
            sendMessageOrError
              (CEditText (mkEditText (cq_ChatID cq) (cq_MessageID cq) msgText
                            ModeHTML (Some kb)))
        end
    end
  else if String.eqb (cb_Type cb) "jobs" then
    (* create inline keyboard for all prometheus jobs *)
    do kb <- newJobsKB;
    match kb with
    | Err err => ret (Errorf "error creating jobs menu: " err)
    | Ok kb =>
        sendMessageOrError
          (CEditText (mkEditText (cq_ChatID cq) (cq_MessageID cq) "Select job:"
                        EmptyString (Some kb)))
    end
  else if String.eqb (cb_Type cb) "targets" then
    do kb <- newTargetsKB (mapGet (cb_Data cb) "job_name");
    match kb with
    | Err err => ret (Errorf "error creating targets menu: " err)
    | Ok kb =>
        do cacheID <- ksuid_New_String;
        let newCallback := mkCallback "jobs" ∅ in
        run Cache_Set cacheID newCallback;
        let kb := kb ++ [goBackRow cacheID] in
        sendMessageOrError
          (CEditText (mkEditText (cq_ChatID cq) (cq_MessageID cq) "Select target:"
                        EmptyString (Some kb)))
    end
  else if String.eqb (cb_Type cb) "close" then
    sendMessageOrError (CDelete (NewDeleteMessage (cq_ChatID cq) (cq_MessageID cq)))
  else if String.eqb (cb_Type cb) "silence" then
    let instance_value := mapGet (cb_Data cb) "instance" in
    let alertname_value := mapGet (cb_Data cb) "alertname" in
    let isRegex := false in
    let matchers := [("instance", instance_value, isRegex);
                     ("alertname", alertname_value, isRegex)] in
    let comment := EmptyString in
    let createdBy := programName env +:+ " version " +:+ versionString env in
    (* the clock is read twice: once for [startsAt], once for [endsAt] *)
    do startsAt <- time_Now_call;
    do now <- time_Now_call;
    let endsAt := now + SilenceDuration (cfg env) in
    let params := mkPostable matchers startsAt endsAt createdBy comment in
    (* create new silence *)
    do ok <- call (EvPostSilences params) (Silence_PostSilences env params);
    match ok with
    | Err err => ret (Errorf "error posting new silence: " err)
    | Ok silenceID =>
        (* remove 'Silence' button *)
        do err <- sendMessage
                    (CEditMarkup (NewEditMessageReplyMarkup (cq_ChatID cq) (cq_MessageID cq) []));
        match err with
        | Some e => ret (Errorf "error sending message: " e)
        | None =>
            let m :=
              "Created new silence:" +:+ nl
              +:+ "ID: <b>" +:+ silenceID +:+ "</b>" +:+ nl
              +:+ "StartsAt: <b>" +:+ formatDateTime env startsAt +:+ "</b>" +:+ nl
              +:+ "EndsAt: <b>" +:+ formatDateTime env endsAt +:+ "</b>" +:+ nl
              +:+ "Matchers: " +:+ dquote +:+ "[{instance=" +:+ dquote +:+ instance_value
              +:+ dquote +:+ "},{alertname=" +:+ dquote +:+ alertname_value
              +:+ dquote +:+ "}]" +:+ dquote in
            sendMessageOrError (CMessage (mkMessage (cq_ChatID cq) m ModeHTML None))
        end
    end
  else ret None.

(** *** The update router *)

(** A [tgbotapi.Update]: the three pointers the router looks at. *)
Record Update := mkUpdate {
  upd_Message : option Message;
  upd_EditedMessage : option Message;
  upd_CallbackQuery : option CallbackQuery;
}.

(** The body of the [for update := range updates] loop. *)
Definition handleUpdate (update : Update) : M unit :=
  match upd_Message update with
  | Some m =>
      run log_Printf ("new message from " +:+ m_From m +:+ ": " +:+ m_Text m);
      do err <- processMessage m;
      match err with
      | Some e => log_Printf ("error processing message: " +:+ e)
      | None => ret tt
      end
  | None =>
  match upd_EditedMessage update with
  | Some m =>
      run log_Printf ("new edited message from " +:+ m_From m +:+ ": " +:+ m_Text m);
      do err <- processMessage m;
      match err with
      | Some e => log_Printf ("error processing edited message: " +:+ e)
      | None => ret tt
      end
  | None =>
  match upd_CallbackQuery update with
  | Some cq =>
      (* get callback data from cache *)
      do cacheData <- Cache_Get (cq_Data cq);
      match cacheData with
      | Err err => log_Printf ("error getting callback data from cache: " +:+ err)
      | Ok cacheData =>
          run Cache_Remove (cq_Data cq);
          (* marshall callback data for logging *)
          do b <- call (EvMarshal (VCallback cacheData)) (json_Marshal env (VCallback cacheData));
          match b with
          | Err err => log_Printf ("error marshalling cache data: " +:+ err)
          | Ok b =>
              (* process callback query *)
              run log_Printf ("new callback query from " +:+ cq_From cq +:+ ": " +:+ b);
              do err <- processCallbackQuery cq cacheData;
              match err with
              | Some e => log_Printf ("error processing callback query: " +:+ e)
              | None => ret tt
              end
          end
      end
  | None => log_Printf "cannot parse update data"
  end end end.

Fixpoint handleUpdatesLoop (updates : list Update) : M unit :=
  match updates with
  | [] => ret tt
  | update :: rest => run handleUpdate update; handleUpdatesLoop rest
  end.

(** [handleUpdates]: [updates] is what [GetUpdatesChan] returned, the
    channel as the list of the updates it delivers. *)
Definition handleUpdates (updates : result (list Update)) : M unit :=
  match updates with
  | Err err => log_Printf ("error getting updates channel: " +:+ err)
  | Ok updates => handleUpdatesLoop updates
  end.

(** *** The webhook *)

(** A [fasthttp.RequestCtx] as [handleHTTP] reads it. *)
Record RequestCtx := mkRequest {
  req_RemoteAddr : string;
  req_Path : string;
  req_IsPost : bool;
  req_Method : string;
  req_chatid : string;
  req_PostBody : string;
}.

Definition handleHTTP (ctx : RequestCtx) : M unit :=
  run log_Printf ("new http connection from " +:+ req_RemoteAddr ctx);
  if String.eqb (req_Path ctx) "/alerts" then
    (* only POST supported *)
    if negb (req_IsPost ctx) then log_Printf ("wrong http method " +:+ req_Method ctx)
    else
      run log_Printf ("new post data: " +:+ req_PostBody ctx);
      (* get chat id from ?chaid=<INT> *)
      match strconv_ParseInt env (req_chatid ctx) with
      | Err err => log_Printf ("wrong chatid: " +:+ err)
      | Ok chatID =>
          match json_Unmarshal env (req_PostBody ctx) with
          | Err err => log_Printf ("error unmarshalling post data: " +:+ err)
          | Ok data =>
              (* send plain json if no template defined in config *)
              do msg <-
                (if strlen (WebhookAlertsTemplatePath (cfg env)) =? 0 then
                   ret (Ok (NewMessage chatID (req_PostBody ctx)))
                 else
                   do s <- applyTemplate (VData data) (WebhookAlertsTemplatePath (cfg env));
                   match s with
                   | Err err => run log_Printf err; ret (Err err)
                   | Ok s => ret (Ok (mkMessage chatID s ModeHTML None))
                   end);
              match msg with
              | Err _ => ret tt
              | Ok msg =>
                  (* add silence buttons *)
                  do msg <-
                    (if String.eqb (data_Status data) "firing"
                        && (0 <? strlen (mapGet (data_GroupLabels data) "instance"))
                        && (0 <? strlen (mapGet (data_GroupLabels data) "alertname"))
                     then
                       (* create new cache entry *)
                       do cacheID <- ksuid_New_String;
                       let newCallback :=
                         mkCallback "silence"
                           (<["alertname" := mapGet (data_GroupLabels data) "alertname"]>
                              (<["instance" := mapGet (data_GroupLabels data) "instance"]> ∅)) in
                       run Cache_Set cacheID newCallback;
                       let row := [NewInlineKeyboardButtonData "Silence" cacheID] in
                       let kb := [row] in
                       ret (mkMessage (msg_ChatID msg) (msg_Text msg) (msg_ParseMode msg) (Some kb))
                     else ret msg);
                  do e <- sendMessage (CMessage msg);
                  match e with
                  | Some e => log_Printf ("error sending message: " +:+ e)
                  | None => ret tt
                  end
              end
          end
      end
  else log_Printf ("wrong path " +:+ req_Path ctx).

End Bot.

(** ** Observations on a trace *)

(** The messages handed to [sendMessage], in order. *)
Fixpoint dispatched (evs : list Event) : list Chattable :=
  match evs with
  | [] => []
  | EvSendMessage c :: rest => c :: dispatched rest
  | _ :: rest => dispatched rest
  end.

(** The calls of [BotAPI.Send], in order. *)
Fixpoint transportCalls (evs : list Event) : list Chattable :=
  match evs with
  | [] => []
  | EvSend c :: rest => c :: transportCalls rest
  | _ :: rest => transportCalls rest
  end.

(** JSON marshalling of a reply and template rendering. *)
Definition isRendering (e : Event) : bool :=
  match e with
  | EvTemplate _ _ | EvMarshalIndent _ => true
  | _ => false
  end.

(** An event of the transport loop: a call, a pause or a log line. *)
Definition isTransport (e : Event) : bool :=
  match e with
  | EvSend _ | EvSleep _ | EvLog _ => true
  | _ => false
  end.

(** The condition under which [handleHTTP] adds the button. *)
Definition silenceable (data : Data) : Prop :=
  data_Status data = "firing"
  /\ mapGet (data_GroupLabels data) "instance" <> EmptyString
  /\ mapGet (data_GroupLabels data) "alertname" <> EmptyString.

(** The intent [handleHTTP] stores for the button of a webhook message. *)
Definition silenceIntent (data : Data) : Callback :=
  mkCallback "silence"
    (<["alertname" := mapGet (data_GroupLabels data) "alertname"]>
       (<["instance" := mapGet (data_GroupLabels data) "instance"]> ∅)).

(** The button label the jobs menu gives to job [l], from the answer of
    the alert query for that job. *)
Definition jobAlerts (env : Env) (l : string) : result (list GettableAlert) :=
  Alert_GetAlerts env ["job=" +:+ l].

Definition lookupOk {A} (r : result A) : bool :=
  match r with Ok _ => true | Err _ => false end.

Definition prefixFor (env : Env) (payload : list GettableAlert) : string :=
  match payload with
  | [] => ButtonPrefixOK (cfg env)
  | _ :: _ => ButtonPrefixFail (cfg env)
  end.

(** ** Predicates used in the statements *)

(** A chunk is within the limit or is one line that is itself too long. *)
Definition chunkOk (lines : list string) (c : string) : Prop :=
  strlen c <= maxMessageTextLength
  \/ exists l, l ∈ lines /\ maxMessageTextLength <= strlen l /\ c = nl +:+ l.

(** A run that only talks to the transport: the cache and the identifier
    count are unchanged and every event is a call, a pause or a log
    line. *)
Definition transportOnly {A} (o : Out A) (w : World) : Prop :=
  Cache (world o) = Cache w
  /\ ksuids (world o) = ksuids w
  /\ Forall (fun e => isTransport e = true) (events o).

(** No identifier generated from world [w] on is the token [t]. *)
Definition freshFrom (env : Env) (t : string) (w : World) : Prop :=
  forall n, (ksuids w <= n)%nat -> ksuid_New env n <> t.

(** A computation that leaves the cache entry of [t] as it is, when no
    identifier it generates is [t]. *)
Definition keeps (env : Env) (t : string) {A} (f : M A) : Prop :=
  forall w, freshFrom env t w ->
    Cache (world (f w)) !! t = Cache w !! t
    /\ (ksuids w <= ksuids (world (f w)))%nat.

(** A row of the jobs menu holds between one button and [KeyboardRows]. *)
Definition rowOk (env : Env) (row : list InlineKeyboardButton) : Prop :=
  1 <= len row <= KeyboardRows (cfg env).

(** A button of the job [l]: the prefix chosen from the answer of the
    alert query for [l], then the job name. *)
Definition jobButton (env : Env) (b : InlineKeyboardButton) (l : string) : Prop :=
  exists payload, jobAlerts env l = Ok payload
    /\ btn_Text b = prefixFor env payload +:+ l.

(** ** Concrete environments *)

Definition testConfig : Config :=
  mkConfig 2 EmptyString EmptyString EmptyString ["admin"] "OK " "FAIL " 3 3600.

Definition emptyData : Data := mkData "telegram" "resolved" [] ∅ ∅ ∅ EmptyString.

(** An environment with the given configuration, transport, alert
    service answers, silences, job names and targets; the rest is fixed. *)
Definition testEnv (c : Config) (transport : nat -> Chattable -> SendResult)
    (alerts : list string -> result (list GettableAlert))
    (silences : result (list GettableSilence))
    (labels : result (list string))
    (targets : result (list ActiveTarget))
    (payload : result Data) : Env :=
  mkEnv c "devel" "alertmanager_bot"
    (fun n => "ksuid-" +:+ pretty (N.of_nat n))
    transport alerts silences
    (fun _ => Ok "silence-1")
    (Ok ("0.27", 0))
    (fun _ => labels)
    targets
    (Ok "2.50")
    (Ok 0)
    (fun _ => None)
    (fun path _ => Ok ("rendered with " +:+ path))
    (fun _ => Ok "{}")
    (fun _ => Ok "[json]")
    (fun _ => payload)
    (fun _ => Ok (-123456789))
    (fun n => 1000 + Z.of_nat n)
    (fun _ => "1h0m0s")
    0
    (fun _ => "2026-01-01T00:00:00Z")
    (fun _ => "{target}").

Definition transportOk : nat -> Chattable -> SendResult := fun _ _ => SendOk.
Definition transportRejects : nat -> Chattable -> SendResult :=
  fun _ _ => SendErr "Bad Request".

Definition noAlerts : list string -> result (list GettableAlert) := fun _ => Ok [].

Definition world0 : World := mkWorld ∅ 0 0 0.

Definition envOk : Env :=
  testEnv testConfig transportOk noAlerts (Ok []) (Ok []) (Ok []) (Ok emptyData).

(** A line of 4096 bytes, and a text of two lines of 3000 bytes. *)
Definition longLine : string := string_repeat "a"%char 4096.
Definition twoChunkText : string :=
  string_repeat "a"%char 3000 +:+ nl +:+ string_repeat "b"%char 3000.

Definition envRejects : Env :=
  testEnv testConfig transportRejects noAlerts (Ok []) (Ok []) (Ok []) (Ok emptyData).

Definition editTwoChunks : EditMessageTextConfig :=
  mkEditText 1 7 twoChunkText EmptyString None.

(** Both list templates configured. *)
Definition envTemplates : Env :=
  testEnv (mkConfig 2 "webhook.tmpl" "alerts.tmpl" "silences.tmpl" ["admin"]
             "OK " "FAIL " 3 3600)
    transportOk noAlerts (Ok []) (Ok []) (Ok []) (Ok emptyData).

Definition msgAlertsJson : Message := mkMsg "admin" 5 "/alerts json" true "alerts" "json".

(** Only the silences template configured, and one active silence. *)
Definition activeSilence : GettableSilence :=
  mkSilence "s-1" "active" "alertmanager_bot version devel" EmptyString 1000 4600.

Definition envSilences : Env :=
  testEnv (mkConfig 2 EmptyString EmptyString "silences.tmpl" ["admin"]
             "OK " "FAIL " 3 3600)
    transportOk noAlerts (Ok [activeSilence]) (Ok []) (Ok []) (Ok emptyData).

Definition msgSilences : Message := mkMsg "admin" 5 "/silences" true "silences" EmptyString.

(** An inventory of one target that has a [job] label and no [instance]. *)
Definition targetNoInstance : ActiveTarget :=
  mkTarget (<["job" := "api"]> ∅) "http://h1:9100/metrics" "up".

Definition envTargets : Env :=
  testEnv testConfig transportOk noAlerts (Ok []) (Ok ["api"]) (Ok [targetNoInstance])
    (Ok emptyData).

(** The webhook scenario: a group with [instance = h1] and
    [alertname = HostDown], firing and resolved. *)
Definition groupLabels : gmap string string :=
  <["alertname" := "HostDown"]> (<["instance" := "h1"]> ∅).

Definition envFiring : Env :=
  testEnv testConfig transportOk noAlerts (Ok []) (Ok []) (Ok [])
    (Ok (mkData "telegram" "firing" [] groupLabels ∅ ∅ EmptyString)).

Definition envResolved : Env :=
  testEnv testConfig transportOk noAlerts (Ok []) (Ok []) (Ok [])
    (Ok (mkData "telegram" "resolved" [] groupLabels ∅ ∅ EmptyString)).

Definition requestAlerts : RequestCtx :=
  mkRequest "127.0.0.1:50000" "/alerts" true "POST" "-123456789" "{payload}".

(** The jobs-menu scenario: the jobs [api], [db] and [web]; [api] has no
    active alert, [db] has one, and the query for [web] fails. *)
Definition oneAlert : GettableAlert :=
  mkAlert (<["job" := "db"]> ∅) ∅ "active" 1000 0.

Definition alertsByJob (filter : list string) : result (list GettableAlert) :=
  if decide (filter = ["job=db"]) then Ok [oneAlert]
  else if decide (filter = ["job=web"]) then Err "context deadline exceeded"
  else Ok [].

Definition envJobs : Env :=
  testEnv testConfig transportOk alertsByJob (Ok []) (Ok ["api"; "db"; "web"]) (Ok [])
    (Ok emptyData).

Definition kbJobs : InlineKeyboardMarkup :=
  [[mkButton "OK api" "ksuid-0"; mkButton "FAIL db" "ksuid-1"];
   [mkButton "Close menu" "ksuid-2"]].

(** A configured keyboard row size of 0. *)
Definition envRows0 : Env :=
  testEnv (mkConfig 0 EmptyString EmptyString EmptyString ["admin"] "OK " "FAIL " 3 3600)
    transportOk noAlerts (Ok []) (Ok ["api"; "db"]) (Ok []) (Ok emptyData).

(** A callback query that carries the token [tok]. *)
Definition queryTok : CallbackQuery := mkQuery "admin" "tok" 5 7.

(** ** Further predicates and environments *)

(** An event that is a log line. *)
Definition isLog (e : Event) : bool :=
  match e with EvLog _ => true | _ => false end.

(** An event of a menu build: a query to a service, the marshalling of a
    target for the log, or a log line. *)
Definition isLookup (e : Event) : bool :=
  match e with
  | EvLog _ | EvGetAlerts _ | EvLabelValues _ | EvTargets | EvMarshal _ => true
  | _ => false
  end.

(** A query to one of the two services. *)
Definition isQuery (e : Event) : bool :=
  match e with
  | EvGetAlerts _ | EvGetSilences | EvPostSilences _ | EvGetStatus
  | EvLabelValues _ | EvTargets | EvBuildinfo | EvRuntimeinfo => true
  | _ => false
  end.

(** Whether the byte [c] occurs in [s]. *)
Fixpoint containsChar (c : ascii) (s : string) : bool :=
  match s with
  | EmptyString => false
  | String x r => Ascii.eqb x c || containsChar c r
  end.

(** The intents the two menus store for their buttons. *)
Definition jobIntent (l : string) : Callback :=
  mkCallback "job" (<["job_name" := l]> ∅).

Definition targetIntent (jobName instance : string) : Callback :=
  mkCallback "target" (<["target_name" := instance]> (<["job_name" := jobName]> ∅)).

(** The targets of the sorted inventory for which [newTargetsKB] makes a
    button for the job [jobName]: the label check does not end the
    iteration (it does so only when a label is missing and the target
    cannot be marshalled), the job label is [jobName], and the alert query
    for the instance succeeds. *)
Definition targetSelected (env : Env) (jobName : string) (t : ActiveTarget) : bool :=
  let job := mapGet (tgt_Labels t) "job" in
  let instance := mapGet (tgt_Labels t) "instance" in
  (if (strlen job =? 0) || (strlen instance =? 0)
   then lookupOk (json_Marshal env (VTarget t)) else true)
  && String.eqb job jobName
  && lookupOk (Alert_GetAlerts env ["instance=" +:+ instance]).

Definition targetButton (env : Env) (b : InlineKeyboardButton) (t : ActiveTarget) : Prop :=
  exists payload,
    Alert_GetAlerts env ["instance=" +:+ mapGet (tgt_Labels t) "instance"] = Ok payload
    /\ btn_Text b = prefixFor env payload +:+ mapGet (tgt_Labels t) "instance".

(** [a] is not after [b] in the order of the instance labels. *)
Definition instanceLe (a b : ActiveTarget) : Prop :=
  instanceLess b a = false.

(** A retry count of 0. *)
Definition envRetry0 : Env :=
  testEnv (mkConfig 2 EmptyString EmptyString EmptyString ["admin"] "OK " "FAIL " 0 3600)
    transportOk noAlerts (Ok []) (Ok []) (Ok []) (Ok emptyData).

(** A transport call that carries one chunk of a text: a new message to
    the chat [chatID] with the parse mode [parseMode], whose text is one
    of [chunks], and which carries no reply markup unless its text is the
    last chunk, in which case it may carry [markup]. *)
Definition chunkMessage (chatID : Z) (parseMode : string)
    (markup : option InlineKeyboardMarkup) (chunks : list string) (c : Chattable) : Prop :=
  exists x, c = CMessage x
    /\ msg_ChatID x = chatID
    /\ msg_ParseMode x = parseMode
    /\ msg_Text x ∈ chunks
    /\ (msg_ReplyMarkup x = None
        \/ (msg_ReplyMarkup x = markup /\ last chunks = Some (msg_Text x))).

(** No two identifiers the generator hands out are equal. *)
Definition ksuidInjective (env : Env) : Prop :=
  forall a b, ksuid_New env a = ksuid_New env b -> a = b.

(** What [targetsLoop] guarantees about the buttons it adds. *)
Definition targetsLoopPost (env : Env) (jobName : string) (targets : list ActiveTarget) (kb : InlineKeyboardMarkup)
    (r : list InlineKeyboardButton) (w : World)
    (o : Out (InlineKeyboardMarkup * list InlineKeyboardButton))
    (btns : list InlineKeyboardButton) : Prop :=
  concat (fst (value o)) ++ snd (value o) = concat kb ++ r ++ btns
  /\ Forall2 (targetButton env) btns targets
  /\ map btn_CallbackData btns = map (ksuid_New env) (seq (ksuids w) (length btns))
  /\ ksuids (world o) = (ksuids w + length btns)%nat
  /\ (ksuidInjective env ->
      Forall2 (fun b t => Cache (world o) !! btn_CallbackData b
                          = Some (targetIntent jobName (mapGet (tgt_Labels t) "instance")))
        btns targets)
  /\ (1 <= KeyboardRows (cfg env) -> len r < KeyboardRows (cfg env) ->
      Forall (rowOk env) kb ->
      Forall (rowOk env) (fst (value o))
      /\ len (snd (value o)) < KeyboardRows (cfg env)).

(** An inventory of three targets of two jobs, listed out of order. *)
Definition targetOf (job instance : string) : ActiveTarget :=
  mkTarget (<["instance" := instance]> (<["job" := job]> ∅))
    ("http://" +:+ instance +:+ "/metrics") "up".

Definition alertsByInstance (filter : list string) : result (list GettableAlert) :=
  if decide (filter = ["instance=h2:9100"]) then Ok [oneAlert] else Ok [].

Definition envInventory : Env :=
  testEnv testConfig transportOk alertsByInstance (Ok []) (Ok ["api"; "db"])
    (Ok [targetOf "api" "h2:9100"; targetOf "db" "h3:9100"; targetOf "api" "h1:9100"])
    (Ok emptyData).

Definition kbTargets : InlineKeyboardMarkup :=
  [[mkButton "OK h1:9100" "ksuid-0"; mkButton "FAIL h2:9100" "ksuid-1"]].

(** Silences of which only one is active. *)
Definition expiredSilence : GettableSilence :=
  mkSilence "s-0" "expired" "someone" EmptyString 0 10.

Definition envMixedSilences : Env :=
  testEnv testConfig transportOk noAlerts
    (Ok [expiredSilence; activeSilence; expiredSilence]) (Ok []) (Ok []) (Ok emptyData).

(** An alerts template configured and one active alert. *)
Definition envAlertsTemplate : Env :=
  testEnv (mkConfig 2 EmptyString "alerts.tmpl" EmptyString ["admin"]
             "OK " "FAIL " 3 3600)
    transportOk (fun _ => Ok [oneAlert]) (Ok []) (Ok []) (Ok []) (Ok emptyData).

Definition msgAlerts : Message := mkMsg "admin" 5 "/alerts" true "alerts" EmptyString.

(** The webhook text: the request body as it is when no webhook template
    is configured, the text the template gives otherwise. *)
Definition webhookRenders (env : Env) (ctx : RequestCtx) (data : Data)
    (text parseMode : string) : Prop :=
  let path := WebhookAlertsTemplatePath (cfg env) in
  ((strlen path =? 0) = true /\ text = req_PostBody ctx /\ parseMode = EmptyString)
  \/ ((strlen path =? 0) = false
      /\ template_ParseFiles env path = None
      /\ template_Execute env path (VData data) = Ok text
      /\ parseMode = ModeHTML).

(** The transport calls [calls] carry the text [text] in chunks: one new
    message per chunk, in order, to the chat [chatID] with the parse mode
    [parseMode], the reply markup [markup] on the last one and none on
    the others. *)
Definition sentInChunks (chatID : Z) (parseMode : string)
    (markup : option InlineKeyboardMarkup) (text : string) (calls : list Chattable) : Prop :=
  exists msgs,
    calls = map CMessage msgs
    /\ map msg_Text msgs = splitStringIntoChunks text
    /\ Forall (fun x => msg_ChatID x = chatID /\ msg_ParseMode x = parseMode) msgs
    /\ map msg_ReplyMarkup msgs
       = replicate (length (splitStringIntoChunks text) - 1) None ++ [markup].

(** A call of [sendMessage] or of the transport: neither a pause nor a
    log line. *)
Definition isSending (e : Event) : bool :=
  match e with EvSendMessage _ | EvSend _ => true | _ => false end.

(** The firing group of the webhook scenario, with a retry count of 0,
    and with a webhook template whose file cannot be loaded. *)
Definition firingGroup : Data :=
  mkData "telegram" "firing" [] groupLabels ∅ ∅ EmptyString.

Definition envFiringRetry0 : Env :=
  testEnv (mkConfig 2 EmptyString EmptyString EmptyString ["admin"] "OK " "FAIL " 0 3600)
    transportOk noAlerts (Ok []) (Ok []) (Ok []) (Ok firingGroup).

Definition envFiringNoTemplateFile : Env :=
  let e := testEnv (mkConfig 2 "webhook.tmpl" EmptyString EmptyString ["admin"]
                      "OK " "FAIL " 3 3600)
             transportOk noAlerts (Ok []) (Ok []) (Ok []) (Ok firingGroup) in
  mkEnv (cfg e) (versionString e) (programName e) (ksuid_New e) (BotAPI_Send e)
    (Alert_GetAlerts e) (Silence_GetSilences e) (Silence_PostSilences e)
    (General_GetStatus e) (v1_LabelValues e) (v1_Targets e) (v1_Buildinfo e)
    (v1_Runtimeinfo e)
    (fun _ => Some "open webhook.tmpl: no such file or directory")
    (template_Execute e) (json_Marshal e) (json_MarshalIndent e) (json_Unmarshal e)
    (strconv_ParseInt e) (time_Now e) (duration_String e) (bot_StartTime e)
    (formatDateTime e) (formatTarget e).

(** A webhook request whose body gives two chunks. *)
Definition requestTwoChunks : RequestCtx :=
  mkRequest "127.0.0.1:50000" "/alerts" true "POST" "-123456789" twoChunkText.

(** A retry count of 1. *)
Definition envRetry1 : Env :=
  testEnv (mkConfig 2 EmptyString EmptyString EmptyString ["admin"] "OK " "FAIL " 1 3600)
    transportOk noAlerts (Ok []) (Ok []) (Ok []) (Ok emptyData).

(** ** Strings: basic facts *)

Lemma app_empty_l (s : string) : EmptyString +:+ s = s.
Proof. reflexivity. Qed.

Lemma app_String (c : ascii) (a b : string) : String c a +:+ b = String c (a +:+ b).
Proof. reflexivity. Qed.

Lemma strlen_String (c : ascii) (a : string) : strlen (String c a) = 1 + strlen a.
Proof. unfold strlen. cbn [String.length]. lia. Qed.

Lemma strlen_app (a b : string) : strlen (a +:+ b) = strlen a + strlen b.
Proof.
  induction a as [|c a IH].
  - by rewrite app_empty_l.
  - rewrite app_String, !strlen_String, IH. lia.
Qed.

Lemma strlen_nonneg (a : string) : 0 <= strlen a.
Proof. unfold strlen. lia. Qed.

Lemma strlen_nl : strlen nl = 1.
Proof. reflexivity. Qed.

Lemma app_empty_r (s : string) : s +:+ EmptyString = s.
Proof.
  induction s as [|c s IH]; [reflexivity|].
  by rewrite app_String, IH.
Qed.

Lemma app_assoc_s (a b c : string) : (a +:+ b) +:+ c = a +:+ (b +:+ c).
Proof.
  induction a as [|x a IH]; [reflexivity|].
  rewrite !app_String. by rewrite IH.
Qed.

Lemma concat_empty_cons (x : string) (l : list string) :
  String.concat EmptyString (x :: l) = x +:+ String.concat EmptyString l.
Proof.
  destruct l as [|y l]; cbn [String.concat].
  - by rewrite app_empty_r.
  - reflexivity.
Qed.

Lemma concat_empty_app (l1 l2 : list string) :
  String.concat EmptyString (l1 ++ l2)
  = String.concat EmptyString l1 +:+ String.concat EmptyString l2.
Proof.
  induction l1 as [|x l1 IH].
  - reflexivity.
  - rewrite <- app_comm_cons, !concat_empty_cons, IH. by rewrite app_assoc_s.
Qed.

Lemma strings_Split_nonempty (s : string) (sep : ascii) : strings_Split s sep <> [].
Proof.
  destruct s as [|c r]; cbn [strings_Split]; [done|].
  destruct (Ascii.eqb c sep); [done|]. by destruct (strings_Split r sep).
Qed.

(** Joining the pieces with the separator gives the string back. *)
Lemma strings_Split_join (s : string) (sep : ascii) :
  String.concat (String sep EmptyString) (strings_Split s sep) = s.
Proof.
  induction s as [|c r IH]; [reflexivity|].
  cbn [strings_Split]. destruct (Ascii.eqb_spec c sep) as [->|Hne].
  - pose proof (strings_Split_nonempty r sep) as Hn.
    destruct (strings_Split r sep) as [|h t]; [done|].
    cbn [String.concat] in *. cbn [String.append]. by rewrite IH.
  - pose proof (strings_Split_nonempty r sep) as Hn.
    destruct (strings_Split r sep) as [|h t]; [done|].
    destruct t as [|h' t]; cbn [String.concat] in *.
    + by rewrite IH.
    + rewrite app_String. by rewrite IH.
Qed.

(** The lines of a run, each with its newline in front, are the newline
    followed by the run joined with newlines. *)
Lemma renderLines_join (g : list string) :
  g <> [] -> renderLines g = nl +:+ String.concat nl g.
Proof.
  unfold renderLines. induction g as [|l g IH]; [done|]. intros _.
  cbn [map]. rewrite concat_empty_cons.
  destruct g as [|l' g].
  - cbn [map String.concat]. by rewrite app_empty_r.
  - rewrite IH by done. cbn [String.concat]. by rewrite !app_assoc_s.
Qed.

Lemma renderLines_app (g1 g2 : list string) :
  renderLines (g1 ++ g2) = renderLines g1 +:+ renderLines g2.
Proof. unfold renderLines. by rewrite map_app, concat_empty_app. Qed.

Lemma renderLines_single (l : string) : renderLines [l] = nl +:+ l.
Proof. reflexivity. Qed.

(** ** The chunker *)

Lemma splitLoop_concat (ls chunks : list string) (chunk : string) :
  String.concat EmptyString (splitLoop ls chunks chunk)
  = String.concat EmptyString chunks +:+ chunk +:+ renderLines ls.
Proof.
  revert chunks chunk. induction ls as [|s ls IH]; intros chunks chunk.
  - cbn [splitLoop]. rewrite concat_empty_app. cbn. by rewrite !app_empty_r.
  - cbn [splitLoop]. change (s :: ls) with ([s] ++ ls).
    rewrite renderLines_app, renderLines_single.
    destruct (maxMessageTextLength <? strlen ((chunk +:+ nl) +:+ s)).
    + rewrite IH, concat_empty_app. cbn [String.concat].
      rewrite app_empty_l, !app_assoc_s. done.
    + rewrite IH, !app_assoc_s. done.
Qed.

(** Every chunk is the rendering of a run of consecutive lines. *)
Lemma splitLoop_groups (ls : list string) (gs : list (list string)) (g : list string) :
  exists gs', concat gs' = concat gs ++ g ++ ls
    /\ splitLoop ls (map renderLines gs) (renderLines g) = map renderLines gs'.
Proof.
  revert gs g. induction ls as [|s ls IH]; intros gs g.
  - exists (gs ++ [g]). split.
    + rewrite concat_app. cbn. by rewrite !app_nil_r.
    + cbn [splitLoop]. by rewrite map_app.
  - cbn [splitLoop].
    destruct (maxMessageTextLength <? strlen ((renderLines g +:+ nl) +:+ s)).
    + destruct (IH (gs ++ [g]) [s]) as (gs' & Hc & Hs).
      exists gs'. split.
      * rewrite Hc, concat_app. cbn. rewrite app_nil_r, <- !app_assoc. done.
      * rewrite <- Hs, map_app. cbn [map]. by rewrite app_empty_l.
    + destruct (IH gs (g ++ [s])) as (gs' & Hc & Hs).
      exists gs'. split.
      * rewrite Hc, <- !app_assoc. done.
      * rewrite <- Hs, renderLines_app, renderLines_single, app_assoc_s. done.
Qed.


Lemma splitLoop_bounded (all ls chunks : list string) (chunk : string) :
  (forall l, l ∈ ls -> l ∈ all) ->
  Forall (chunkOk all) chunks -> chunkOk all chunk ->
  Forall (chunkOk all) (splitLoop ls chunks chunk).
Proof.
  revert chunks chunk. induction ls as [|s ls IH]; intros chunks chunk Hin Hcs Hc.
  - cbn [splitLoop]. apply Forall_app. split; [done|]. by constructor.
  - cbn [splitLoop].
    assert (Hin' : forall l, l ∈ ls -> l ∈ all).
    { intros l Hl. apply Hin. by right. }
    destruct (Z.ltb_spec maxMessageTextLength (strlen ((chunk +:+ nl) +:+ s))) as [Hlt|Hge].
    + apply IH; [done| |].
      * apply Forall_app. split; [done|]. by constructor.
      * rewrite app_empty_l.
        destruct (Z.le_gt_cases (strlen (nl +:+ s)) maxMessageTextLength) as [Hle|Hgt].
        -- by left.
        -- right. exists s. split; [apply Hin; by left|]. split; [|done].
           rewrite strlen_app, strlen_nl in Hgt. lia.
    + apply IH; [done|done|]. by left.
Qed.

Lemma splitLoop_nonempty (ls chunks : list string) (chunk : string) :
  splitLoop ls chunks chunk <> [].
Proof.
  revert chunks chunk. induction ls as [|s ls IH]; intros chunks chunk.
  - cbn [splitLoop]. by destruct chunks.
  - cbn [splitLoop]. destruct (_ <? _); apply IH.
Qed.

Lemma beginsWithNewline_app (a b : string) :
  beginsWithNewline a -> beginsWithNewline (a +:+ b).
Proof. intros [r ->]. exists (r +:+ b). by rewrite app_assoc_s. Qed.

(** Once the current chunk begins with a newline, every chunk produced
    from here on does. *)
Lemma splitLoop_begins (ls chunks : list string) (chunk : string) :
  Forall beginsWithNewline chunks -> beginsWithNewline chunk ->
  Forall beginsWithNewline (splitLoop ls chunks chunk).
Proof.
  revert chunks chunk. induction ls as [|s ls IH]; intros chunks chunk Hcs Hc.
  - cbn [splitLoop]. apply Forall_app. split; [done|]. by constructor.
  - cbn [splitLoop]. destruct (_ <? _).
    + apply IH.
      * apply Forall_app. split; [done|]. by constructor.
      * exists s. by rewrite app_empty_l.
    + apply IH; [done|]. by apply beginsWithNewline_app, beginsWithNewline_app.
Qed.

(** C2, as amended.  Concatenating the chunks, with nothing put between
    them, gives the original text preceded by one newline: the chunker
    keeps every newline of the text at the head of the line that follows
    it and puts one more in front of the first line. *)
Theorem C2_chunks_concat_is_newline_text (text : string) :
  String.concat EmptyString (splitStringIntoChunks text) = nl +:+ text.
Proof.
  unfold splitStringIntoChunks. rewrite splitLoop_concat.
  cbn [String.concat]. rewrite !app_empty_l.
  rewrite renderLines_join by apply strings_Split_nonempty.
  pose proof (strings_Split_join text "010") as Hjoin. fold nl in Hjoin.
  by rewrite Hjoin.
Qed.

(** C2, as stated, fails for the one-line text [a]: the only chunk is a
    newline followed by [a], so neither concatenating the chunks nor
    joining them with newlines gives [a] back. *)
Lemma C2_rejoin_not_identity :
  splitStringIntoChunks "a" = [nl +:+ "a"]
  /\ String.concat EmptyString (splitStringIntoChunks "a") <> "a"
  /\ String.concat nl (splitStringIntoChunks "a") <> "a".
Proof. repeat split; vm_compute; congruence. Qed.

(** C3, as amended.  Every chunk is at most 4096 bytes long unless it is
    a single line of the text that is itself 4096 bytes or longer (with
    its newline in front); and the chunks are the renderings of
    consecutive runs of whole lines of the text, so a split never falls
    inside a line. *)
Theorem C3_chunks_bounded_unless_long_line (text : string) :
  let lines := strings_Split text "010" in
  Forall (fun c => strlen c <= maxMessageTextLength
                   \/ exists l, l ∈ lines /\ maxMessageTextLength <= strlen l
                                /\ c = nl +:+ l)
         (splitStringIntoChunks text)
  /\ exists groups : list (list string),
       concat groups = lines
       /\ splitStringIntoChunks text = map renderLines groups.
Proof.
  intros lines. split.
  - apply (splitLoop_bounded lines lines [] EmptyString); [done|constructor|].
    left. by vm_compute.
  - destruct (splitLoop_groups lines [] []) as (gs' & Hc & Hs).
    exists gs'. split; [exact Hc|exact Hs].
Qed.

(** The chunks of a text that is one line of 4096 bytes. *)
Lemma splitStringIntoChunks_longLine :
  splitStringIntoChunks longLine = [EmptyString; nl +:+ longLine].
Proof. vm_compute. reflexivity. Qed.

(** C3, as stated, fails for a text that is one line of 4096 bytes: the
    chunker emits an empty chunk and then the whole line with a newline
    in front, 4097 bytes. *)
Lemma C3_long_line_exceeds_limit :
  splitStringIntoChunks longLine = [EmptyString; nl +:+ longLine]
  /\ ~ Forall (fun c => strlen c <= maxMessageTextLength)
         (splitStringIntoChunks longLine).
Proof.
  pose proof splitStringIntoChunks_longLine as E.
  split; [exact E|]. rewrite E. intros H.
  apply Forall_cons in H as [_ H]. apply Forall_cons in H as [H _].
  apply Z.leb_le in H. vm_compute in H. discriminate.
Qed.

(** C9 fails as stated at the same text: the first chunk is empty and so
    does not begin with a newline. *)
Lemma C9_first_chunk_can_be_empty :
  ~ Forall beginsWithNewline (splitStringIntoChunks longLine).
Proof.
  rewrite splitStringIntoChunks_longLine. intros H.
  apply Forall_cons in H as [[r Hr] _]. discriminate Hr.
Qed.

(** ** The transport loop and [sendMessage] *)


Lemma sendLoop_transportOnly env (iters : nat) (m : Chattable) (err : error) (w : World) :
  transportOnly (sendLoop env iters m err w) w.
Proof.
  revert err w. induction iters as [|k IH]; intros err w.
  - repeat split. constructor.
  - cbn [sendLoop]. unfold bind, BotAPI_Send_call. cbn [value world events].
    destruct (BotAPI_Send env (sends w) m) as [|ra e|e]; cbn [value world events].
    + repeat split. cbn. repeat constructor.
    + destruct (IH (Some e) (mkWorld (Cache w) (ksuids w) (S (sends w)) (clock w)))
        as (Hc & Hk & Hev).
      repeat split; [exact Hc|exact Hk|].
      cbn. repeat (constructor; [reflexivity|]). exact Hev.
    + repeat split. cbn. repeat constructor.
Qed.

Lemma send_transportOnly env (m : Chattable) (w : World) :
  transportOnly (send env m w) w.
Proof. apply sendLoop_transportOnly. Qed.

Lemma sendChunks_transportOnly env chatID parseMode markup (chunks : list string) (w : World) :
  transportOnly (sendChunks env chatID parseMode markup chunks w) w.
Proof.
  revert w. induction chunks as [|c rest IH]; intros w.
  - repeat split. constructor.
  - cbn [sendChunks]. unfold bind. cbn [value world events].
    set (msg := CMessage _).
    destruct (send_transportOnly env msg w) as (Hc & Hk & Hev).
    destruct (value (send env msg w)) as [e|]; cbn [value world events].
    + repeat split; [exact Hc|exact Hk|]. rewrite app_nil_r. exact Hev.
    + destruct (IH (world (send env msg w))) as (Hc' & Hk' & Hev').
      repeat split; cbn [value world events]; [congruence|congruence|].
      apply Forall_app. by split.
Qed.

(** [sendMessage] records the call and then only talks to the transport. *)
Lemma sendMessage_events env (c : Chattable) (w : World) :
  exists evs, events (sendMessage env c w) = EvSendMessage c :: evs
    /\ Forall (fun e => isTransport e = true) evs
    /\ Cache (world (sendMessage env c w)) = Cache w
    /\ ksuids (world (sendMessage env c w)) = ksuids w.
Proof.
  unfold sendMessage, bind, emit. cbn [value world events].
  destruct c as [m|m|m|m|n]; cbn [app].
  - destruct (sendChunks_transportOnly env (msg_ChatID m) (msg_ParseMode m)
                (msg_ReplyMarkup m) (splitStringIntoChunks (msg_Text m)) w)
      as (Hc & Hk & Hev). eauto.
  - destruct (1 <? len (splitStringIntoChunks (edit_Text m))).
    + unfold bind. cbn [value world events].
      set (del := CDelete _).
      destruct (send_transportOnly env del w) as (Hc & Hk & Hev).
      destruct (value (send env del w)) as [e|]; cbn [value world events].
      * eexists. split; [reflexivity|]. rewrite app_nil_r. eauto.
      * destruct (sendChunks_transportOnly env (edit_ChatID m) (edit_ParseMode m)
                    (edit_ReplyMarkup m) (splitStringIntoChunks (edit_Text m))
                    (world (send env del w))) as (Hc' & Hk' & Hev').
        eexists. split; [reflexivity|]. split; [by apply Forall_app|].
        split; congruence.
    + destruct (send_transportOnly env (CEditText m) w) as (Hc & Hk & Hev). eauto.
  - destruct (send_transportOnly env (CDelete m) w) as (Hc & Hk & Hev). eauto.
  - destruct (send_transportOnly env (CEditMarkup m) w) as (Hc & Hk & Hev). eauto.
  - eexists. split; [reflexivity|]. repeat split. constructor.
Qed.

Lemma dispatched_transport (evs : list Event) :
  Forall (fun e => isTransport e = true) evs -> dispatched evs = [].
Proof.
  induction 1 as [|e evs He _ IH]; [reflexivity|].
  destruct e; cbn in *; try discriminate; exact IH.
Qed.

Lemma rendering_transport (evs : list Event) :
  Forall (fun e => isTransport e = true) evs ->
  Forall (fun e => isRendering e = false) evs.
Proof.
  intros H. eapply Forall_impl; [exact H|].
  intros e He. destruct e; cbn in *; congruence.
Qed.

Lemma dispatched_app (a b : list Event) :
  dispatched (a ++ b) = dispatched a ++ dispatched b.
Proof.
  induction a as [|e a IH]; [reflexivity|].
  destruct e; cbn; rewrite ?IH; reflexivity.
Qed.

Lemma sendMessageOrError_events env (c : Chattable) (w : World) :
  exists evs, events (sendMessageOrError env c w) = EvSendMessage c :: evs
    /\ Forall (fun e => isTransport e = true) evs
    /\ Cache (world (sendMessageOrError env c w)) = Cache w
    /\ ksuids (world (sendMessageOrError env c w)) = ksuids w.
Proof.
  destruct (sendMessage_events env c w) as (evs & He & Ht & Hc & Hk).
  unfold sendMessageOrError, bind. cbn [value world events].
  exists evs. rewrite He.
  destruct (value (sendMessage env c w)); cbn [value world events];
    rewrite app_nil_r; eauto.
Qed.

(** *** A transport that accepts every call *)

Section Accepting.

Variable env : Env.
Hypothesis retries : 1 <= SendMessageRetryCount (cfg env).
Hypothesis accepts : forall n c, BotAPI_Send env n c = SendOk.

Lemma send_accepted (m : Chattable) (w : World) :
  send env m w = mkOut None (mkWorld (Cache w) (ksuids w) (S (sends w)) (clock w)) [EvSend m].
Proof using retries accepts.
  unfold send.
  destruct (Z.to_nat (SendMessageRetryCount (cfg env))) as [|k] eqn:Hk; [lia|].
  cbn [sendLoop]. unfold bind, BotAPI_Send_call. cbn [value world events].
  rewrite accepts. reflexivity.
Qed.

Lemma sendChunks_accepted chatID parseMode markup (c : string) (rest : list string)
    (w : World) :
  exists msgs,
    events (sendChunks env chatID parseMode markup (c :: rest) w)
    = map (fun x => EvSend (CMessage x)) msgs
    /\ value (sendChunks env chatID parseMode markup (c :: rest) w) = None
    /\ map msg_Text msgs = c :: rest
    /\ Forall (fun x => msg_ChatID x = chatID /\ msg_ParseMode x = parseMode) msgs
    /\ map msg_ReplyMarkup msgs = replicate (length rest) None ++ [markup].
Proof using retries accepts.
  revert c w. induction rest as [|c' rest IH]; intros c w.
  - exists [mkMessage chatID c parseMode markup].
    cbn [sendChunks]. unfold bind. rewrite send_accepted. cbn.
    repeat split. repeat constructor.
  - destruct (IH c' (mkWorld (Cache w) (ksuids w) (S (sends w)) (clock w)))
      as (msgs & Hev & Hv & Ht & Hf & Hm).
    exists (mkMessage chatID c parseMode None :: msgs).
    change (sendChunks env chatID parseMode markup (c :: c' :: rest) w)
      with (bind (send env (CMessage (mkMessage chatID c parseMode None)))
              (fun err => match err with
                          | Some e => ret (Some e)
                          | None => sendChunks env chatID parseMode markup (c' :: rest)
                          end) w).
    unfold bind. rewrite send_accepted. cbn [value world events].
    rewrite Hev, Hv. cbn [map app]. rewrite Ht, Hm.
    repeat split. constructor; [by split|exact Hf].
Qed.

End Accepting.

(** ** Dispatching an edit *)

(** C4, as amended.  With a positive retry count and a transport that
    accepts every call, an edit whose text gives more than one chunk makes
    exactly these transport calls: one delete of the original message,
    then one new message per chunk, in order, to the same chat and with
    the same parse mode, the reply markup on the last one only; an edit
    whose text gives one chunk makes exactly one call, the edit itself.
    In both cases [sendMessage] returns no error. *)
Theorem C4_edit_dispatch_when_transport_accepts env (w : World)
    (m : EditMessageTextConfig) :
  1 <= SendMessageRetryCount (cfg env) ->
  (forall n c, BotAPI_Send env n c = SendOk) ->
  let chunks := splitStringIntoChunks (edit_Text m) in
  let o := sendMessage env (CEditText m) w in
  value o = None
  /\ ((len chunks = 1 /\ events o = [EvSendMessage (CEditText m); EvSend (CEditText m)])
      \/ (1 < len chunks
          /\ exists msgs,
               events o = EvSendMessage (CEditText m)
                          :: EvSend (CDelete (mkDelete (edit_ChatID m) (edit_MessageID m)))
                          :: map (fun x => EvSend (CMessage x)) msgs
               /\ map msg_Text msgs = chunks
               /\ Forall (fun x => msg_ChatID x = edit_ChatID m
                                   /\ msg_ParseMode x = edit_ParseMode m) msgs
               /\ map msg_ReplyMarkup msgs
                  = replicate (length chunks - 1) None ++ [edit_ReplyMarkup m])).
Proof.
  intros Hretry Hacc chunks o. subst o.
  unfold sendMessage, bind, emit. cbn [value world events].
  fold chunks.
  assert (Hne : chunks <> []) by apply splitLoop_nonempty.
  destruct chunks as [|c rest] eqn:Hchunks; [done|].
  destruct (Z.ltb_spec 1 (len (c :: rest))) as [Hlt|Hge].
  - unfold bind. rewrite (send_accepted env Hretry Hacc). cbn [value world events].
    destruct (sendChunks_accepted env Hretry Hacc (edit_ChatID m) (edit_ParseMode m)
                (edit_ReplyMarkup m) c rest
                (mkWorld (Cache w) (ksuids w) (S (sends w)) (clock w)))
      as (msgs & Hev & Hv & Ht & Hf & Hm).
    split; [exact Hv|]. right. split; [exact Hlt|].
    exists msgs. rewrite Hev.
    replace (length (c :: rest) - 1)%nat with (length rest) by (cbn [length]; lia).
    repeat split; done.
  - rewrite (send_accepted env Hretry Hacc). cbn [value world events].
    split; [reflexivity|]. left. split; [|reflexivity].
    unfold len in *. cbn [length] in *. lia.
Qed.

(** C4 at a concrete edit: two lines of 3000 bytes, which give two
    chunks. *)
Lemma C4_edit_two_chunks_example :
  exists msgs,
    transportCalls (events (sendMessage envOk (CEditText editTwoChunks) world0))
    = CDelete (mkDelete 1 7) :: map CMessage msgs
    /\ length msgs = 2%nat.
Proof.
  destruct (C4_edit_dispatch_when_transport_accepts envOk world0 editTwoChunks)
    as [_ [[Hone _]|[_ (msgs & Hev & Ht & _)]]].
  - vm_compute. discriminate.
  - intros n c. reflexivity.
  - vm_compute in Hone. discriminate.
  - exists msgs. split.
    + rewrite Hev. cbn [transportCalls]. f_equal.
      clear. induction msgs as [|x msgs IH]; [reflexivity|].
      cbn [map transportCalls]. by rewrite IH.
    + apply (f_equal length) in Ht. rewrite length_map in Ht. rewrite Ht.
      vm_compute. reflexivity.
Defined.

(** C4, as stated, fails when the transport rejects the delete: the edit
    below has two chunks, and the only transport call is the delete; no
    chunk is sent and the error is returned. *)
Lemma C4_rejected_delete_sends_nothing :
  len (splitStringIntoChunks (edit_Text editTwoChunks)) = 2
  /\ transportCalls (events (sendMessage envRejects (CEditText editTwoChunks) world0))
     = [CDelete (mkDelete 1 7)]
  /\ value (sendMessage envRejects (CEditText editTwoChunks) world0)
     = Some "Bad Request".
Proof. repeat split; vm_compute; reflexivity. Qed.

(** ** Dispatching a new message *)

Lemma splitLoop_cons (ls : list string) (c0 : string) (chunks : list string)
    (chunk : string) :
  splitLoop ls (c0 :: chunks) chunk = c0 :: splitLoop ls chunks chunk.
Proof.
  revert chunks chunk. induction ls as [|s ls IH]; intros chunks chunk.
  - reflexivity.
  - cbn [splitLoop]. destruct (_ <? _); by rewrite <- ?app_comm_cons, IH.
Qed.

(** C9, as amended.  For every text the chunker returns at least one
    chunk; every chunk after the first begins with a newline, and so does
    the first one whenever the first line of the text is shorter than
    4096 bytes (the empty text included).  With a positive retry count,
    dispatching a new message makes at least one transport call: the
    first chunk, sent as a new message. *)
Theorem C9_chunks_nonempty_first_send env (w : World) (m : MessageConfig) :
  1 <= SendMessageRetryCount (cfg env) ->
  let chunks := splitStringIntoChunks (msg_Text m) in
  chunks <> []
  /\ Forall beginsWithNewline (tail chunks)
  /\ (strlen (hd EmptyString (strings_Split (msg_Text m) "010")) < maxMessageTextLength ->
      Forall beginsWithNewline chunks)
  /\ exists first rest,
       events (sendMessage env (CMessage m) w)
       = EvSendMessage (CMessage m) :: EvSend (CMessage first) :: rest
       /\ Some (msg_Text first) = head chunks.
Proof.
  intros Hretry chunks.
  assert (Hne : chunks <> []) by apply splitLoop_nonempty.
  split; [exact Hne|].
  assert (Hshape : Forall beginsWithNewline (tail chunks)
                   /\ (strlen (hd EmptyString (strings_Split (msg_Text m) "010"))
                       < maxMessageTextLength -> Forall beginsWithNewline chunks)).
  { subst chunks. unfold splitStringIntoChunks.
    pose proof (strings_Split_nonempty (msg_Text m) "010") as Hs.
    destruct (strings_Split (msg_Text m) "010") as [|l0 ls]; [done|].
    cbn [splitLoop hd]. rewrite !app_empty_l.
    assert (Hb : Forall beginsWithNewline (splitLoop ls [] (nl +:+ l0))).
    { apply splitLoop_begins; [constructor|]. by exists l0. }
    destruct (Z.ltb_spec maxMessageTextLength (strlen (nl +:+ l0))) as [Hlt|Hge].
    - cbn [app]. rewrite splitLoop_cons. cbn [tail]. split; [exact Hb|].
      rewrite strlen_app, strlen_nl in Hlt. lia.
    - split; [|by intros _]. destruct (splitLoop ls [] (nl +:+ l0)); [constructor|].
      cbn [tail]. by apply Forall_cons in Hb as [_ Hb]. }
  split; [apply Hshape|]. split; [apply Hshape|].
  unfold sendMessage, bind, emit. cbn [value world events]. fold chunks.
  destruct chunks as [|c rest]; [done|].
  cbn [sendChunks head]. unfold bind, send.
  destruct (Z.to_nat (SendMessageRetryCount (cfg env))) as [|k] eqn:Hk; [lia|].
  cbn [sendLoop]. unfold bind, BotAPI_Send_call. cbn [value world events app].
  eexists _, _. split; [reflexivity|]. reflexivity.
Qed.

(** C9 at the empty text: one chunk, a newline, and one send. *)
Lemma C9_empty_text_example :
  Forall beginsWithNewline (splitStringIntoChunks EmptyString)
  /\ exists first rest,
       events (sendMessage envOk (CMessage (NewMessage 1 EmptyString)) world0)
       = EvSendMessage (CMessage (NewMessage 1 EmptyString))
         :: EvSend (CMessage first) :: rest.
Proof.
  destruct (C9_chunks_nonempty_first_send envOk world0 (NewMessage 1 EmptyString))
    as (_ & _ & Hall & first & rest & Hev & _).
  - vm_compute. discriminate.
  - split.
    + apply Hall. vm_compute. reflexivity.
    + exists first, rest. exact Hev.
Defined.

(** ** Commands *)

Lemma isAdmin_In env (m : Message) :
  In (m_From m) (Users (cfg env)) ->
  existsb (fun u => String.eqb u (m_From m)) (Users (cfg env)) = true.
Proof.
  intros Hin. apply existsb_exists. exists (m_From m). split; [exact Hin|].
  apply String.eqb_refl.
Qed.

(** The arguments that pass the check of [/alerts] and [/silences]. *)
Lemma argumentError_accepts (args : string) :
  args = EmptyString \/ args = "json" ->
  argumentError (strings_Split args " ") = None
  /\ (hd EmptyString (strings_Split args " ") = args).
Proof. intros [->| ->]; split; reflexivity. Qed.

(** C8: the code takes the JSON path although a silences template is
    configured.  With [silences_template_path] set, no alerts template
    set, one active silence and a [/silences] command without argument,
    the reply is the marshalled JSON and no template is rendered:
    the test reads [cfg.GettableAlertsTemplatePath], the rendering would
    use [cfg.SilencesTemplatePath]. *)
Theorem C8_silences_template_not_used :
  SilencesTemplatePath (cfg envSilences) = "silences.tmpl"
  /\ m_CommandArguments msgSilences = EmptyString
  /\ dispatched (events (processMessage envSilences msgSilences world0))
     = [CMessage (NewMessage 5 "[json]")]
  /\ List.filter isRendering (events (processMessage envSilences msgSilences world0))
     = [EvMarshalIndent (VSilences [activeSilence])].
Proof. repeat split; vm_compute; reflexivity. Qed.

(** ** The targets menu *)

(** C7: the code logs a target without [instance] label and then goes
    on with it.  For the job [api] and an inventory of one target that
    has the label [job = api] and no [instance], the keyboard holds a
    button for that target, labelled with the bare OK prefix, and the
    cache an intent of type [target] with an empty [target_name]. *)
Theorem C7_target_without_instance_gets_button :
  mapGet (tgt_Labels targetNoInstance) "instance" = EmptyString
  /\ value (newTargetsKB envTargets "api" world0) = Ok [[mkButton "OK " "ksuid-0"]]
  /\ Cache (world (newTargetsKB envTargets "api" world0)) !! "ksuid-0"
     = Some (mkCallback "target" (<["target_name" := EmptyString]> (<["job_name" := "api"]> ∅)))
  /\ events (newTargetsKB envTargets "api" world0)
     = [EvTargets; EvMarshal (VTarget targetNoInstance);
        EvLog "could not get labels [job, instance] for target '{}'";
        EvGetAlerts ["instance="]].
Proof. repeat split; vm_compute; reflexivity. Qed.

(** ** The webhook *)

Lemma strlen_pos (s : string) : (0 <? strlen s) = true <-> s <> EmptyString.
Proof.
  destruct s as [|c s].
  - split; [discriminate|done].
  - split; [discriminate|]. intros _. apply Z.ltb_lt.
    rewrite strlen_String. pose proof (strlen_nonneg s). lia.
Qed.

Lemma silenceable_bool (data : Data) :
  (String.eqb (data_Status data) "firing"
   && (0 <? strlen (mapGet (data_GroupLabels data) "instance"))
   && (0 <? strlen (mapGet (data_GroupLabels data) "alertname"))) = true
  <-> silenceable data.
Proof.
  unfold silenceable. rewrite !andb_true_iff, String.eqb_eq, !strlen_pos. tauto.
Qed.

(** Case analysis on every [match] and [if] of the program text that is
    visible in the goal. *)
Ltac program_cases :=
  repeat (cbn [value world events app negb];
          match goal with
          | |- context [match ?x with _ => _ end] => destruct x eqn:?
          end);
  cbn [value world events app negb].

(** Replaces the trace of the one [sendMessage] call in the goal by its
    shape and removes the transport events from [dispatched]. *)
Ltac use_sendMessage :=
  match goal with
  | |- context [sendMessage ?e ?c ?w'] =>
      let tr := fresh "tr" in
      let Hev := fresh "Hev" in
      let Htr := fresh "Htr" in
      let Hc := fresh "Hc" in
      let Hk := fresh "Hk" in
      destruct (sendMessage_events e c w') as (tr & Hev & Htr & Hc & Hk);
      rewrite ?Hev, ?Hc; cbn [dispatched app];
      rewrite ?dispatched_app, ?(dispatched_transport tr Htr); cbn [dispatched app]
  end.

(** The scenario of the specification: a firing group with
    [instance = h1] and [alertname = HostDown], and the same group
    resolved. *)
Example webhook_firing_has_silence_button :
  dispatched (events (handleHTTP envFiring requestAlerts world0))
  = [CMessage (mkMessage (-123456789) "{payload}" EmptyString
                 (Some [[mkButton "Silence" "ksuid-0"]]))]
  /\ Cache (world (handleHTTP envFiring requestAlerts world0)) !! "ksuid-0"
     = Some (mkCallback "silence" (<["alertname" := "HostDown"]> (<["instance" := "h1"]> ∅))).
Proof. split; vm_compute; reflexivity. Qed.

Example webhook_resolved_has_no_button :
  dispatched (events (handleHTTP envResolved requestAlerts world0))
  = [CMessage (mkMessage (-123456789) "{payload}" EmptyString None)]
  /\ Cache (world (handleHTTP envResolved requestAlerts world0)) = ∅.
Proof. split; vm_compute; reflexivity. Qed.

(** ** The jobs menu *)

Section JobsMenu.

Variable env : Env.
Hypothesis rowSize : 1 <= KeyboardRows (cfg env).


Lemma jobsLoop_spec (labels : list string) :
  forall (kb : InlineKeyboardMarkup) (r : list InlineKeyboardButton) (w : World),
    len r < KeyboardRows (cfg env) ->
    Forall (rowOk env) kb ->
    let o := jobsLoop env labels kb r w in
    Forall (rowOk env) (fst (value o))
    /\ len (snd (value o)) < KeyboardRows (cfg env)
    /\ exists btns,
         concat (fst (value o)) ++ snd (value o) = concat kb ++ r ++ btns
         /\ Forall2 (jobButton env) btns
              (List.filter (fun l => lookupOk (jobAlerts env l)) labels).
Proof using rowSize.
  induction labels as [|l rest IH]; intros kb r w Hr Hkb.
  - cbn. repeat split; [exact Hkb|exact Hr|]. exists []. split; [|constructor].
    by rewrite app_nil_r.
  - cbn [jobsLoop List.filter].
    change (jobAlerts env l) with (Alert_GetAlerts env ["job=" +:+ l]).
    unfold call, log_Printf, emit, ret, bind, ksuid_New_String, Cache_Set.
    cbn [value world events app].
    destruct (Alert_GetAlerts env ["job=" +:+ l]) as [payload|err] eqn:Hq;
      cbn [value world events app lookupOk].
    + set (btn := NewInlineKeyboardButtonData _ _).
      assert (Hbtn : jobButton env btn l).
      { exists payload. split; [exact Hq|]. subst btn. by destruct payload. }
      assert (Hlen : len (r ++ [btn]) = len r + 1).
      { unfold len. rewrite length_app. cbn [length]. lia. }
      destruct (Z.eqb_spec (len (r ++ [btn])) (KeyboardRows (cfg env))) as [Hfull|Hnot].
      * match goal with
        | |- context [jobsLoop env rest ?kb' ?r' ?w'] =>
            destruct (IH kb' r' w') as (H1 & H2 & btns & H3 & H4)
        end.
        { unfold len. cbn [length]. lia. }
        { apply Forall_app. split; [exact Hkb|]. constructor; [|constructor].
          unfold rowOk. pose proof (Zle_0_nat (length r)). unfold len in *. lia. }
        repeat split; [exact H1|exact H2|].
        exists (btn :: btns). split; [|by constructor].
        rewrite H3, concat_app. cbn [concat]. rewrite app_nil_r, <- !app_assoc.
        reflexivity.
      * match goal with
        | |- context [jobsLoop env rest ?kb' ?r' ?w'] =>
            destruct (IH kb' r' w') as (H1 & H2 & btns & H3 & H4)
        end.
        { lia. }
        { exact Hkb. }
        repeat split; [exact H1|exact H2|].
        exists (btn :: btns). split; [|by constructor].
        rewrite H3, <- !app_assoc. reflexivity.
    + destruct (IH kb r w Hr Hkb) as (H1 & H2 & btns & H3 & H4).
      repeat split; [exact H1|exact H2|]. exists btns. by split.
Qed.

End JobsMenu.

Lemma filter_complement_length {A} (f : A -> bool) (l : list A) :
  len (List.filter f l) = len l - len (List.filter (fun x => negb (f x)) l).
Proof.
  unfold len. induction l as [|x l IH]; [reflexivity|].
  cbn [List.filter]. destruct (f x); cbn [negb length]; lia.
Qed.

(** C5, as amended.  With a configured keyboard row size of at least 1,
    a jobs menu that is built is a list of rows of job buttons followed
    by one final row holding only the [Close menu] button, under whose
    key an intent of type [close] is in the cache.  The job buttons are,
    in order, those of the job names the monitoring service returned
    whose alert query succeeded: their number is the number of returned
    names minus the number of names whose query failed, and each is
    labelled with the OK prefix when its query returned no alert and
    with the problem prefix otherwise, followed by the job name.  Every
    row holds at least one and at most [KeyboardRows] buttons. *)
Theorem C5_jobs_menu_layout env (w : World) (kb : InlineKeyboardMarkup) :
  1 <= KeyboardRows (cfg env) ->
  value (newJobsKB env w) = Ok kb ->
  exists labels rows closeID,
    v1_LabelValues env "job" = Ok labels
    /\ kb = rows ++ [[mkButton "Close menu" closeID]]
    /\ Cache (world (newJobsKB env w)) !! closeID = Some (mkCallback "close" ∅)
    /\ len (concat rows)
       = len labels - len (List.filter (fun l => negb (lookupOk (jobAlerts env l))) labels)
    /\ Forall2 (fun b l => exists payload, jobAlerts env l = Ok payload
                             /\ btn_Text b = prefixFor env payload +:+ l)
         (concat rows) (List.filter (fun l => lookupOk (jobAlerts env l)) labels)
    /\ Forall (fun row => 1 <= len row <= KeyboardRows (cfg env)) kb.
Proof.
  intros Hrows. unfold newJobsKB.
  unfold call, emit, ret, bind, ksuid_New_String, Cache_Set.
  cbn [value world events app].
  destruct (v1_LabelValues env "job") as [labels|err]; cbn [value world]; [|discriminate].
  intros [= <-].
  destruct (jobsLoop_spec env Hrows labels [] [] w) as (H1 & H2 & btns & H3 & H4).
  { unfold len. cbn [length]. lia. }
  { constructor. }
  cbn [concat app] in H3.
  set (o := jobsLoop env labels [] [] w) in *.
  set (rows := if 0 <? len (snd (value o)) then fst (value o) ++ [snd (value o)]
               else fst (value o)).
  assert (Hrowsok : Forall (fun row => 1 <= len row <= KeyboardRows (cfg env)) rows
                    /\ concat rows = btns).
  { subst rows. destruct (Z.ltb_spec 0 (len (snd (value o)))) as [Hpos|Hzero].
    - split.
      + apply Forall_app. split; [exact H1|]. constructor; [lia|constructor].
      + rewrite concat_app. cbn [concat]. by rewrite app_nil_r.
    - split; [exact H1|]. rewrite <- H3.
      destruct (snd (value o)) as [|b r]; [by rewrite app_nil_r|].
      unfold len in Hzero. cbn [length] in Hzero. lia. }
  destruct Hrowsok as [Hok Hconcat].
  eexists labels, rows, _. split; [reflexivity|]. split; [reflexivity|].
  cbn [Cache]. split; [apply lookup_insert_eq|].
  rewrite Hconcat. split; [|split].
  - rewrite <- filter_complement_length. unfold len. f_equal.
    by apply Forall2_length in H4.
  - exact H4.
  - apply Forall_app. split; [exact Hok|]. constructor; [|constructor].
    unfold len. cbn [length]. lia.
Qed.

(** C5 at the scenario of the specification: [api] has no active alert,
    [db] has one, and the query for [web] fails. *)
Lemma C5_jobs_menu_example :
  exists labels rows closeID,
    v1_LabelValues envJobs "job" = Ok labels
    /\ kbJobs = rows ++ [[mkButton "Close menu" closeID]]
    /\ Cache (world (newJobsKB envJobs world0)) !! closeID = Some (mkCallback "close" ∅)
    /\ len (concat rows)
       = len labels
         - len (List.filter (fun l => negb (lookupOk (jobAlerts envJobs l))) labels)
    /\ Forall2 (fun b l => exists payload, jobAlerts envJobs l = Ok payload
                             /\ btn_Text b = prefixFor envJobs payload +:+ l)
         (concat rows) (List.filter (fun l => lookupOk (jobAlerts envJobs l)) labels)
    /\ Forall (fun row => 1 <= len row <= KeyboardRows (cfg envJobs)) kbJobs.
Proof.
  apply (C5_jobs_menu_layout envJobs world0 kbJobs).
  - vm_compute. discriminate.
  - vm_compute. reflexivity.
Defined.

(** C5, as stated, fails for a configured row size of 0: the two job
    buttons end up in one row, and no row of a keyboard that holds a
    button can have at most 0 buttons. *)
Lemma C5_row_size_zero :
  KeyboardRows (cfg envRows0) = 0
  /\ value (newJobsKB envRows0 world0)
     = Ok [[mkButton "OK api" "ksuid-0"; mkButton "OK db" "ksuid-1"];
           [mkButton "Close menu" "ksuid-2"]]
  /\ forall kb, value (newJobsKB envRows0 world0) = Ok kb ->
       ~ Forall (fun row => len row <= KeyboardRows (cfg envRows0)) kb.
Proof.
  assert (E : value (newJobsKB envRows0 world0)
              = Ok [[mkButton "OK api" "ksuid-0"; mkButton "OK db" "ksuid-1"];
                    [mkButton "Close menu" "ksuid-2"]])
    by (vm_compute; reflexivity).
  split; [reflexivity|]. split; [exact E|].
  intros kb Hkb. rewrite E in Hkb. injection Hkb as <-. intros H.
  apply Forall_cons in H as [H _]. vm_compute in H. by apply H.
Qed.

(** ** The cache and the router *)

Section Frame.

Variable env : Env.
Variable t : string.


Lemma keeps_ret {A} (a : A) : keeps env t (ret a).
Proof. intros w _. split; [reflexivity|]. cbn. lia. Qed.

Lemma keeps_emit (e : Event) : keeps env t (emit e).
Proof. intros w _. split; [reflexivity|]. cbn. lia. Qed.

Lemma keeps_bind {A B} (m : M A) (k : A -> M B) :
  keeps env t m -> (forall a, keeps env t (k a)) -> keeps env t (bind m k).
Proof.
  intros Hm Hk w Hw. unfold bind. cbn [world].
  destruct (Hm w Hw) as [Hc Hn].
  destruct (Hk (value (m w)) (world (m w))) as [Hc' Hn'].
  { intros n Hle. apply Hw. lia. }
  split; [congruence|lia].
Qed.

Lemma keeps_log (line : string) : keeps env t (log_Printf line).
Proof. apply keeps_emit. Qed.

Lemma keeps_call {A} (e : Event) (a : A) : keeps env t (call e a).
Proof. apply keeps_bind; [apply keeps_emit|intros; apply keeps_ret]. Qed.

Lemma keeps_now : keeps env t (time_Now_call env).
Proof. intros w _. split; [reflexivity|]. cbn. lia. Qed.

Lemma keeps_since (t0 : Z) : keeps env t (time_Since env t0).
Proof. apply keeps_bind; [apply keeps_now|intros; apply keeps_ret]. Qed.

(** A new cache entry under a new identifier. *)
Lemma keeps_store {A} (cb : Callback) (k : string -> M A) :
  (forall cacheID, keeps env t (k cacheID)) ->
  keeps env t (do cacheID <- ksuid_New_String env; run Cache_Set cacheID cb; k cacheID).
Proof.
  intros Hk w Hw. unfold bind, ksuid_New_String, Cache_Set. cbn [value world].
  match goal with
  | |- context [k ?id ?w'] => destruct (Hk id w') as [Hc Hn]
  end.
  { intros n Hle. cbn in Hle. apply Hw. lia. }
  cbn [Cache ksuids] in *. split; [|lia].
  rewrite Hc. apply lookup_insert_ne. apply Hw. lia.
Qed.

Lemma keeps_sendMessage (c : Chattable) : keeps env t (sendMessage env c).
Proof.
  intros w _. destruct (sendMessage_events env c w) as (tr & _ & _ & Hc & Hk).
  rewrite Hc, Hk. split; [reflexivity|lia].
Qed.

Lemma keeps_sendMessageOrError (c : Chattable) : keeps env t (sendMessageOrError env c).
Proof.
  intros w _. destruct (sendMessageOrError_events env c w) as (tr & _ & _ & Hc & Hk).
  rewrite Hc, Hk. split; [reflexivity|lia].
Qed.

(** One step of a proof of [keeps]: by the shape of the program. *)
Ltac keeps_step :=
  first
    [ apply keeps_store; intros
    | apply keeps_sendMessageOrError
    | apply keeps_sendMessage
    | apply keeps_call
    | apply keeps_since
    | apply keeps_now
    | apply keeps_log
    | apply keeps_emit
    | apply keeps_ret
    | assumption
    | apply keeps_bind; [|intros]
    | match goal with
      | |- keeps _ _ (match ?x with _ => _ end) => destruct x
      end ].

Lemma keeps_applyTemplate (v : Value) (path : string) : keeps env t (applyTemplate env v path).
Proof. unfold applyTemplate. repeat keeps_step. Qed.

Lemma keeps_jobsLoop (labels : list string) :
  forall kb r, keeps env t (jobsLoop env labels kb r).
Proof.
  induction labels as [|l rest IH]; intros kb r; cbn [jobsLoop]; cbv zeta.
  - apply keeps_ret.
  - repeat first [apply IH | keeps_step].
Qed.

Lemma keeps_newJobsKB : keeps env t (newJobsKB env).
Proof.
  unfold newJobsKB. cbv zeta.
  repeat first [apply keeps_jobsLoop | keeps_step].
Qed.

Lemma keeps_targetsLoop (jobName : string) (targets : list ActiveTarget) :
  forall kb r, keeps env t (targetsLoop env jobName targets kb r).
Proof.
  induction targets as [|x rest IH]; intros kb r; cbn [targetsLoop]; cbv zeta.
  - apply keeps_ret.
  - repeat first [apply IH | keeps_step].
Qed.

Lemma keeps_newTargetsKB (jobName : string) : keeps env t (newTargetsKB env jobName).
Proof.
  unfold newTargetsKB. cbv zeta.
  repeat first [apply keeps_targetsLoop | keeps_step].
Qed.

Lemma keeps_processCallbackQuery (cq : CallbackQuery) (cb : Callback) :
  keeps env t (processCallbackQuery env cq cb).
Proof.
  unfold processCallbackQuery, goBackRow. cbv zeta.
  repeat first [apply keeps_newTargetsKB | apply keeps_newJobsKB
               | apply keeps_applyTemplate | keeps_step].
Qed.

End Frame.

(** C1.  A token [t] is stored with an intent [cb], and a callback query
    carrying [t] arrives.  The lookup returns [cb]; after the removal the
    entry is absent and a second lookup answers not found.  The router
    does exactly this lookup and removal and hands [cb] on: it marshals
    it for the log and, when that succeeds, runs [processCallbackQuery]
    on it in the world where the entry is already gone.  As long as no
    identifier generated later equals [t], the entry is still absent when
    the whole update has been processed: a lookup answers not found, and
    a second update with the same token does nothing but log that. *)
Theorem C1_token_consumed_once env (w : World) (cq : CallbackQuery) (cb : Callback) :
  let t := cq_Data cq in
  let update := mkUpdate None None (Some cq) in
  let w1 := world (Cache_Set t cb w) in
  let w2 := world (Cache_Remove t w1) in
  let o1 := handleUpdate env update w1 in
  value (Cache_Get t w1) = Ok cb
  /\ Cache w2 !! t = None
  /\ value (Cache_Get t w2) = Err ErrNotFound
  /\ (exists rest, events o1 = EvMarshal (VCallback cb) :: rest)
  /\ (forall b, json_Marshal env (VCallback cb) = Ok b ->
      exists rest,
        events o1
        = EvMarshal (VCallback cb)
          :: EvLog ("new callback query from " +:+ cq_From cq +:+ ": " +:+ b)
          :: events (processCallbackQuery env cq cb w2) ++ rest)
  /\ ((forall n, (ksuids w <= n)%nat -> ksuid_New env n <> t) ->
      Cache (world o1) !! t = None
      /\ value (Cache_Get t (world o1)) = Err ErrNotFound
      /\ handleUpdate env update (world o1)
         = mkOut tt (world o1)
             [EvLog ("error getting callback data from cache: " +:+ ErrNotFound)]).
Proof.
  intros t update w1 w2 o1.
  assert (Hget : Cache w1 !! t = Some cb) by apply lookup_insert_eq.
  assert (Hgone : Cache w2 !! t = None) by apply lookup_delete_eq.
  assert (Ho1 : o1 = bind (call (EvMarshal (VCallback cb)) (json_Marshal env (VCallback cb)))
                       (fun b => match b with
                                 | Err err => log_Printf ("error marshalling cache data: " +:+ err)
                                 | Ok b =>
                                     run log_Printf ("new callback query from "
                                                     +:+ cq_From cq +:+ ": " +:+ b);
                                     do err <- processCallbackQuery env cq cb;
                                     match err with
                                     | Some e => log_Printf ("error processing callback query: " +:+ e)
                                     | None => ret tt
                                     end
                                 end) w2).
  { subst o1 w2 w1 update. unfold handleUpdate.
    cbn [upd_Message upd_EditedMessage upd_CallbackQuery].
    unfold bind, Cache_Get, Cache_Remove, Cache_Set.
    cbn [value world events app Cache ksuids sends]. fold t.
    rewrite lookup_insert_eq. reflexivity. }
  split; [unfold Cache_Get; cbn [value]; by rewrite Hget|].
  split; [exact Hgone|].
  split; [unfold Cache_Get; cbn [value]; by rewrite Hgone|].
  split; [rewrite Ho1; unfold bind, call, emit, ret; cbn [value world events app]; eauto|].
  split.
  { intros b Hb. rewrite Ho1. unfold bind, call, emit, ret, log_Printf.
    cbn [value world events app]. rewrite Hb. cbn [value world events app]. eauto. }
  intros Hfresh.
  assert (Hfresh2 : freshFrom env t w2) by exact Hfresh.
  assert (Hkeep : Cache (world o1) !! t = None).
  { rewrite Ho1, <- Hgone.
    apply (fun f (H : @keeps env t unit f) => proj1 (H w2 Hfresh2)).
    apply keeps_bind; [apply keeps_call|]. intros [b|err]; [|apply keeps_log].
    apply keeps_bind; [apply keeps_log|]. intros _.
    apply keeps_bind; [apply keeps_processCallbackQuery|].
    intros [e|]; [apply keeps_log|apply keeps_ret]. }
  split; [exact Hkeep|].
  split; [unfold Cache_Get; cbn [value]; by rewrite Hkeep|].
  unfold handleUpdate. cbn [upd_Message upd_EditedMessage upd_CallbackQuery update].
  unfold bind, Cache_Get, log_Printf, emit. cbn [value world events]. fold t.
  rewrite Hkeep. reflexivity.
Qed.

(** C1 at a concrete token: a [close] intent stored under [tok]. *)
Lemma C1_token_consumed_once_example :
  let update := mkUpdate None None (Some queryTok) in
  let w1 := world (Cache_Set "tok" (mkCallback "close" ∅) world0) in
  value (Cache_Get "tok" w1) = Ok (mkCallback "close" ∅)
  /\ Cache (world (handleUpdate envOk update w1)) !! "tok" = None
  /\ handleUpdate envOk update (world (handleUpdate envOk update w1))
     = mkOut tt (world (handleUpdate envOk update w1))
         [EvLog ("error getting callback data from cache: " +:+ ErrNotFound)].
Proof.
  destruct (C1_token_consumed_once envOk world0 queryTok (mkCallback "close" ∅))
    as (H1 & _ & _ & _ & _ & H6).
  destruct H6 as (H5 & _ & H7).
  - intros n _. discriminate.
  - split; [exact H1|]. split; [exact H5|exact H7].
Defined.

(** * Further properties of the code *)

(** ** The chunker: short texts and the empty first chunk *)

Lemma splitLoop_fits (ls chunks : list string) (chunk : string) :
  strlen (chunk +:+ renderLines ls) <= maxMessageTextLength ->
  splitLoop ls chunks chunk = chunks ++ [chunk +:+ renderLines ls].
Proof.
  revert chunk. induction ls as [|s ls IH]; intros chunk Hlen.
  - cbn [splitLoop]. unfold renderLines. cbn. by rewrite app_empty_r.
  - cbn [splitLoop]. change (s :: ls) with ([s] ++ ls) in *.
    rewrite renderLines_app, renderLines_single in *.
    rewrite <- !app_assoc_s in Hlen.
    destruct (Z.ltb_spec maxMessageTextLength (strlen ((chunk +:+ nl) +:+ s))) as [Hlt|Hge].
    + rewrite strlen_app in Hlen. pose proof (strlen_nonneg (renderLines ls)). lia.
    + rewrite IH by exact Hlen. by rewrite !app_assoc_s.
Qed.

(** X1.  A text shorter than 4096 bytes is not split: the chunker
    returns one chunk, the text with a newline in front. *)
Theorem X1_short_text_one_chunk (text : string) :
  strlen text < maxMessageTextLength ->
  splitStringIntoChunks text = [nl +:+ text].
Proof.
  intros Hlen. unfold splitStringIntoChunks.
  assert (Hr : renderLines (strings_Split text "010") = nl +:+ text).
  { rewrite renderLines_join by apply strings_Split_nonempty.
    pose proof (strings_Split_join text "010") as Hjoin. fold nl in Hjoin.
    by rewrite Hjoin. }
  rewrite splitLoop_fits; rewrite app_empty_l, Hr; [reflexivity|].
  rewrite strlen_app, strlen_nl. lia.
Qed.

Lemma X1_short_text_example :
  splitStringIntoChunks ("line one" +:+ nl +:+ "line two")
  = [nl +:+ "line one" +:+ nl +:+ "line two"].
Proof.
  apply (X1_short_text_one_chunk ("line one" +:+ nl +:+ "line two")).
  vm_compute. reflexivity.
Defined.

(** X2.  The first chunk is the empty string exactly when the first line
    of the text has 4096 bytes or more; no other chunk is ever empty. *)
Theorem X2_empty_first_chunk_iff_long_first_line (text : string) :
  let chunks := splitStringIntoChunks text in
  (head chunks = Some EmptyString
   <-> maxMessageTextLength <= strlen (hd EmptyString (strings_Split text "010")))
  /\ Forall (fun c => c <> EmptyString) (tail chunks).
Proof.
  intros chunks. subst chunks. unfold splitStringIntoChunks.
  pose proof (strings_Split_nonempty text "010") as Hs.
  destruct (strings_Split text "010") as [|l0 ls]; [done|].
  cbn [splitLoop hd]. rewrite !app_empty_l.
  assert (Hb : Forall beginsWithNewline (splitLoop ls [] (nl +:+ l0))).
  { apply splitLoop_begins; [constructor|]. by exists l0. }
  assert (Hn : forall l, Forall beginsWithNewline l -> Forall (fun c => c <> EmptyString) l).
  { intros l Hl. eapply Forall_impl; [exact Hl|]. intros c [r ->]. discriminate. }
  destruct (Z.ltb_spec maxMessageTextLength (strlen (nl +:+ l0))) as [Hlt|Hge];
    rewrite strlen_app, strlen_nl in *.
  - cbn [app]. rewrite splitLoop_cons. cbn [head tail]. split; [|by apply Hn].
    split; [intros _; lia|reflexivity].
  - pose proof (splitLoop_nonempty ls [] (nl +:+ l0)) as Hne.
    destruct (splitLoop ls [] (nl +:+ l0)) as [|c cs]; [done|].
    apply Forall_cons in Hb as [[r ->] Hb]. cbn [head tail].
    split; [|by apply Hn]. split; [discriminate|lia].
Qed.

(** ** The retry loop *)

Lemma transportCalls_app (a b : list Event) :
  transportCalls (a ++ b) = transportCalls a ++ transportCalls b.
Proof.
  induction a as [|e a IH]; [reflexivity|].
  destruct e; cbn; rewrite ?IH; reflexivity.
Qed.

Lemma sendLoop_calls env (iters : nat) (m : Chattable) (err : error) (w : World) :
  let o := sendLoop env iters m err w in
  (length (transportCalls (events o)) <= iters)%nat
  /\ Forall (fun c => c = m) (transportCalls (events o))
  /\ sends (world o) = (sends w + length (transportCalls (events o)))%nat.
Proof.
  revert err w. induction iters as [|k IH]; intros err w.
  - cbn. split; [lia|]. split; [constructor|lia].
  - cbn [sendLoop]. unfold bind, BotAPI_Send_call, log_Printf, emit.
    cbn [value world events app].
    destruct (BotAPI_Send env (sends w) m) as [|ra e|e]; cbn [value world events app].
    + cbn. split; [lia|]. split; [by repeat constructor|lia].
    + destruct (IH (Some e) (mkWorld (Cache w) (ksuids w) (S (sends w)) (clock w))) as (H1 & H2 & H3).
      cbn [transportCalls length sends] in *.
      split; [lia|]. split; [by constructor|lia].
    + cbn. split; [lia|]. split; [by repeat constructor|lia].
Qed.

(** X3.  One [send] calls the transport at most [SendMessageRetryCount]
    times (not at all when that count is 0 or negative), always with the
    message it was given, and counts every call. *)
Theorem X3_send_calls_bounded env (m : Chattable) (w : World) :
  let o := send env m w in
  Z.of_nat (length (transportCalls (events o))) <= Z.max 0 (SendMessageRetryCount (cfg env))
  /\ Forall (fun c => c = m) (transportCalls (events o))
  /\ sends (world o) = (sends w + length (transportCalls (events o)))%nat.
Proof.
  intros o. subst o. unfold send.
  destruct (sendLoop_calls env (Z.to_nat (SendMessageRetryCount (cfg env))) m None w)
    as (H1 & H2 & H3).
  split; [lia|]. split; [exact H2|exact H3].
Qed.

(** X4.  With a retry count of 0 or less nothing is ever sent:
    [sendMessage] of a new message makes no transport call and still
    returns no error. *)
Theorem X4_retry_count_zero_sends_nothing env (m : MessageConfig) (w : World) :
  SendMessageRetryCount (cfg env) <= 0 ->
  sendMessage env (CMessage m) w = mkOut None w [EvSendMessage (CMessage m)].
Proof.
  intros Hretry. unfold sendMessage, bind, emit. cbn [value world events app].
  assert (Hsend : forall c w', send env c w' = mkOut None w' []).
  { intros c w'. unfold send.
    replace (Z.to_nat (SendMessageRetryCount (cfg env))) with O by lia. reflexivity. }
  assert (Hchunks : forall chunks w',
            sendChunks env (msg_ChatID m) (msg_ParseMode m) (msg_ReplyMarkup m) chunks w'
            = mkOut None w' []).
  { induction chunks as [|c rest IH]; intros w'; [reflexivity|].
    cbn [sendChunks]. unfold bind. rewrite Hsend. cbn [value world events].
    rewrite IH. reflexivity. }
  rewrite Hchunks. reflexivity.
Qed.

Lemma X4_retry_count_zero_example :
  sendMessage envRetry0 (CMessage (NewMessage 1 "hello")) world0
  = mkOut None world0 [EvSendMessage (CMessage (NewMessage 1 "hello"))].
Proof.
  apply (X4_retry_count_zero_sends_nothing envRetry0 (NewMessage 1 "hello") world0).
  vm_compute. discriminate.
Defined.

Lemma send_rejected env (m : Chattable) (w : World) (e : string) :
  1 <= SendMessageRetryCount (cfg env) ->
  BotAPI_Send env (sends w) m = SendErr e ->
  send env m w = mkOut (Some e) (mkWorld (Cache w) (ksuids w) (S (sends w)) (clock w)) [EvSend m].
Proof.
  intros Hretry Hans. unfold send.
  destruct (Z.to_nat (SendMessageRetryCount (cfg env))) as [|k] eqn:Hk; [lia|].
  cbn [sendLoop]. unfold bind, BotAPI_Send_call. cbn [value world events].
  rewrite Hans. reflexivity.
Qed.

(** X5.  An error of the transport that is not a flood-control error is
    not retried: one call, no pause, and the error is returned. *)
Theorem X5_other_error_not_retried env (m : Chattable) (w : World) (e : string) :
  1 <= SendMessageRetryCount (cfg env) ->
  BotAPI_Send env (sends w) m = SendErr e ->
  send env m w = mkOut (Some e) (mkWorld (Cache w) (ksuids w) (S (sends w)) (clock w)) [EvSend m].
Proof. apply send_rejected. Qed.

Lemma X5_other_error_example :
  send envRejects (CDelete (mkDelete 1 7)) world0
  = mkOut (Some "Bad Request") (mkWorld ∅ 0 1 0) [EvSend (CDelete (mkDelete 1 7))].
Proof.
  apply (X5_other_error_not_retried envRejects (CDelete (mkDelete 1 7)) world0).
  - vm_compute. discriminate.
  - reflexivity.
Defined.

(** ** [sendMessage]: what reaches the transport *)

(** X8.  With a positive retry count and a transport that accepts every
    call, a new message is sent as one message per chunk, in order, to
    the same chat and with the same parse mode, and only the last one
    carries the reply markup. *)
Theorem X8_new_message_one_send_per_chunk env (w : World) (m : MessageConfig) :
  1 <= SendMessageRetryCount (cfg env) ->
  (forall n c, BotAPI_Send env n c = SendOk) ->
  let chunks := splitStringIntoChunks (msg_Text m) in
  let o := sendMessage env (CMessage m) w in
  value o = None
  /\ exists msgs,
       events o = EvSendMessage (CMessage m) :: map (fun x => EvSend (CMessage x)) msgs
       /\ map msg_Text msgs = chunks
       /\ Forall (fun x => msg_ChatID x = msg_ChatID m
                           /\ msg_ParseMode x = msg_ParseMode m) msgs
       /\ map msg_ReplyMarkup msgs
          = replicate (length chunks - 1) None ++ [msg_ReplyMarkup m].
Proof.
  intros Hretry Hacc chunks o. subst o.
  unfold sendMessage, bind, emit. cbn [value world events]. fold chunks.
  assert (Hne : chunks <> []) by apply splitLoop_nonempty.
  destruct chunks as [|c rest] eqn:Hchunks; [done|].
  destruct (sendChunks_accepted env Hretry Hacc (msg_ChatID m) (msg_ParseMode m)
              (msg_ReplyMarkup m) c rest w) as (msgs & Hev & Hv & Ht & Hf & Hm).
  split; [exact Hv|]. exists msgs. rewrite Hev.
  replace (length (c :: rest) - 1)%nat with (length rest) by (cbn [length]; lia).
  by repeat split.
Qed.

Lemma X8_new_message_example :
  exists msgs,
    events (sendMessage envOk (CMessage (NewMessage 1 twoChunkText)) world0)
    = EvSendMessage (CMessage (NewMessage 1 twoChunkText))
      :: map (fun x => EvSend (CMessage x)) msgs
    /\ length msgs = 2%nat.
Proof.
  destruct (X8_new_message_one_send_per_chunk envOk world0 (NewMessage 1 twoChunkText))
    as (_ & msgs & Hev & Ht & _).
  - vm_compute. discriminate.
  - intros n c. reflexivity.
  - exists msgs. split; [exact Hev|].
    apply (f_equal length) in Ht. rewrite length_map in Ht. rewrite Ht.
    vm_compute. reflexivity.
Defined.

Lemma send_calls env (m : Chattable) (w : World) :
  Forall (fun c => c = m) (transportCalls (events (send env m w))).
Proof. apply (sendLoop_calls env _ m None w). Qed.

Lemma last_cons_cons {A} (x y : A) (l : list A) : last (x :: y :: l) = last (y :: l).
Proof. reflexivity. Qed.

Lemma sendChunks_calls env chatID parseMode markup (chunks : list string) (w : World) :
  Forall (chunkMessage chatID parseMode markup chunks)
    (transportCalls (events (sendChunks env chatID parseMode markup chunks w))).
Proof.
  revert w. induction chunks as [|c rest IH]; intros w.
  - constructor.
  - cbn [sendChunks]. unfold bind. cbn [value world events].
    set (msg := mkMessage _ _ _ _).
    assert (Hmsg : chunkMessage chatID parseMode markup (c :: rest) (CMessage msg)).
    { exists msg. split; [reflexivity|]. split; [reflexivity|]. split; [reflexivity|].
      split; [left|].
      - subst msg. cbn [msg_ReplyMarkup]. destruct rest; [by right|by left]. }
    assert (Hrest : forall x, chunkMessage chatID parseMode markup rest x ->
                              chunkMessage chatID parseMode markup (c :: rest) x).
    { intros x (y & -> & H1 & H2 & H3 & H4). exists y.
      split; [reflexivity|]. split; [exact H1|]. split; [exact H2|].
      split; [by right|]. destruct H4 as [H4|[H4 H5]]; [by left|right].
      split; [exact H4|]. destruct rest as [|c' rest']; [done|].
      by rewrite last_cons_cons. }
    rewrite transportCalls_app. apply Forall_app. split.
    + eapply Forall_impl; [apply send_calls|]. by intros x ->.
    + destruct (value (send env (CMessage msg) w)); cbn [events transportCalls ret];
        [constructor|].
      eapply Forall_impl; [apply IH|]. exact Hrest.
Qed.

(** X9.  Whatever the transport answers, a new message only ever puts
    chunk messages on the wire: new messages to the same chat, with the
    same parse mode, whose text is a chunk of the text and which carry no
    markup unless they are the last chunk.  An edit puts nothing on the
    wire but the edit itself, the delete of the edited message, and such
    chunk messages. *)
Theorem X9_only_chunks_reach_the_transport env (w : World) :
  (forall m : MessageConfig,
     Forall (chunkMessage (msg_ChatID m) (msg_ParseMode m) (msg_ReplyMarkup m)
               (splitStringIntoChunks (msg_Text m)))
       (transportCalls (events (sendMessage env (CMessage m) w))))
  /\ (forall m : EditMessageTextConfig,
        Forall (fun c => c = CEditText m
                         \/ c = CDelete (mkDelete (edit_ChatID m) (edit_MessageID m))
                         \/ chunkMessage (edit_ChatID m) (edit_ParseMode m)
                              (edit_ReplyMarkup m)
                              (splitStringIntoChunks (edit_Text m)) c)
          (transportCalls (events (sendMessage env (CEditText m) w)))).
Proof.
  split; intros m; unfold sendMessage, bind, emit; cbn [value world events app transportCalls].
  - apply sendChunks_calls.
  - destruct (1 <? len (splitStringIntoChunks (edit_Text m))).
    + unfold bind. cbn [value world events]. rewrite transportCalls_app.
      apply Forall_app. split.
      * eapply Forall_impl; [apply send_calls|]. intros x ->. right. by left.
      * destruct (value (send env _ w)); cbn [events transportCalls ret]; [constructor|].
        eapply Forall_impl; [apply sendChunks_calls|]. intros x Hx. right. by right.
    + eapply Forall_impl; [apply send_calls|]. intros x ->. by left.
Qed.

(** X10.  A delete and an edit of the reply markup are passed to the
    transport as they are; a [Chattable] of any other type is not sent at
    all and gives the error [unsupported tgbotapi.Chattable type]. *)
Theorem X10_passthrough_and_unsupported env (w : World) (c : Chattable) :
  match c with
  | CMessage _ | CEditText _ => True
  | CDelete _ | CEditMarkup _ =>
      Forall (fun x => x = c) (transportCalls (events (sendMessage env c w)))
      /\ events (sendMessage env c w) = EvSendMessage c :: events (send env c w)
      /\ value (sendMessage env c w) = value (send env c w)
  | COther typeName =>
      sendMessage env c w
      = mkOut (Some ("unsupported tgbotapi.Chattable type " +:+ typeName)) w
          [EvSendMessage c]
  end.
Proof.
  destruct c as [m|m|m|m|n]; try exact I; try reflexivity.
  all: unfold sendMessage, bind, emit; cbn [value world events app transportCalls].
  all: split; [apply send_calls|split; reflexivity].
Qed.

(** X11.  When the transport refuses the first chunk of a new message
    with an error that is not a flood-control error, that call is the
    only one: no further chunk is sent and the error is returned. *)
Theorem X11_refused_first_chunk_stops env (w : World) (m : MessageConfig) (e : string) :
  1 <= SendMessageRetryCount (cfg env) ->
  (forall c, BotAPI_Send env (sends w) c = SendErr e) ->
  value (sendMessage env (CMessage m) w) = Some e
  /\ exists first,
       transportCalls (events (sendMessage env (CMessage m) w)) = [CMessage first]
       /\ head (splitStringIntoChunks (msg_Text m)) = Some (msg_Text first).
Proof.
  intros Hretry Hrej. unfold sendMessage, bind, emit.
  cbn [value world events app transportCalls].
  pose proof (splitLoop_nonempty (strings_Split (msg_Text m) "010") [] EmptyString) as Hne.
  fold (splitStringIntoChunks (msg_Text m)) in Hne.
  destruct (splitStringIntoChunks (msg_Text m)) as [|c rest]; [done|].
  cbn [sendChunks]. unfold bind.
  rewrite (send_rejected env _ w e Hretry (Hrej _)).
  cbn [value world events app transportCalls head].
  split; [reflexivity|]. eexists. split; reflexivity.
Qed.

Lemma X11_refused_first_chunk_example :
  value (sendMessage envRejects (CMessage (NewMessage 1 twoChunkText)) world0)
  = Some "Bad Request"
  /\ exists first,
       transportCalls (events (sendMessage envRejects (CMessage (NewMessage 1 twoChunkText))
                                 world0)) = [CMessage first]
       /\ head (splitStringIntoChunks twoChunkText) = Some (msg_Text first).
Proof.
  apply (X11_refused_first_chunk_stops envRejects world0 (NewMessage 1 twoChunkText)).
  - vm_compute. discriminate.
  - intros c. reflexivity.
Defined.

(** ** What goes out on the wire *)

Lemma splitStringIntoChunks_short (text : string) :
  strlen text < maxMessageTextLength ->
  splitStringIntoChunks text = [nl +:+ text].
Proof.
  intros Hlen. unfold splitStringIntoChunks.
  assert (Hr : renderLines (strings_Split text "010") = nl +:+ text).
  { rewrite renderLines_join by apply strings_Split_nonempty.
    pose proof (strings_Split_join text "010") as Hjoin. fold nl in Hjoin.
    by rewrite Hjoin. }
  rewrite splitLoop_fits; rewrite app_empty_l, Hr; [reflexivity|].
  rewrite strlen_app, strlen_nl. lia.
Qed.

(** Observations of a sequence, without unfolding what follows. *)
Lemma events_bind {A B} (m : M A) (k : A -> M B) (w : World) :
  events (bind m k w) = events (m w) ++ events (k (value (m w)) (world (m w))).
Proof. reflexivity. Qed.

Lemma dispatched_bind {A B} (m : M A) (k : A -> M B) (w : World) :
  dispatched (events (bind m k w))
  = dispatched (events (m w)) ++ dispatched (events (k (value (m w)) (world (m w)))).
Proof. unfold bind. cbn [events]. apply dispatched_app. Qed.

Lemma transportCalls_bind {A B} (m : M A) (k : A -> M B) (w : World) :
  transportCalls (events (bind m k w))
  = transportCalls (events (m w)) ++ transportCalls (events (k (value (m w)) (world (m w)))).
Proof. unfold bind. cbn [events]. apply transportCalls_app. Qed.

Lemma rendering_bind {A B} (m : M A) (k : A -> M B) (w : World) :
  List.filter isRendering (events (bind m k w))
  = List.filter isRendering (events (m w))
    ++ List.filter isRendering (events (k (value (m w)) (world (m w)))).
Proof. unfold bind. cbn [events]. apply List.filter_app. Qed.

Lemma world_bind {A B} (m : M A) (k : A -> M B) (w : World) :
  world (bind m k w) = world (k (value (m w)) (world (m w))).
Proof. reflexivity. Qed.

Lemma value_bind {A B} (m : M A) (k : A -> M B) (w : World) :
  value (bind m k w) = value (k (value (m w)) (world (m w))).
Proof. reflexivity. Qed.

Lemma dispatched_sendMessage env (c : Chattable) (w : World) :
  dispatched (events (sendMessage env c w)) = [c].
Proof.
  destruct (sendMessage_events env c w) as (tr & -> & Htr & _).
  cbn [dispatched]. by rewrite (dispatched_transport tr Htr).
Qed.

Lemma rendering_sendMessage env (c : Chattable) (w : World) :
  List.filter isRendering (events (sendMessage env c w)) = [].
Proof.
  destruct (sendMessage_events env c w) as (tr & -> & Htr & _).
  cbn [List.filter isRendering]. clear -Htr.
  induction Htr as [|e evs He _ IH]; [reflexivity|].
  destruct e; cbn in *; try discriminate; exact IH.
Qed.

Lemma Cache_sendMessage env (c : Chattable) (w : World) :
  Cache (world (sendMessage env c w)) = Cache w.
Proof. by destruct (sendMessage_events env c w) as (tr & _ & _ & -> & _). Qed.

Lemma ksuids_sendMessage env (c : Chattable) (w : World) :
  ksuids (world (sendMessage env c w)) = ksuids w.
Proof. by destruct (sendMessage_events env c w) as (tr & _ & _ & _ & ->). Qed.

(** [sendMessageOrError] is [sendMessage] with the error wrapped. *)
Lemma sendMessageOrError_sendMessage env (c : Chattable) (w : World) :
  sendMessageOrError env c w
  = mkOut (match value (sendMessage env c w) with
           | Some e => Errorf "error sending message: " e
           | None => None
           end)
          (world (sendMessage env c w)) (events (sendMessage env c w)).
Proof.
  unfold sendMessageOrError, bind.
  destruct (value (sendMessage env c w)); cbn [value world events ret];
    by rewrite app_nil_r.
Qed.

Lemma call_out {A} (e : Event) (answer : A) (w : World) :
  call e answer w = mkOut answer w [e].
Proof. reflexivity. Qed.

Lemma query_sendMessage env (c : Chattable) (w : World) :
  List.filter isQuery (events (sendMessage env c w)) = [].
Proof.
  destruct (sendMessage_events env c w) as (tr & -> & Htr & _).
  cbn [List.filter isQuery]. clear -Htr.
  induction Htr as [|e evs He _ IH]; [reflexivity|].
  destruct e; cbn in *; try discriminate; exact IH.
Qed.

(** One observation step through the program text: the trace, the
    result and the state of a sequence are those of its parts. *)
Ltac observe :=
  repeat first
    [ rewrite call_out
    | rewrite dispatched_bind
    | rewrite transportCalls_bind
    | rewrite rendering_bind
    | rewrite events_bind
    | rewrite world_bind
    | rewrite value_bind
    | rewrite sendMessageOrError_sendMessage
    | rewrite dispatched_app
    | rewrite transportCalls_app
    | rewrite List.filter_app
    | rewrite dispatched_sendMessage
    | rewrite rendering_sendMessage
    | rewrite query_sendMessage
    | rewrite Cache_sendMessage
    | rewrite ksuids_sendMessage
    | progress cbn [log_Printf emit ret ksuid_New_String Cache_Set time_Now_call
                    value world events dispatched transportCalls
                    List.filter isRendering isQuery
                    app Cache ksuids sends clock] ].

Lemma transportCalls_lookup (evs : list Event) :
  Forall (fun e => isLookup e = true) evs -> transportCalls evs = [].
Proof.
  induction 1 as [|e evs He _ IH]; [reflexivity|].
  destruct e; cbn in *; try discriminate; exact IH.
Qed.

(** *** What goes out when the transport accepts every call *)

Section Wire.

Variable env : Env.
Hypothesis retries : 1 <= SendMessageRetryCount (cfg env).
Hypothesis accepts : forall n c, BotAPI_Send env n c = SendOk.

Lemma sendMessage_message_accepted (m : MessageConfig) (w : World) :
  value (sendMessage env (CMessage m) w) = None
  /\ sentInChunks (msg_ChatID m) (msg_ParseMode m) (msg_ReplyMarkup m) (msg_Text m)
       (transportCalls (events (sendMessage env (CMessage m) w))).
Proof using retries accepts.
  unfold sendMessage, bind, emit, sentInChunks. cbn [value world events app transportCalls].
  pose proof (splitLoop_nonempty (strings_Split (msg_Text m) "010") [] EmptyString) as Hne.
  fold (splitStringIntoChunks (msg_Text m)) in Hne.
  destruct (splitStringIntoChunks (msg_Text m)) as [|c rest]; [done|].
  destruct (sendChunks_accepted env retries accepts (msg_ChatID m) (msg_ParseMode m)
              (msg_ReplyMarkup m) c rest w) as (msgs & Hev & Hv & Ht & Hf & Hm).
  split; [exact Hv|]. exists msgs. rewrite Hev.
  replace (length (c :: rest) - 1)%nat with (length rest) by (cbn [length]; lia).
  split; [|by repeat split].
  clear. induction msgs as [|x msgs IH]; [reflexivity|].
  cbn [map transportCalls]. by rewrite IH.
Qed.

Lemma sendMessage_short_accepted (m : MessageConfig) (w : World) :
  strlen (msg_Text m) < maxMessageTextLength ->
  sendMessage env (CMessage m) w
  = mkOut None (mkWorld (Cache w) (ksuids w) (S (sends w)) (clock w))
      [EvSendMessage (CMessage m);
       EvSend (CMessage (mkMessage (msg_ChatID m) (nl +:+ msg_Text m) (msg_ParseMode m)
                           (msg_ReplyMarkup m)))].
Proof using retries accepts.
  intros Hlen. unfold sendMessage, bind, emit. cbn [value world events app].
  rewrite (splitStringIntoChunks_short _ Hlen). cbn [sendChunks]. unfold bind.
  rewrite (send_accepted env retries accepts). reflexivity.
Qed.

Lemma sendMessage_edit_short_accepted (m : EditMessageTextConfig) (w : World) :
  strlen (edit_Text m) < maxMessageTextLength ->
  sendMessage env (CEditText m) w
  = mkOut None (mkWorld (Cache w) (ksuids w) (S (sends w)) (clock w))
      [EvSendMessage (CEditText m); EvSend (CEditText m)].
Proof using retries accepts.
  intros Hlen. unfold sendMessage, bind, emit. cbn [value world events app].
  rewrite (splitStringIntoChunks_short _ Hlen).
  change (1 <? len [nl +:+ edit_Text m]) with false. cbv iota.
  rewrite (send_accepted env retries accepts). reflexivity.
Qed.

Lemma sendMessage_passed_accepted (c : Chattable) (w : World) :
  match c with CDelete _ | CEditMarkup _ => True | _ => False end ->
  sendMessage env c w
  = mkOut None (mkWorld (Cache w) (ksuids w) (S (sends w)) (clock w))
      [EvSendMessage c; EvSend c].
Proof using retries accepts.
  intros Hc. destruct c; try done.
  all: unfold sendMessage, bind, emit; cbn [value world events app].
  all: rewrite (send_accepted env retries accepts); reflexivity.
Qed.

End Wire.

(** ** Commands: the reply when nothing is found *)

(** C10, as amended.  When a [/alerts] command from an allowed user
    passes the argument check and the alert query returns an empty list,
    the bot hands exactly one message to [sendMessage], a plain message to
    the chat of the command with the text [No active alerts found.], and
    neither marshals JSON nor renders a template, whatever the argument
    and the configured template paths are.  What goes out, with a positive
    retry count and a transport that accepts every call, is exactly one
    message, and its text is not the fixed text but the fixed text with a
    newline in front. *)
Theorem C10_no_alerts_fixed_reply env (w : World) (m : Message) :
  In (m_From m) (Users (cfg env)) ->
  m_IsCommand m = true ->
  m_Command m = "alerts" ->
  m_CommandArguments m = EmptyString \/ m_CommandArguments m = "json" ->
  Alert_GetAlerts env [] = Ok [] ->
  let evs := events (processMessage env m w) in
  dispatched evs = [CMessage (NewMessage (m_ChatID m) "No active alerts found.")]
  /\ Forall (fun e => isRendering e = false) evs
  /\ (1 <= SendMessageRetryCount (cfg env) ->
      (forall n c, BotAPI_Send env n c = SendOk) ->
      transportCalls evs
      = [CMessage (NewMessage (m_ChatID m) (nl +:+ "No active alerts found."))]).
Proof.
  intros Hadmin Hcmd Hname Hargs Hq evs. subst evs.
  unfold processMessage. rewrite (isAdmin_In env m Hadmin), Hcmd, Hname.
  cbn [negb String.eqb Ascii.eqb Bool.eqb orb].
  destruct (argumentError_accepts _ Hargs) as [-> _].
  rewrite events_bind. cbn [call bind emit ret value world events app]. rewrite Hq.
  change (len (@nil GettableAlert) =? 0) with true. cbv iota.
  rewrite sendMessageOrError_sendMessage.
  cbn [bind emit ret value world events app].
  split; [|split].
  - cbn [dispatched]. apply dispatched_sendMessage.
  - constructor; [reflexivity|].
    destruct (sendMessage_events env
                (CMessage (NewMessage (m_ChatID m) "No active alerts found.")) w)
      as (tr & -> & Htr & _).
    constructor; [reflexivity|]. by apply rendering_transport.
  - intros Hretry Hacc. rewrite (sendMessage_short_accepted env Hretry Hacc); [reflexivity|].
    vm_compute. reflexivity.
Qed.

(** C10 at a concrete command: [/alerts json] with a template configured. *)
Lemma C10_alerts_json_example :
  dispatched (events (processMessage envTemplates msgAlertsJson world0))
  = [CMessage (NewMessage 5 "No active alerts found.")]
  /\ Forall (fun e => isRendering e = false)
       (events (processMessage envTemplates msgAlertsJson world0))
  /\ transportCalls (events (processMessage envTemplates msgAlertsJson world0))
     = [CMessage (NewMessage 5 (nl +:+ "No active alerts found."))].
Proof.
  destruct (C10_no_alerts_fixed_reply envTemplates world0 msgAlertsJson)
    as (Hd & Hr & Hwire).
  - vm_compute. left. reflexivity.
  - reflexivity.
  - reflexivity.
  - right. reflexivity.
  - reflexivity.
  - split; [exact Hd|]. split; [exact Hr|]. apply Hwire.
    + vm_compute. discriminate.
    + intros n c. reflexivity.
Defined.

(** C10, as stated, fails on the wire: the text of the message that goes
    out is not the fixed text, it begins with a newline; and with a retry
    count of 0 no message goes out at all. *)
Lemma C10_reply_text_has_newline_in_front :
  transportCalls (events (processMessage envTemplates msgAlertsJson world0))
  = [CMessage (NewMessage 5 (nl +:+ "No active alerts found."))]
  /\ nl +:+ "No active alerts found." <> "No active alerts found."
  /\ transportCalls (events (processMessage envRetry0 msgAlertsJson world0)) = [].
Proof. split; [vm_compute; reflexivity|]. split; [discriminate|vm_compute; reflexivity]. Qed.

(** ** The webhook: the silence button *)

Lemma silenceable_bool_false (data : Data) :
  (String.eqb (data_Status data) "firing"
   && (0 <? strlen (mapGet (data_GroupLabels data) "instance"))
   && (0 <? strlen (mapGet (data_GroupLabels data) "alertname"))) = false
  <-> ~ silenceable data.
Proof.
  rewrite <- silenceable_bool. destruct (_ && _ && _); intuition congruence.
Qed.

(** A well-formed request whose text is rendered: the trace is two log
    lines, the rendering if a template is configured, the one call of
    [sendMessage], and at most one more log line. *)
Lemma handleHTTP_forwards env (w : World) (ctx : RequestCtx) (chatID : Z) (data : Data)
    (text parseMode : string) :
  req_Path ctx = "/alerts" ->
  req_IsPost ctx = true ->
  strconv_ParseInt env (req_chatid ctx) = Ok chatID ->
  json_Unmarshal env (req_PostBody ctx) = Ok data ->
  webhookRenders env ctx data text parseMode ->
  let cond := String.eqb (data_Status data) "firing"
              && (0 <? strlen (mapGet (data_GroupLabels data) "instance"))
              && (0 <? strlen (mapGet (data_GroupLabels data) "alertname")) in
  let cacheID := ksuid_New env (ksuids w) in
  let msg := mkMessage chatID text parseMode
               (if cond then Some [[mkButton "Silence" cacheID]] else None) in
  let w' := if cond
            then mkWorld (<[cacheID := silenceIntent data]> (Cache w)) (S (ksuids w))
                   (sends w) (clock w)
            else w in
  let o := handleHTTP env ctx w in
  dispatched (events o) = [CMessage msg]
  /\ transportCalls (events o) = transportCalls (events (sendMessage env (CMessage msg) w'))
  /\ Cache (world o) = Cache w'
  /\ ksuids (world o) = ksuids w'.
Proof.
  intros Hpath Hpost Hid Hjson Hren cond cacheID msg w' o. subst o msg w' cacheID cond.
  unfold handleHTTP. rewrite Hpath, Hpost, Hid, Hjson.
  cbn [String.eqb Ascii.eqb Bool.eqb negb].
  destruct Hren as [(Hp & -> & ->)|(Hp & Hparse & Hexec & ->)]; rewrite Hp;
    [|unfold applyTemplate; rewrite Hparse, Hexec]; observe.
  all: destruct (String.eqb (data_Status data) "firing" && _ && _); observe.
  all: match goal with
       | |- context [match ?v with Some _ => _ | None => _ end] => destruct v
       end; observe; rewrite ?app_nil_r; by repeat split.
Qed.


Lemma sendMessage_message_calls env (m : MessageConfig) (w : World) :
  Forall (chunkMessage (msg_ChatID m) (msg_ParseMode m) (msg_ReplyMarkup m)
            (splitStringIntoChunks (msg_Text m)))
    (transportCalls (events (sendMessage env (CMessage m) w))).
Proof.
  unfold sendMessage, bind, emit. cbn [value world events app transportCalls].
  apply sendChunks_calls.
Qed.

(** C6, as amended.  For a well-formed webhook request whose text is
    rendered (the body when no webhook template is configured, the output
    of the template otherwise), [handleHTTP] hands exactly one message to
    [sendMessage].  If the status of the payload is [firing] and the group
    labels [instance] and [alertname] are both non-empty, that message
    carries a keyboard of exactly one row with exactly one button,
    [Silence], whose data is the key of the one entry added to the cache,
    an intent of type [silence] with [instance] and [alertname] bound to
    the group labels; whatever the transport answers, a message on the
    wire carries either no keyboard or that one, and with a positive retry
    count and a transport that accepts every call the text goes out in
    chunks and the last chunk carries the button.  In every other case the
    message carries no keyboard, the cache is unchanged, and no message on
    the wire carries a keyboard. *)
Theorem C6_silence_button_iff_firing env (w : World) (ctx : RequestCtx) (chatID : Z)
    (data : Data) (text parseMode : string) :
  req_Path ctx = "/alerts" ->
  req_IsPost ctx = true ->
  strconv_ParseInt env (req_chatid ctx) = Ok chatID ->
  json_Unmarshal env (req_PostBody ctx) = Ok data ->
  webhookRenders env ctx data text parseMode ->
  let o := handleHTTP env ctx w in
  let cacheID := ksuid_New env (ksuids w) in
  let button := Some [[mkButton "Silence" cacheID]] in
  (silenceable data ->
   dispatched (events o) = [CMessage (mkMessage chatID text parseMode button)]
   /\ Cache (world o) = <[cacheID := silenceIntent data]> (Cache w)
   /\ Forall (chunkMessage chatID parseMode button (splitStringIntoChunks text))
        (transportCalls (events o))
   /\ (1 <= SendMessageRetryCount (cfg env) ->
       (forall n c, BotAPI_Send env n c = SendOk) ->
       sentInChunks chatID parseMode button text (transportCalls (events o))))
  /\ (~ silenceable data ->
      dispatched (events o) = [CMessage (mkMessage chatID text parseMode None)]
      /\ Cache (world o) = Cache w
      /\ Forall (fun c => exists x, c = CMessage x /\ msg_ReplyMarkup x = None)
           (transportCalls (events o))
      /\ (1 <= SendMessageRetryCount (cfg env) ->
          (forall n c, BotAPI_Send env n c = SendOk) ->
          sentInChunks chatID parseMode None text (transportCalls (events o)))).
Proof.
  intros Hpath Hpost Hid Hjson Hren o cacheID button. subst o.
  destruct (handleHTTP_forwards env w ctx chatID data text parseMode
              Hpath Hpost Hid Hjson Hren) as (Hd & Ht & Hc & _).
  split; intros Hs.
  - apply silenceable_bool in Hs. rewrite Hs in Hd, Ht, Hc.
    fold cacheID in Hd, Ht, Hc. fold button in Hd, Ht.
    rewrite Hd, Ht, Hc.
    split; [reflexivity|]. split; [reflexivity|]. split.
    + apply (sendMessage_message_calls env (mkMessage chatID text parseMode button)).
    + intros Hretry Hacc.
      apply (sendMessage_message_accepted env Hretry Hacc
               (mkMessage chatID text parseMode button)).
  - apply silenceable_bool_false in Hs. rewrite Hs in Hd, Ht, Hc.
    rewrite Hd, Ht, Hc.
    split; [reflexivity|]. split; [reflexivity|]. split.
    + eapply Forall_impl;
        [apply (sendMessage_message_calls env (mkMessage chatID text parseMode None))|].
      intros c (x & -> & _ & _ & _ & [Hm|[Hm _]]); exists x; by split.
    + intros Hretry Hacc.
      apply (sendMessage_message_accepted env Hretry Hacc
               (mkMessage chatID text parseMode None)).
Qed.

(** C6 at the scenario of the specification: a firing group with
    [instance = h1] and [alertname = HostDown]. *)
Lemma C6_firing_group_example :
  dispatched (events (handleHTTP envFiring requestAlerts world0))
  = [CMessage (mkMessage (-123456789) "{payload}" EmptyString
                 (Some [[mkButton "Silence" "ksuid-0"]]))]
  /\ Cache (world (handleHTTP envFiring requestAlerts world0))
     = <["ksuid-0" := mkCallback "silence"
                        (<["alertname" := "HostDown"]> (<["instance" := "h1"]> ∅))]> ∅
  /\ sentInChunks (-123456789) EmptyString (Some [[mkButton "Silence" "ksuid-0"]])
       "{payload}" (transportCalls (events (handleHTTP envFiring requestAlerts world0))).
Proof.
  destruct (C6_silence_button_iff_firing envFiring world0 requestAlerts (-123456789)
              (mkData "telegram" "firing" [] groupLabels ∅ ∅ EmptyString)
              "{payload}" EmptyString) as [Hyes _].
  - reflexivity.
  - reflexivity.
  - reflexivity.
  - reflexivity.
  - left. repeat split; reflexivity.
  - destruct Hyes as (Hd & Hc & _ & Hwire).
    + repeat split; discriminate.
    + split; [exact Hd|]. split; [exact Hc|]. apply Hwire.
      * vm_compute. discriminate.
      * intros n c. reflexivity.
Defined.

(** C6, as stated, fails for a firing group with both labels: with a
    retry count of 0 the intent is stored and nothing is sent; with a
    webhook template whose file cannot be loaded nothing is handed to
    [sendMessage] at all; and a body of two chunks goes out as two
    messages of which the first carries no button. *)
Lemma C6_firing_group_without_button :
  silenceable firingGroup
  /\ (exists first last,
        transportCalls (events (handleHTTP envFiring requestTwoChunks world0))
        = [CMessage first; CMessage last]
        /\ msg_ReplyMarkup first = None
        /\ msg_ReplyMarkup last = Some [[mkButton "Silence" "ksuid-0"]])
  /\ json_Unmarshal envFiringRetry0 (req_PostBody requestAlerts) = Ok firingGroup
  /\ transportCalls (events (handleHTTP envFiringRetry0 requestAlerts world0)) = []
  /\ Cache (world (handleHTTP envFiringRetry0 requestAlerts world0)) !! "ksuid-0"
     = Some (silenceIntent firingGroup)
  /\ json_Unmarshal envFiringNoTemplateFile (req_PostBody requestAlerts) = Ok firingGroup
  /\ dispatched (events (handleHTTP envFiringNoTemplateFile requestAlerts world0)) = []
  /\ transportCalls (events (handleHTTP envFiringNoTemplateFile requestAlerts world0)) = [].
Proof.
  split; [repeat split; discriminate|].
  split; [eexists _, _; repeat split; vm_compute; reflexivity|].
  repeat split; vm_compute; reflexivity.
Qed.

(** ** The retry loop without flood-control errors *)

Section NoFlood.

Variable env : Env.
Hypothesis noFlood : forall n m retryAfter e, BotAPI_Send env n m <> SendFlood retryAfter e.

Lemma sendLoop_no_flood (k : nat) (m : Chattable) (err : error) (w : World) :
  sendLoop env (S k) m err w
  = mkOut (match BotAPI_Send env (sends w) m with SendErr e => Some e | _ => None end)
      (mkWorld (Cache w) (ksuids w) (S (sends w)) (clock w)) [EvSend m].
Proof using noFlood.
  cbn [sendLoop]. unfold bind, BotAPI_Send_call. cbn [value world events].
  destruct (BotAPI_Send env (sends w) m) as [|ra e|e] eqn:Hans; try reflexivity.
  by destruct (noFlood _ _ _ _ Hans).
Qed.

Lemma send_no_flood (m : Chattable) (w : World) :
  1 <= SendMessageRetryCount (cfg env) ->
  send env m w
  = mkOut (match BotAPI_Send env (sends w) m with SendErr e => Some e | _ => None end)
      (mkWorld (Cache w) (ksuids w) (S (sends w)) (clock w)) [EvSend m].
Proof using noFlood.
  intros Hretry. unfold send.
  destruct (Z.to_nat (SendMessageRetryCount (cfg env))) as [|k] eqn:Hk; [lia|].
  apply sendLoop_no_flood.
Qed.

Lemma send_sending (m : Chattable) (w : World) :
  Forall (fun e => isSending e = true) (events (send env m w)).
Proof using noFlood.
  unfold send.
  destruct (Z.to_nat (SendMessageRetryCount (cfg env))) as [|k]; [constructor|].
  rewrite sendLoop_no_flood. by repeat constructor.
Qed.

Lemma sendChunks_sending chatID parseMode markup (chunks : list string) (w : World) :
  Forall (fun e => isSending e = true)
    (events (sendChunks env chatID parseMode markup chunks w)).
Proof using noFlood.
  revert w. induction chunks as [|c rest IH]; intros w; [constructor|].
  cbn [sendChunks]. rewrite events_bind. apply Forall_app. split; [apply send_sending|].
  destruct (value (send env _ w)); [constructor|apply IH].
Qed.

End NoFlood.

Lemma sendChunks_same_transport env env' chatID parseMode markup (chunks : list string)
    (w : World) :
  (forall m w', send env' m w' = send env m w') ->
  sendChunks env' chatID parseMode markup chunks w
  = sendChunks env chatID parseMode markup chunks w.
Proof.
  intros Hsend. revert w. induction chunks as [|c rest IH]; intros w; [reflexivity|].
  cbn [sendChunks]. unfold bind. rewrite Hsend.
  destruct (value (send env _ w)); [reflexivity|]. by rewrite IH.
Qed.

(** X6.  With a transport that never answers with an error of the type
    [telebot.FloodError], the retry count matters only through being
    positive: every [send] makes exactly one transport call, no pause and
    no log line ever occur in [sendMessage], and [sendMessage] gives the
    same result, state and trace for any two positive retry counts. *)
Theorem X6_retry_count_is_inert env env' (c : Chattable) (w : World) :
  (forall n m retryAfter e, BotAPI_Send env n m <> SendFlood retryAfter e) ->
  BotAPI_Send env' = BotAPI_Send env ->
  1 <= SendMessageRetryCount (cfg env) ->
  1 <= SendMessageRetryCount (cfg env') ->
  sendMessage env' c w = sendMessage env c w
  /\ Forall (fun e => isSending e = true) (events (sendMessage env c w))
  /\ (forall m w', transportCalls (events (send env m w')) = [m]).
Proof.
  intros Hnf Hsame Hretry Hretry'.
  assert (Hnf' : forall n m retryAfter e, BotAPI_Send env' n m <> SendFlood retryAfter e).
  { rewrite Hsame. exact Hnf. }
  assert (Hsend : forall m w', send env' m w' = send env m w').
  { intros m w'. rewrite (send_no_flood env Hnf m w' Hretry),
      (send_no_flood env' Hnf' m w' Hretry'), Hsame. reflexivity. }
  split; [|split].
  - unfold sendMessage, bind. destruct c as [m|m|m|m|n]; cbn [value world events emit];
      rewrite ?Hsend, ?(sendChunks_same_transport env env' _ _ _ _ _ Hsend); try reflexivity.
    destruct (1 <? len (splitStringIntoChunks (edit_Text m))); rewrite ?Hsend; [|reflexivity].
    destruct (value (send env _ w)); [reflexivity|].
    by rewrite (sendChunks_same_transport env env' _ _ _ _ _ Hsend).
  - unfold sendMessage. rewrite events_bind. cbn [emit events app world value].
    constructor; [reflexivity|].
    destruct c as [m|m|m|m|n].
    + by apply sendChunks_sending.
    + destruct (1 <? len (splitStringIntoChunks (edit_Text m))); [|by apply send_sending].
      rewrite events_bind. apply Forall_app. split; [by apply send_sending|].
      destruct (value (send env _ w)); [constructor|by apply sendChunks_sending].
    + by apply send_sending.
    + by apply send_sending.
    + constructor.
  - intros m w'. by rewrite (send_no_flood env Hnf m w' Hretry).
Qed.

Lemma X6_retry_count_is_inert_example :
  sendMessage envRetry1 (CMessage (NewMessage 1 twoChunkText)) world0
  = sendMessage envOk (CMessage (NewMessage 1 twoChunkText)) world0.
Proof.
  apply (X6_retry_count_is_inert envOk envRetry1 (CMessage (NewMessage 1 twoChunkText)) world0).
  - intros n m retryAfter e. discriminate.
  - reflexivity.
  - vm_compute. discriminate.
  - vm_compute. discriminate.
Defined.

(** ** The jobs menu: every button resolves through the cache *)

Lemma testEnv_ksuidInjective c tr al si la ta pa :
  ksuidInjective (testEnv c tr al si la ta pa).
Proof.
  intros a b H. cbn in H.
  apply (inj (String.app "ksuid-")) in H. apply (inj pretty) in H. lia.
Qed.

Lemma Forall2_strengthen {A B} (P : A -> Prop) (R R' : A -> B -> Prop)
    (l : list A) (k : list B) :
  Forall P l -> Forall2 R l k -> (forall x y, P x -> R x y -> R' x y) -> Forall2 R' l k.
Proof.
  intros HP HR Himp. induction HR as [|x y l k Hxy _ IH]; [constructor|].
  apply Forall_cons in HP as [Hx HP]. constructor; [by apply Himp|by apply IH].
Qed.

Section Tokens.

Variable env : Env.
Hypothesis distinct : ksuidInjective env.

Lemma later_ksuids_fresh (n : nat) (w : World) :
  (n < ksuids w)%nat -> freshFrom env (ksuid_New env n) w.
Proof using distinct.
  intros Hlt k Hle Heq. apply distinct in Heq. lia.
Qed.

Lemma jobsLoop_tokens (labels : list string) :
  forall (kb : InlineKeyboardMarkup) (r : list InlineKeyboardButton) (w : World),
    let o := jobsLoop env labels kb r w in
    exists btns,
      concat (fst (value o)) ++ snd (value o) = concat kb ++ r ++ btns
      /\ map btn_CallbackData btns = map (ksuid_New env) (seq (ksuids w) (length btns))
      /\ ksuids (world o) = (ksuids w + length btns)%nat
      /\ Forall2 (fun b l => Cache (world o) !! btn_CallbackData b = Some (jobIntent l))
           btns (List.filter (fun l => lookupOk (jobAlerts env l)) labels).
Proof using distinct.
  induction labels as [|l rest IH]; intros kb r w.
  - exists []. cbn. split; [by rewrite app_nil_r|]. split; [reflexivity|].
    split; [lia|constructor].
  - cbn [jobsLoop List.filter].
    change (jobAlerts env l) with (Alert_GetAlerts env ["job=" +:+ l]).
    unfold call, log_Printf, emit, ret, bind, ksuid_New_String, Cache_Set.
    cbn [value world events app Cache ksuids sends].
    destruct (Alert_GetAlerts env ["job=" +:+ l]) as [payload|err];
      cbn [value world events app lookupOk Cache ksuids sends].
    + set (btn := NewInlineKeyboardButtonData _ _).
      set (w1 := mkWorld _ _ _ _).
      assert (Hstep : forall kb' r',
                exists btns,
                  concat (fst (value (jobsLoop env rest kb' r' w1)))
                  ++ snd (value (jobsLoop env rest kb' r' w1)) = concat kb' ++ r' ++ btns
                  /\ map btn_CallbackData (btn :: btns)
                     = map (ksuid_New env) (seq (ksuids w) (length (btn :: btns)))
                  /\ ksuids (world (jobsLoop env rest kb' r' w1))
                     = (ksuids w + length (btn :: btns))%nat
                  /\ Forall2 (fun b l0 => Cache (world (jobsLoop env rest kb' r' w1))
                                          !! btn_CallbackData b = Some (jobIntent l0))
                       (btn :: btns)
                       (l :: List.filter (fun l0 => lookupOk (jobAlerts env l0)) rest)).
      { intros kb' r'. destruct (IH kb' r' w1) as (btns & H1 & H2 & H3 & H4).
        exists btns. split; [exact H1|]. cbn [map length seq]. split; [by rewrite H2|].
        split; [rewrite H3; cbn; lia|]. constructor; [|exact H4].
        destruct (keeps_jobsLoop env (ksuid_New env (ksuids w)) rest kb' r' w1) as [Hk _].
        { apply later_ksuids_fresh. cbn. lia. }
        cbn [btn_CallbackData btn NewInlineKeyboardButtonData]. rewrite Hk.
        apply lookup_insert_eq. }
      destruct (len (r ++ [btn]) =? KeyboardRows (cfg env)).
      * destruct (Hstep (kb ++ [r ++ [btn]]) []) as (btns & H1 & H2 & H3 & H4).
        exists (btn :: btns). split; [|by split].
        rewrite H1, concat_app. cbn [concat]. rewrite app_nil_r, <- !app_assoc. reflexivity.
      * destruct (Hstep kb (r ++ [btn])) as (btns & H1 & H2 & H3 & H4).
        exists (btn :: btns). split; [|by split].
        rewrite H1, <- !app_assoc. reflexivity.
    + apply IH.
Qed.

End Tokens.

Lemma seq_snoc (a n : nat) : seq a (S n) = seq a n ++ [(a + n)%nat].
Proof. by rewrite seq_S. Qed.

(** X12.  When the identifiers are pairwise different, every button of a
    jobs menu that is built resolves through the cache: the data of the
    button of job [l] is the key of the intent [{job, job_name: l}], the
    data of the close button the key of the intent [{close}], all button
    data are pairwise different, and the build has consumed exactly one
    identifier per button. *)
Theorem X12_jobs_menu_buttons_resolve env (w : World) (kb : InlineKeyboardMarkup) :
  ksuidInjective env ->
  value (newJobsKB env w) = Ok kb ->
  let w' := world (newJobsKB env w) in
  exists labels btns closeBtn,
    v1_LabelValues env "job" = Ok labels
    /\ concat kb = btns ++ [closeBtn]
    /\ Forall2 (fun b l => Cache w' !! btn_CallbackData b = Some (jobIntent l))
         btns (List.filter (fun l => lookupOk (jobAlerts env l)) labels)
    /\ Cache w' !! btn_CallbackData closeBtn = Some (mkCallback "close" ∅)
    /\ NoDup (map btn_CallbackData (concat kb))
    /\ ksuids w' = (ksuids w + length (concat kb))%nat.
Proof.
  intros Hinj. unfold newJobsKB.
  unfold call, emit, ret, bind, ksuid_New_String, Cache_Set.
  cbn [value world events app].
  destruct (v1_LabelValues env "job") as [labels|err]; cbn [value world]; [|discriminate].
  intros [= <-].
  destruct (jobsLoop_tokens env Hinj labels [] [] w) as (btns & H1 & H2 & H3 & H4).
  cbn [concat app] in H1.
  set (o := jobsLoop env labels [] [] w) in *.
  set (closeBtn := NewInlineKeyboardButtonData "Close menu" (ksuid_New env (ksuids (world o)))).
  assert (Hconcat : concat ((if 0 <? len (snd (value o))
                             then fst (value o) ++ [snd (value o)] else fst (value o))
                            ++ [[closeBtn]]) = btns ++ [closeBtn]).
  { rewrite concat_app. cbn [concat]. rewrite app_nil_r. f_equal. rewrite <- H1.
    destruct (Z.ltb_spec 0 (len (snd (value o)))) as [Hpos|Hzero].
    - rewrite concat_app. cbn [concat]. by rewrite app_nil_r.
    - destruct (snd (value o)) as [|b r]; [by rewrite app_nil_r|].
      unfold len in Hzero. cbn [length] in Hzero. lia. }
  assert (Hdata : map btn_CallbackData (btns ++ [closeBtn])
                  = map (ksuid_New env) (seq (ksuids w) (S (length btns)))).
  { rewrite map_app, H2, seq_snoc, map_app. cbn [map]. f_equal.
    subst closeBtn. cbn [btn_CallbackData NewInlineKeyboardButtonData]. by rewrite H3. }
  exists labels, btns, closeBtn. cbn [Cache ksuids].
  split; [reflexivity|]. split; [exact Hconcat|]. split; [|split; [|split]].
  - eapply (Forall2_strengthen
              (fun b => btn_CallbackData b <> ksuid_New env (ksuids (world o))));
      [|exact H4|].
    + apply Forall_forall. intros b Hb Heq.
      assert (Hin : btn_CallbackData b ∈ map btn_CallbackData btns).
      { apply list_elem_of_fmap. by exists b. }
      rewrite H2 in Hin. apply list_elem_of_fmap in Hin as (k & Hk & Hseq).
      apply elem_of_seq in Hseq. rewrite Heq in Hk. apply Hinj in Hk. lia.
    + intros b l Hne Hres. by rewrite lookup_insert_ne.
  - apply lookup_insert_eq.
  - rewrite Hconcat, Hdata.
    assert (Hinj' : Inj (=) (=) (ksuid_New env)) by exact Hinj.
    apply (NoDup_fmap_2 (ksuid_New env)). apply NoDup_seq.
  - rewrite Hconcat, length_app, H3. cbn [length]. lia.
Qed.

Lemma X12_jobs_menu_example :
  exists labels btns closeBtn,
    v1_LabelValues envJobs "job" = Ok labels
    /\ concat kbJobs = btns ++ [closeBtn]
    /\ Forall2 (fun b l => Cache (world (newJobsKB envJobs world0)) !! btn_CallbackData b
                           = Some (jobIntent l))
         btns (List.filter (fun l => lookupOk (jobAlerts envJobs l)) labels)
    /\ Cache (world (newJobsKB envJobs world0)) !! btn_CallbackData closeBtn
       = Some (mkCallback "close" ∅)
    /\ NoDup (map btn_CallbackData (concat kbJobs))
    /\ ksuids (world (newJobsKB envJobs world0)) = (ksuids world0 + length (concat kbJobs))%nat.
Proof.
  apply (X12_jobs_menu_buttons_resolve envJobs world0 kbJobs).
  - apply testEnv_ksuidInjective.
  - vm_compute. reflexivity.
Defined.

(** ** The targets menu *)

Lemma ltb_false_le (a b : string) : String.ltb b a = false <-> String.le a b.
Proof.
  unfold String.le, String.leb, String.ltb.
  rewrite (String.compare_antisym a b).
  destruct (String.compare b a); cbn; split; (done || intros []).
Qed.

Lemma instanceLe_trans (a b c : ActiveTarget) :
  instanceLe a b -> instanceLe b c -> instanceLe a c.
Proof.
  unfold instanceLe, instanceLess. rewrite !ltb_false_le. apply transitivity.
Qed.

Lemma instanceLess_le (a b : ActiveTarget) : instanceLess a b = true -> instanceLe a b.
Proof.
  unfold instanceLe, instanceLess, String.ltb.
  rewrite (String.compare_antisym (mapGet (tgt_Labels a) "instance")).
  by destruct (String.compare _ _).
Qed.

Lemma Forall_insertTarget (P : ActiveTarget -> Prop) (t : ActiveTarget)
    (l : list ActiveTarget) :
  Forall P (insertTarget t l) <-> P t /\ Forall P l.
Proof.
  induction l as [|x l IH]; cbn [insertTarget].
  - rewrite Forall_singleton, Forall_nil. tauto.
  - destruct (instanceLess x t); rewrite !Forall_cons, ?IH; tauto.
Qed.

Lemma insertTarget_sorted (t : ActiveTarget) (l : list ActiveTarget) :
  StronglySorted instanceLe l -> StronglySorted instanceLe (insertTarget t l).
Proof.
  induction 1 as [|x l Hs IH Hx]; cbn [insertTarget].
  - repeat constructor.
  - destruct (instanceLess x t) eqn:Hlt.
    + constructor; [exact IH|]. apply Forall_insertTarget. split; [|exact Hx].
      by apply instanceLess_le.
    + constructor; [by constructor|]. constructor; [exact Hlt|].
      eapply Forall_impl; [exact Hx|]. intros y Hy. by apply (instanceLe_trans t x y).
Qed.

Lemma sortTargets_sorted (l : list ActiveTarget) :
  StronglySorted instanceLe (sortTargets l).
Proof.
  induction l as [|t l IH]; cbn; [constructor|]. by apply insertTarget_sorted.
Qed.

Lemma insertTarget_perm (t : ActiveTarget) (l : list ActiveTarget) :
  insertTarget t l ≡ₚ t :: l.
Proof.
  induction l as [|x l IH]; cbn [insertTarget]; [done|].
  destruct (instanceLess x t); [|done]. rewrite IH. apply Permutation_swap.
Qed.

Lemma sortTargets_perm (l : list ActiveTarget) : sortTargets l ≡ₚ l.
Proof.
  induction l as [|t l IH]; cbn; [done|]. by rewrite insertTarget_perm, IH.
Qed.

Lemma filter_sorted {A} (R : A -> A -> Prop) (f : A -> bool) (l : list A) :
  StronglySorted R l -> StronglySorted R (List.filter f l).
Proof.
  induction 1 as [|x l Hs IH Hx]; cbn [List.filter]; [constructor|].
  destruct (f x); [|exact IH]. constructor; [exact IH|].
  apply Forall_forall. intros y Hy. apply list_elem_of_In, filter_In in Hy as [Hy _].
  rewrite Forall_forall in Hx. apply Hx. by apply list_elem_of_In.
Qed.

Section TargetsMenu.

Variable env : Env.
Variable jobName : string.

Lemma targetsLoop_spec (targets : list ActiveTarget) :
  forall (kb : InlineKeyboardMarkup) (r : list InlineKeyboardButton) (w : World),
    exists btns,
      targetsLoopPost env jobName (List.filter (targetSelected env jobName) targets) kb r w
        (targetsLoop env jobName targets kb r w) btns.
Proof.
  induction targets as [|t rest IH]; intros kb r w.
  - exists []. unfold targetsLoopPost. cbn. split; [by rewrite app_nil_r|].
    split; [constructor|]. split; [reflexivity|]. split; [lia|].
    split; [constructor|]. by intros _ Hr Hkb.
  - set (job := mapGet (tgt_Labels t) "job").
    set (instance := mapGet (tgt_Labels t) "instance").
    set (w1 := mkWorld (<[ksuid_New env (ksuids w) := targetIntent jobName instance]> (Cache w))
                 (S (ksuids w)) (sends w) (clock w)).
    (* the iteration adds the button [btn] and goes on from [w1] *)
    assert (Hadd : forall payload btn,
              Alert_GetAlerts env ["instance=" +:+ instance] = Ok payload ->
              btn = NewInlineKeyboardButtonData
                      (if len payload =? 0 then ButtonPrefixOK (cfg env) +:+ instance
                       else ButtonPrefixFail (cfg env) +:+ instance)
                      (ksuid_New env (ksuids w)) ->
              exists btns,
                targetsLoopPost env jobName (t :: List.filter (targetSelected env jobName) rest) kb r w
                  ((if len (r ++ [btn]) =? KeyboardRows (cfg env)
                    then targetsLoop env jobName rest (kb ++ [r ++ [btn]]) []
                    else targetsLoop env jobName rest kb (r ++ [btn])) w1) btns).
    { intros payload btn Hq Hbtn.
      assert (Htb : targetButton env btn t).
      { exists payload. split; [exact Hq|]. subst btn. by destruct payload. }
      assert (Hlen : len (r ++ [btn]) = len r + 1).
      { unfold len. rewrite length_app. cbn [length]. lia. }
      assert (Hstep : forall kb' r',
                concat kb' ++ r' = concat kb ++ r ++ [btn] ->
                (1 <= KeyboardRows (cfg env) -> len r < KeyboardRows (cfg env) ->
                 Forall (rowOk env) kb ->
                 len r' < KeyboardRows (cfg env) /\ Forall (rowOk env) kb') ->
                exists btns,
                  targetsLoopPost env jobName (t :: List.filter (targetSelected env jobName) rest) kb r w
                    (targetsLoop env jobName rest kb' r' w1) btns).
      { intros kb' r' Hcat Hrows.
        destruct (IH kb' r' w1) as (btns & H1 & H2 & H3 & H4 & H5 & H6).
        exists (btn :: btns). split; [|split; [|split; [|split; [|split]]]].
        - rewrite H1, app_assoc, Hcat, <- !app_assoc. reflexivity.
        - by constructor.
        - cbn [map length seq]. rewrite H3. by subst btn.
        - rewrite H4. cbn. lia.
        - intros Hinj. constructor; [|by apply H5].
          destruct (keeps_targetsLoop env (ksuid_New env (ksuids w)) jobName rest kb' r' w1)
            as [Hk _].
          { apply later_ksuids_fresh; [exact Hinj|]. cbn. lia. }
          subst btn. cbn [btn_CallbackData NewInlineKeyboardButtonData]. rewrite Hk.
          apply lookup_insert_eq.
        - intros HK Hr Hkb. destruct (Hrows HK Hr Hkb) as [Hr' Hkb']. by apply H6. }
      destruct (Z.eqb_spec (len (r ++ [btn])) (KeyboardRows (cfg env))) as [Hfull|Hnot].
      - apply Hstep.
        + rewrite concat_app. cbn [concat]. by rewrite !app_nil_r, <- ?app_assoc.
        + intros HK Hr Hkb. split; [unfold len; cbn [length]; lia|].
          apply Forall_app. split; [exact Hkb|]. constructor; [|constructor].
          unfold rowOk. pose proof (Zle_0_nat (length r)). unfold len in *. lia.
      - apply Hstep.
        + by rewrite <- ?app_assoc.
        + intros HK Hr Hkb. split; [lia|exact Hkb]. }
    cbn [targetsLoop List.filter]. cbv zeta. unfold targetSelected at 1. cbv zeta.
    unfold call, log_Printf, emit, ret, bind, ksuid_New_String, Cache_Set.
    cbn [value world events app Cache ksuids sends].
    fold job instance.
    destruct ((strlen job =? 0) || (strlen instance =? 0));
      [destruct (json_Marshal env (VTarget t)) as [bytes|e]|];
      cbn [value world events app lookupOk andb];
      try apply IH.
    all: destruct (String.eqb job jobName); cbn [negb andb]; try apply IH.
    all: destruct (Alert_GetAlerts env ["instance=" +:+ instance]) as [payload|err] eqn:Hq;
      cbn [value world events app lookupOk]; try apply IH.
    all: by apply (Hadd payload).
Qed.

End TargetsMenu.

Lemma newTargetsKB_buttons env (jobName : string) (w : World) (kb : InlineKeyboardMarkup) :
  value (newTargetsKB env jobName w) = Ok kb ->
  exists active r btns,
    v1_Targets env = Ok active
    /\ targetsLoopPost env jobName
         (List.filter (targetSelected env jobName) (sortTargets active)) [] [] w
         (targetsLoop env jobName (sortTargets active) [] [] w) btns
    /\ r = snd (value (targetsLoop env jobName (sortTargets active) [] [] w))
    /\ kb = (if 0 <? len r
             then fst (value (targetsLoop env jobName (sortTargets active) [] [] w)) ++ [r]
             else fst (value (targetsLoop env jobName (sortTargets active) [] [] w)))
    /\ concat kb = btns
    /\ world (newTargetsKB env jobName w)
       = world (targetsLoop env jobName (sortTargets active) [] [] w).
Proof.
  unfold newTargetsKB. unfold call, emit, ret, bind. cbn [value world events app].
  destruct (v1_Targets env) as [active|err]; cbn [value world]; [|discriminate].
  intros [= <-].
  destruct (targetsLoop_spec env jobName (sortTargets active) [] [] w) as (btns & Hpost).
  exists active, (snd (value (targetsLoop env jobName (sortTargets active) [] [] w))), btns.
  split; [reflexivity|]. split; [exact Hpost|]. split; [reflexivity|].
  split; [reflexivity|]. split; [|reflexivity].
  destruct Hpost as (H1 & _). cbn [concat app] in H1. rewrite <- H1.
  destruct (Z.ltb_spec 0 (len (snd (value (targetsLoop env jobName (sortTargets active) [] [] w)))))
    as [Hpos|Hzero].
  - rewrite concat_app. cbn [concat]. by rewrite app_nil_r.
  - destruct (snd (value _)) as [|b r]; [by rewrite app_nil_r|].
    unfold len in Hzero. cbn [length] in Hzero. lia.
Qed.

(** X13.  With a configured row size of at least 1, a targets menu that
    is built for the job [jobName] has one button per selected target of
    the inventory, in ascending order of the instance labels: the targets
    whose job label is [jobName], whose alert query succeeds and, when a
    label is missing, whose marshalling for the log succeeds.  A button is
    labelled with the OK prefix when its query returned no alert and with
    the problem prefix otherwise, followed by the instance label.  Every
    row holds at least one and at most [KeyboardRows] buttons; a target of
    another job never gets a button. *)
Theorem X13_targets_menu_layout env (jobName : string) (w : World)
    (kb : InlineKeyboardMarkup) :
  1 <= KeyboardRows (cfg env) ->
  value (newTargetsKB env jobName w) = Ok kb ->
  exists active,
    v1_Targets env = Ok active
    /\ Forall2 (targetButton env) (concat kb)
         (List.filter (targetSelected env jobName) (sortTargets active))
    /\ StronglySorted instanceLe
         (List.filter (targetSelected env jobName) (sortTargets active))
    /\ Forall (fun t => t ∈ active /\ mapGet (tgt_Labels t) "job" = jobName)
         (List.filter (targetSelected env jobName) (sortTargets active))
    /\ Forall (fun row => 1 <= len row <= KeyboardRows (cfg env)) kb.
Proof.
  intros HK Hv.
  destruct (newTargetsKB_buttons env jobName w kb Hv)
    as (active & r & btns & Ht & Hpost & Hr & Hkb & Hconcat & _).
  destruct Hpost as (_ & H2 & _ & _ & _ & H6).
  exists active. split; [exact Ht|]. split; [by rewrite Hconcat|].
  split; [apply filter_sorted, sortTargets_sorted|]. split.
  - apply Forall_forall. intros t Hin.
    apply list_elem_of_In, filter_In in Hin as [Hin Hsel]. split.
    + rewrite <- (sortTargets_perm active). by apply list_elem_of_In.
    + unfold targetSelected in Hsel. apply andb_true_iff in Hsel as [Hsel _].
      apply andb_true_iff in Hsel as [_ Hjob]. by apply String.eqb_eq.
  - destruct H6 as [Hrows Hlast]; [exact HK|unfold len; cbn [length]; lia|constructor|].
    rewrite Hkb, <- Hr in *.
    destruct (Z.ltb_spec 0 (len r)) as [Hpos|Hzero]; [|exact Hrows].
    apply Forall_app. split; [exact Hrows|]. constructor; [|constructor]. lia.
Qed.

(** X14.  When the identifiers are pairwise different, every button of a
    targets menu resolves through the cache to the intent
    [{target, job_name, target_name}] of its target, all button data are
    pairwise different, and the build has consumed exactly one identifier
    per button. *)
Theorem X14_targets_menu_buttons_resolve env (jobName : string) (w : World)
    (kb : InlineKeyboardMarkup) :
  ksuidInjective env ->
  value (newTargetsKB env jobName w) = Ok kb ->
  let w' := world (newTargetsKB env jobName w) in
  exists active,
    v1_Targets env = Ok active
    /\ Forall2 (fun b t => Cache w' !! btn_CallbackData b
                           = Some (targetIntent jobName (mapGet (tgt_Labels t) "instance")))
         (concat kb) (List.filter (targetSelected env jobName) (sortTargets active))
    /\ NoDup (map btn_CallbackData (concat kb))
    /\ ksuids w' = (ksuids w + length (concat kb))%nat.
Proof.
  intros Hinj Hv w'. subst w'.
  destruct (newTargetsKB_buttons env jobName w kb Hv)
    as (active & r & btns & Ht & Hpost & Hr & Hkb & Hconcat & Hw).
  destruct Hpost as (_ & _ & H3 & H4 & H5 & _).
  exists active. rewrite Hconcat, Hw. split; [exact Ht|]. split; [by apply H5|].
  split; [|exact H4]. rewrite H3.
  assert (Hinj' : Inj (=) (=) (ksuid_New env)) by exact Hinj.
  apply (NoDup_fmap_2 (ksuid_New env)). apply NoDup_seq.
Qed.

Lemma X13_targets_menu_example :
  exists active,
    v1_Targets envInventory = Ok active
    /\ Forall2 (targetButton envInventory) (concat kbTargets)
         (List.filter (targetSelected envInventory "api") (sortTargets active))
    /\ StronglySorted instanceLe
         (List.filter (targetSelected envInventory "api") (sortTargets active))
    /\ Forall (fun t => t ∈ active /\ mapGet (tgt_Labels t) "job" = "api")
         (List.filter (targetSelected envInventory "api") (sortTargets active))
    /\ Forall (fun row => 1 <= len row <= KeyboardRows (cfg envInventory)) kbTargets.
Proof.
  apply (X13_targets_menu_layout envInventory "api" world0 kbTargets).
  - vm_compute. discriminate.
  - vm_compute. reflexivity.
Defined.

Lemma X14_targets_menu_example :
  exists active,
    v1_Targets envInventory = Ok active
    /\ Forall2 (fun b t => Cache (world (newTargetsKB envInventory "api" world0))
                           !! btn_CallbackData b
                           = Some (targetIntent "api" (mapGet (tgt_Labels t) "instance")))
         (concat kbTargets)
         (List.filter (targetSelected envInventory "api") (sortTargets active))
    /\ NoDup (map btn_CallbackData (concat kbTargets))
    /\ ksuids (world (newTargetsKB envInventory "api" world0))
       = (ksuids world0 + length (concat kbTargets))%nat.
Proof.
  apply (X14_targets_menu_buttons_resolve envInventory "api" world0 kbTargets).
  - apply testEnv_ksuidInjective.
  - vm_compute. reflexivity.
Defined.

(** ** Menu builds only look things up *)

Lemma dispatched_lookup (evs : list Event) :
  Forall (fun e => isLookup e = true) evs -> dispatched evs = [].
Proof.
  induction 1 as [|e evs He _ IH]; [reflexivity|].
  destruct e; cbn in *; try discriminate; exact IH.
Qed.

Lemma rendering_lookup (evs : list Event) :
  Forall (fun e => isLookup e = true) evs -> List.filter isRendering evs = [].
Proof.
  induction 1 as [|e evs He _ IH]; [reflexivity|].
  destruct e; cbn in *; try discriminate; exact IH.
Qed.

Lemma rendering_filter_transport (evs : list Event) :
  Forall (fun e => isTransport e = true) evs -> List.filter isRendering evs = [].
Proof.
  induction 1 as [|e evs He _ IH]; [reflexivity|].
  destruct e; cbn in *; try discriminate; exact IH.
Qed.

Lemma jobsLoop_lookup env (labels : list string) :
  forall kb r w, Forall (fun e => isLookup e = true) (events (jobsLoop env labels kb r w)).
Proof.
  induction labels as [|l rest IH]; intros kb r w; cbn [jobsLoop].
  - constructor.
  - unfold call, log_Printf, emit, ret, bind, ksuid_New_String, Cache_Set.
    cbn [value world events app].
    destruct (Alert_GetAlerts env ["job=" +:+ l]); cbn [value world events app].
    + constructor; [reflexivity|]. destruct (_ =? _); apply IH.
    + constructor; [reflexivity|]. constructor; [reflexivity|]. apply IH.
Qed.

Lemma newJobsKB_lookup env (w : World) :
  Forall (fun e => isLookup e = true) (events (newJobsKB env w)).
Proof.
  unfold newJobsKB. unfold call, emit, ret, bind, ksuid_New_String, Cache_Set.
  cbn [value world events app].
  destruct (v1_LabelValues env "job"); cbn [value world events app].
  - constructor; [reflexivity|]. rewrite !app_nil_r. apply jobsLoop_lookup.
  - repeat constructor.
Qed.

Lemma targetsLoop_lookup env (jobName : string) (targets : list ActiveTarget) :
  forall kb r w,
    Forall (fun e => isLookup e = true) (events (targetsLoop env jobName targets kb r w)).
Proof.
  induction targets as [|t rest IH]; intros kb r w; cbn [targetsLoop]; cbv zeta.
  - constructor.
  - unfold call, log_Printf, emit, ret, bind, ksuid_New_String, Cache_Set.
    cbn [value world events app].
    destruct ((strlen _ =? 0) || (strlen _ =? 0));
      [destruct (json_Marshal env (VTarget t))|];
      cbn [value world events app];
      repeat (constructor; [reflexivity|]); try apply IH.
    all: destruct (String.eqb _ jobName); cbn [negb]; try apply IH.
    all: destruct (Alert_GetAlerts env _); cbn [value world events app];
      repeat (constructor; [reflexivity|]); try apply IH.
    all: destruct (_ =? _); apply IH.
Qed.

Lemma newTargetsKB_lookup env (jobName : string) (w : World) :
  Forall (fun e => isLookup e = true) (events (newTargetsKB env jobName w)).
Proof.
  unfold newTargetsKB. unfold call, emit, ret, bind. cbn [value world events app].
  destruct (v1_Targets env); cbn [value world events app].
  - constructor; [reflexivity|]. rewrite !app_nil_r. apply targetsLoop_lookup.
  - repeat constructor.
Qed.

(** ** Commands: what [processMessage] does and does not *)

Lemma isAdmin_not_In env (m : Message) :
  ~ In (m_From m) (Users (cfg env)) ->
  existsb (fun u => String.eqb u (m_From m)) (Users (cfg env)) = false.
Proof.
  intros Hnot. destruct (existsb _ _) eqn:He; [|reflexivity].
  apply existsb_exists in He as (u & Hin & Heq). apply String.eqb_eq in Heq. by subst.
Qed.

(** X15.  For a message from a sender who is not on the list of users
    the fixed refusal is handed to [sendMessage] and nothing else
    happens: no command is run, no service is queried, nothing is
    rendered and the cache is untouched, whatever the message is.  With a
    positive retry count and a transport that accepts every call exactly
    one message goes out, the refusal with a newline in front. *)
Theorem X15_unlisted_sender_is_refused env (w : World) (m : Message) :
  ~ In (m_From m) (Users (cfg env)) ->
  exists tr,
    events (processMessage env m w)
    = EvSendMessage (CMessage (NewMessage (m_ChatID m) "I can't talk to you, sorry.")) :: tr
    /\ Forall (fun e => isTransport e = true) tr
    /\ Cache (world (processMessage env m w)) = Cache w
    /\ ksuids (world (processMessage env m w)) = ksuids w
    /\ (1 <= SendMessageRetryCount (cfg env) ->
        (forall n c, BotAPI_Send env n c = SendOk) ->
        tr = [EvSend (CMessage (NewMessage (m_ChatID m)
                                  (nl +:+ "I can't talk to you, sorry.")))]).
Proof.
  intros Hnot. unfold processMessage. rewrite (isAdmin_not_In env m Hnot). cbn [negb].
  rewrite sendMessageOrError_sendMessage. cbn [events world].
  destruct (sendMessage_events env
              (CMessage (NewMessage (m_ChatID m) "I can't talk to you, sorry.")) w)
    as (tr & Hev & Htr & Hc & Hk).
  exists tr. split; [exact Hev|]. split; [exact Htr|]. split; [exact Hc|].
  split; [exact Hk|]. intros Hretry Hacc.
  rewrite (sendMessage_short_accepted env Hretry Hacc) in Hev by (vm_compute; reflexivity).
  cbn [events] in Hev. by injection Hev as <-.
Qed.

Lemma X15_unlisted_sender_example :
  exists tr,
    events (processMessage envOk (mkMsg "mallory" 5 "/alerts" true "alerts" EmptyString) world0)
    = EvSendMessage (CMessage (NewMessage 5 "I can't talk to you, sorry.")) :: tr
    /\ tr = [EvSend (CMessage (NewMessage 5 (nl +:+ "I can't talk to you, sorry.")))].
Proof.
  destruct (X15_unlisted_sender_is_refused envOk world0
              (mkMsg "mallory" 5 "/alerts" true "alerts" EmptyString))
    as (tr & Hev & _ & _ & _ & Hwire).
  - vm_compute. intros [H|[]]. discriminate H.
  - exists tr. split; [exact Hev|]. apply Hwire.
    + vm_compute. discriminate.
    + intros n c. reflexivity.
Defined.

Lemma strings_Split_no_sep (s : string) (sep : ascii) :
  containsChar sep s = false -> strings_Split s sep = [s].
Proof.
  induction s as [|c r IH]; [reflexivity|]. cbn [containsChar strings_Split].
  destruct (Ascii.eqb c sep); [discriminate|]. cbn [orb]. intros H. by rewrite (IH H).
Qed.

Lemma strings_Split_sep (s : string) (sep : ascii) :
  containsChar sep s = true -> 2 <= len (strings_Split s sep).
Proof.
  induction s as [|c r IH]; [discriminate|]. cbn [containsChar strings_Split].
  destruct (Ascii.eqb c sep); cbn [orb].
  - intros _. pose proof (strings_Split_nonempty r sep).
    destruct (strings_Split r sep); [done|]. unfold len. cbn [length]. lia.
  - intros H. specialize (IH H). pose proof (strings_Split_nonempty r sep).
    destruct (strings_Split r sep); [done|]. unfold len in *. cbn [length] in *. lia.
Qed.

(** The argument check, by the argument string. *)
Lemma argumentError_cases (args : string) :
  argumentError (strings_Split args " ")
  = if containsChar " " args then Some "Too many arguments."
    else if String.eqb args EmptyString || String.eqb args "json" then None
         else Some "Unknown argument.".
Proof.
  unfold argumentError. destruct (containsChar " " args) eqn:Hc.
  - pose proof (strings_Split_sep args " " Hc) as Hlen.
    destruct (Z.ltb_spec 1 (len (strings_Split args " "))); [reflexivity|lia].
  - rewrite (strings_Split_no_sep args " " Hc). cbn [len length hd].
    change (1 <? Z.of_nat 1) with false. cbn [hd].
    destruct args as [|c r]; [reflexivity|].
    rewrite strlen_String. pose proof (strlen_nonneg r).
    destruct (Z.eqb_spec (1 + strlen r) 0); [lia|]. cbn [negb andb orb].
    change (String.eqb (String c r) EmptyString) with false. cbn [orb].
    by destruct (String.eqb (String c r) "json").
Qed.

(** X16.  For [/alerts] and [/silences] from an allowed user, an
    argument string other than the empty one and [json] makes the bot
    hand an argument error to [sendMessage], [Too many arguments.] when
    it contains a space and [Unknown argument.] otherwise, and nothing
    else happens: no service is queried and nothing is rendered.  With a
    positive retry count and a transport that accepts every call exactly
    one message goes out, that text with a newline in front. *)
Theorem X16_bad_arguments_are_rejected env (w : World) (m : Message) :
  In (m_From m) (Users (cfg env)) ->
  m_IsCommand m = true ->
  m_Command m = "alerts" \/ m_Command m = "silences" ->
  m_CommandArguments m <> EmptyString ->
  m_CommandArguments m <> "json" ->
  let reply := if containsChar " " (m_CommandArguments m)
               then "Too many arguments." else "Unknown argument." in
  exists tr,
    events (processMessage env m w)
    = EvSendMessage (CMessage (NewMessage (m_ChatID m) reply)) :: tr
    /\ Forall (fun e => isTransport e = true) tr
    /\ (1 <= SendMessageRetryCount (cfg env) ->
        (forall n c, BotAPI_Send env n c = SendOk) ->
        tr = [EvSend (CMessage (NewMessage (m_ChatID m) (nl +:+ reply)))]).
Proof.
  intros Hadmin Hcmd Hname Hne Hnj reply. unfold processMessage.
  rewrite (isAdmin_In env m Hadmin), Hcmd.
  assert (Harg : argumentError (strings_Split (m_CommandArguments m) " ") = Some reply).
  { rewrite argumentError_cases. subst reply. destruct (containsChar " " _); [reflexivity|].
    apply String.eqb_neq in Hne, Hnj. by rewrite Hne, Hnj. }
  assert (Hshort : strlen reply < maxMessageTextLength).
  { subst reply. destruct (containsChar " " _); vm_compute; reflexivity. }
  destruct Hname as [-> | ->]; cbn [negb String.eqb Ascii.eqb Bool.eqb orb];
    rewrite Harg, sendMessageOrError_sendMessage; cbn [events];
    destruct (sendMessage_events env (CMessage (NewMessage (m_ChatID m) reply)) w)
      as (tr & Hev & Htr & _);
    (exists tr; split; [exact Hev|]; split; [exact Htr|]; intros Hretry Hacc;
     rewrite (sendMessage_short_accepted env Hretry Hacc) in Hev by exact Hshort;
     cbn [events] in Hev; by injection Hev as <-).
Qed.

Lemma X16_bad_arguments_example :
  exists tr,
    events (processMessage envOk (mkMsg "admin" 5 "/silences extra stuff" true "silences"
                                    "extra stuff") world0)
    = EvSendMessage (CMessage (NewMessage 5 "Too many arguments.")) :: tr
    /\ tr = [EvSend (CMessage (NewMessage 5 (nl +:+ "Too many arguments.")))].
Proof.
  destruct (X16_bad_arguments_are_rejected envOk world0
              (mkMsg "admin" 5 "/silences extra stuff" true "silences" "extra stuff"))
    as (tr & Hev & _ & Hwire).
  - vm_compute. left. reflexivity.
  - reflexivity.
  - right. reflexivity.
  - discriminate.
  - discriminate.
  - exists tr. split; [exact Hev|]. apply Hwire.
    + vm_compute. discriminate.
    + intros n c. reflexivity.
Defined.

Lemma filter_rendering_app (a b : list Event) :
  List.filter isRendering (a ++ b) = List.filter isRendering a ++ List.filter isRendering b.
Proof. apply List.filter_app. Qed.

(** Replaces the trace of every [sendMessageOrError] call in the goal by
    its shape. *)
Ltac use_sendMessageOrError :=
  repeat match goal with
         | |- context [events (sendMessageOrError ?e ?c ?w')] =>
             let tr := fresh "tr" in
             let Hev := fresh "Hev" in
             let Htr := fresh "Htr" in
             let Hc := fresh "Hc" in
             let Hk := fresh "Hk" in
             destruct (sendMessageOrError_events e c w') as (tr & Hev & Htr & Hc & Hk);
             rewrite ?Hev, ?Hc, ?Hk;
             pose proof (dispatched_transport tr Htr);
             pose proof (rendering_filter_transport tr Htr)
         end.

(** X17.  Whatever the message, [processMessage] hands at most one
    message to [sendMessage] and takes at most one rendering path: it
    never both marshals JSON and renders a template, and never does
    either twice. *)
Theorem X17_one_reply_one_rendering env (w : World) (m : Message) :
  let evs := events (processMessage env m w) in
  (length (dispatched evs) <= 1)%nat
  /\ (length (List.filter isRendering evs) <= 1)%nat.
Proof.
  intros evs. subst evs.
  pose proof (dispatched_lookup _ (newJobsKB_lookup env w)) as Hjd.
  pose proof (rendering_lookup _ (newJobsKB_lookup env w)) as Hjr.
  unfold processMessage, applyTemplate, time_Since.
  repeat (observe; rewrite ?Hjd, ?Hjr;
          match goal with
          | |- context [match ?x with _ => _ end] => destruct x eqn:?
          end).
  all: observe; rewrite ?Hjd, ?Hjr; cbn [length app]; split; lia.
Qed.

(** X18.  Only [/targets] touches the cache: for every other message
    [processMessage] leaves the cache as it is and generates no
    identifier. *)
Theorem X18_only_targets_writes_cache env (w : World) (m : Message) :
  m_Command m <> "targets" ->
  Cache (world (processMessage env m w)) = Cache w
  /\ ksuids (world (processMessage env m w)) = ksuids w.
Proof.
  intros Hcmd. apply String.eqb_neq in Hcmd.
  unfold processMessage, applyTemplate, time_Since. rewrite Hcmd.
  repeat (observe;
          match goal with
          | |- context [match ?x with _ => _ end] => destruct x eqn:?
          end).
  all: observe; split; reflexivity.
Qed.

Lemma X18_only_targets_example :
  Cache (world (processMessage envSilences msgSilences world0)) = Cache world0
  /\ ksuids (world (processMessage envSilences msgSilences world0)) = ksuids world0.
Proof.
  apply (X18_only_targets_writes_cache envSilences world0 msgSilences). discriminate.
Defined.

(** X19.  [/silences] passes on the active silences only: what is
    marshalled or rendered is the list of the returned silences whose
    state is [active], in the order returned; when none is active
    [No active silences found.] is handed to [sendMessage] and nothing is
    marshalled or rendered, and with a positive retry count and a
    transport that accepts every call exactly one message goes out, that
    text with a newline in front. *)
Theorem X19_silences_only_active env (w : World) (m : Message)
    (payload : list GettableSilence) :
  In (m_From m) (Users (cfg env)) ->
  m_IsCommand m = true ->
  m_Command m = "silences" ->
  m_CommandArguments m = EmptyString \/ m_CommandArguments m = "json" ->
  Silence_GetSilences env = Ok payload ->
  let active := List.filter (fun s => String.eqb (sil_State s) "active") payload in
  let evs := events (processMessage env m w) in
  match active with
  | [] => dispatched evs = [CMessage (NewMessage (m_ChatID m) "No active silences found.")]
          /\ List.filter isRendering evs = []
          /\ (1 <= SendMessageRetryCount (cfg env) ->
              (forall n c, BotAPI_Send env n c = SendOk) ->
              transportCalls evs
              = [CMessage (NewMessage (m_ChatID m) (nl +:+ "No active silences found."))])
  | _ :: _ => List.filter isRendering evs = [EvMarshalIndent (VSilences active)]
              \/ List.filter isRendering evs
                 = [EvTemplate (SilencesTemplatePath (cfg env)) (VSilences active)]
  end.
Proof.
  intros Hadmin Hcmd Hname Hargs Hq active evs. subst evs.
  unfold processMessage. rewrite (isAdmin_In env m Hadmin), Hcmd, Hname.
  cbn [negb String.eqb Ascii.eqb Bool.eqb orb].
  destruct (argumentError_accepts _ Hargs) as [-> _].
  rewrite events_bind. cbn [call bind emit ret value world events app]. rewrite Hq.
  fold active.
  destruct active as [|s rest] eqn:Hactive.
  - change (len (@nil GettableSilence) =? 0) with true. cbv iota.
    rewrite sendMessageOrError_sendMessage. cbn [events dispatched List.filter isRendering].
    split; [apply dispatched_sendMessage|]. split; [apply rendering_sendMessage|].
    intros Hretry Hacc.
    rewrite (sendMessage_short_accepted env Hretry Hacc) by (vm_compute; reflexivity).
    reflexivity.
  - change (len (s :: rest) =? 0) with false. cbv iota.
    unfold applyTemplate, call, log_Printf, emit, ret, bind.
    program_cases.
    all: use_sendMessageOrError.
    all: cbn [List.filter isRendering app]; rewrite ?filter_rendering_app;
      cbn [List.filter isRendering app];
      repeat match goal with H : _ = [] |- _ => rewrite H end; auto.
Qed.

Lemma X19_silences_only_active_example :
  (List.filter isRendering (events (processMessage envMixedSilences msgSilences world0))
   = [EvMarshalIndent (VSilences [activeSilence])]
   \/ List.filter isRendering (events (processMessage envMixedSilences msgSilences world0))
      = [EvTemplate (SilencesTemplatePath (cfg envMixedSilences))
           (VSilences [activeSilence])])
  /\ transportCalls (events (processMessage envOk msgSilences world0))
     = [CMessage (NewMessage 5 (nl +:+ "No active silences found."))].
Proof.
  split.
  - apply (X19_silences_only_active envMixedSilences world0 msgSilences
             [expiredSilence; activeSilence; expiredSilence]).
    + vm_compute. left. reflexivity.
    + reflexivity.
    + reflexivity.
    + left. reflexivity.
    + reflexivity.
  - destruct (X19_silences_only_active envOk world0 msgSilences []) as (_ & _ & Hwire).
    + vm_compute. left. reflexivity.
    + reflexivity.
    + reflexivity.
    + left. reflexivity.
    + reflexivity.
    + apply Hwire.
      * vm_compute. discriminate.
      * intros n c. reflexivity.
Defined.

(** X20.  [/alerts] with a non-empty answer takes exactly one rendering
    path, chosen by the configuration and the argument: the alerts are
    marshalled as JSON when no alerts template is configured or the
    argument is [json], and rendered through the alerts template
    otherwise. *)
Theorem X20_alerts_rendering_choice env (w : World) (m : Message)
    (payload : list GettableAlert) :
  In (m_From m) (Users (cfg env)) ->
  m_IsCommand m = true ->
  m_Command m = "alerts" ->
  m_CommandArguments m = EmptyString \/ m_CommandArguments m = "json" ->
  Alert_GetAlerts env [] = Ok payload ->
  payload <> [] ->
  List.filter isRendering (events (processMessage env m w))
  = [if (strlen (GettableAlertsTemplatePath (cfg env)) =? 0)
        || String.eqb (m_CommandArguments m) "json"
     then EvMarshalIndent (VAlerts payload)
     else EvTemplate (GettableAlertsTemplatePath (cfg env)) (VAlerts payload)].
Proof.
  intros Hadmin Hcmd Hname Hargs Hq Hne.
  unfold processMessage. rewrite (isAdmin_In env m Hadmin), Hcmd, Hname.
  cbn [negb String.eqb Ascii.eqb Bool.eqb orb].
  destruct (argumentError_accepts _ Hargs) as [-> ->].
  unfold applyTemplate, call, log_Printf, emit, ret, bind.
  cbn [value world events app]. rewrite Hq.
  destruct payload as [|a rest]; [done|].
  change (len (a :: rest) =? 0) with false.
  program_cases.
  all: use_sendMessageOrError.
  all: cbn [List.filter isRendering app]; rewrite ?filter_rendering_app;
    cbn [List.filter isRendering app];
    repeat match goal with H : _ = [] |- _ => rewrite H end; reflexivity.
Qed.

Lemma X20_alerts_rendering_example :
  List.filter isRendering (events (processMessage envAlertsTemplate msgAlerts world0))
  = [EvTemplate "alerts.tmpl" (VAlerts [oneAlert])].
Proof.
  apply (X20_alerts_rendering_choice envAlertsTemplate world0 msgAlerts [oneAlert]).
  - vm_compute. left. reflexivity.
  - reflexivity.
  - reflexivity.
  - left. reflexivity.
  - reflexivity.
  - discriminate.
Defined.

(** X21.  [/targets] from an allowed user builds the jobs menu and, when
    that succeeds, hands exactly one message to [sendMessage]:
    [Select job:] with the menu as reply markup.  When the job names
    cannot be fetched no message is sent and the error is returned. *)
Theorem X21_targets_command env (w : World) (m : Message) :
  In (m_From m) (Users (cfg env)) ->
  m_IsCommand m = true ->
  m_Command m = "targets" ->
  match value (newJobsKB env w) with
  | Ok kb =>
      dispatched (events (processMessage env m w))
      = [CMessage (mkMessage (m_ChatID m) "Select job:" EmptyString (Some kb))]
  | Err err =>
      dispatched (events (processMessage env m w)) = []
      /\ value (processMessage env m w) = Some ("error creating jobs menu: " +:+ err)
      /\ transportCalls (events (processMessage env m w)) = []
  end.
Proof.
  intros Hadmin Hcmd Hname.
  unfold processMessage. rewrite (isAdmin_In env m Hadmin), Hcmd, Hname.
  cbn [negb String.eqb Ascii.eqb Bool.eqb orb].
  unfold bind. cbn [value world events].
  pose proof (newJobsKB_lookup env w) as Hl.
  destruct (value (newJobsKB env w)) as [kb|err]; cbn [value world events ret].
  - use_sendMessageOrError. rewrite dispatched_app, (dispatched_lookup _ Hl).
    cbn [dispatched app]. congruence.
  - rewrite app_nil_r. split; [by apply dispatched_lookup|]. split; [reflexivity|].
    clear -Hl. induction Hl as [|e evs He _ IH]; [reflexivity|].
    destruct e; cbn in *; try discriminate; exact IH.
Qed.

Lemma X21_targets_command_example :
  dispatched (events (processMessage envJobs (mkMsg "admin" 5 "/targets" true "targets"
                                                EmptyString) world0))
  = [CMessage (mkMessage 5 "Select job:" EmptyString (Some kbJobs))].
Proof.
  apply (X21_targets_command envJobs world0
           (mkMsg "admin" 5 "/targets" true "targets" EmptyString)).
  - vm_compute. left. reflexivity.
  - reflexivity.
  - reflexivity.
Defined.

(** ** Callback queries *)

(** Rewrites with the facts that say that a trace has no dispatch and no
    rendering, and closes the goal when it is then an identity. *)
Ltac by_traces :=
  repeat match goal with
         | H : dispatched _ = [] |- _ => rewrite H
         | H : List.filter isRendering _ = [] |- _ => rewrite H
         | H : Cache _ = _ |- _ => rewrite H
         end;
  cbn [dispatched app]; try reflexivity.

(** X22.  Pressing the button of a target that has no active alert:
    one edit of the menu message is handed to [sendMessage], with the
    text [No active alerts for <instance>] and exactly one button,
    [Go back], whose data is the key of the one new cache entry: an
    intent of type [job] for the originating job with
    [leave_last_message] set.  No template is rendered.  With a positive
    retry count, a transport that accepts every call and a text shorter
    than 4096 bytes, that edit is the one transport call. *)
Theorem X22_target_without_alerts env (w : World) (cq : CallbackQuery) (cb : Callback) :
  cb_Type cb = "target" ->
  Alert_GetAlerts env ["instance=" +:+ mapGet (cb_Data cb) "target_name"] = Ok [] ->
  let o := processCallbackQuery env cq cb w in
  let cacheID := ksuid_New env (ksuids w) in
  let text := "No active alerts for " +:+ mapGet (cb_Data cb) "target_name" in
  let edit := CEditText (mkEditText (cq_ChatID cq) (cq_MessageID cq) text
                           ModeHTML (Some [[mkButton "Go back" cacheID]])) in
  dispatched (events o) = [edit]
  /\ Cache (world o)
     = <[cacheID := mkCallback "job"
                      (<["leave_last_message" := "yes"]>
                         (<["job_name" := mapGet (cb_Data cb) "job_name"]> ∅))]> (Cache w)
  /\ List.filter isRendering (events o) = []
  /\ (1 <= SendMessageRetryCount (cfg env) ->
      (forall n c, BotAPI_Send env n c = SendOk) ->
      strlen text < maxMessageTextLength ->
      transportCalls (events o) = [edit]).
Proof.
  intros Htype Hq o cacheID text edit. subst o cacheID text edit.
  unfold processCallbackQuery. rewrite Htype. cbn [String.eqb Ascii.eqb Bool.eqb]. cbv zeta.
  unfold goBackRow. observe. rewrite Hq.
  change (0 <? len (@nil GettableAlert)) with false. cbv iota. observe.
  split; [reflexivity|]. split; [reflexivity|]. split; [reflexivity|].
  intros Hretry Hacc Hlen.
  rewrite (sendMessage_edit_short_accepted env Hretry Hacc) by exact Hlen.
  reflexivity.
Qed.

Lemma X22_target_without_alerts_example :
  dispatched (events (processCallbackQuery envOk queryTok (targetIntent "api" "h1:9100") world0))
  = [CEditText (mkEditText 5 7 "No active alerts for h1:9100" ModeHTML
                  (Some [[mkButton "Go back" "ksuid-0"]]))]
  /\ transportCalls
       (events (processCallbackQuery envOk queryTok (targetIntent "api" "h1:9100") world0))
     = [CEditText (mkEditText 5 7 "No active alerts for h1:9100" ModeHTML
                     (Some [[mkButton "Go back" "ksuid-0"]]))].
Proof.
  destruct (X22_target_without_alerts envOk world0 queryTok (targetIntent "api" "h1:9100"))
    as (Hd & _ & _ & Hwire).
  - reflexivity.
  - reflexivity.
  - split; [exact Hd|]. apply Hwire.
    + vm_compute. discriminate.
    + intros n c. reflexivity.
    + vm_compute. reflexivity.
Defined.

(** X23.  Pressing [Silence] posts one silence, and queries nothing
    else, with exactly two matchers, [instance] and [alertname] with the
    values bound in the intent, neither of them a regular expression.
    The clock is read twice: the silence starts at the first reading and
    ends the configured duration after the second.  When the post fails
    nothing is handed to [sendMessage]; when it succeeds the removal of
    the keyboard of the alert message is handed over first, and the
    report, an HTML message without keyboard, only if that removal
    returned no error.  With a positive retry count and a transport that
    accepts every call the removal goes out first and then the report in
    chunks.  The cache is not touched. *)
Theorem X23_silence_posts_exact_matchers env (w : World) (cq : CallbackQuery) (cb : Callback) :
  cb_Type cb = "silence" ->
  let params :=
    mkPostable [("instance", mapGet (cb_Data cb) "instance", false);
                ("alertname", mapGet (cb_Data cb) "alertname", false)]
      (time_Now env (clock w))
      (time_Now env (S (clock w)) + SilenceDuration (cfg env))
      (programName env +:+ " version " +:+ versionString env) EmptyString in
  let unmark := CEditMarkup (mkEditMarkup (cq_ChatID cq) (cq_MessageID cq) (Some [])) in
  let o := processCallbackQuery env cq cb w in
  Cache (world o) = Cache w
  /\ List.filter isQuery (events o) = [EvPostSilences params]
  /\ match Silence_PostSilences env params with
     | Err err =>
         events o = [EvPostSilences params]
         /\ value o = Some ("error posting new silence: " +:+ err)
     | Ok _ =>
         exists text,
           dispatched (events o)
           = unmark :: match value (sendMessage env unmark
                                      (mkWorld (Cache w) (ksuids w) (sends w)
                                         (S (S (clock w))))) with
                       | None => [CMessage (mkMessage (cq_ChatID cq) text ModeHTML None)]
                       | Some _ => []
                       end
           /\ (1 <= SendMessageRetryCount (cfg env) ->
               (forall n c, BotAPI_Send env n c = SendOk) ->
               exists calls,
                 transportCalls (events o) = unmark :: calls
                 /\ sentInChunks (cq_ChatID cq) ModeHTML None text calls)
     end.
Proof.
  intros Htype params unmark o. subst o.
  unfold processCallbackQuery. rewrite Htype. cbn [String.eqb Ascii.eqb Bool.eqb]. cbv zeta.
  observe. fold params.
  change (CEditMarkup (NewEditMessageReplyMarkup (cq_ChatID cq) (cq_MessageID cq) []))
    with unmark.
  set (w2 := mkWorld (Cache w) (ksuids w) (sends w) (S (S (clock w)))).
  destruct (Silence_PostSilences env params) as [sid|err]; observe; [|by repeat split].
  destruct (value (sendMessage env unmark w2)) as [e|] eqn:Hv; observe.
  - split; [reflexivity|]. split; [reflexivity|]. exists EmptyString.
    split; [reflexivity|]. intros Hretry Hacc.
    rewrite (sendMessage_passed_accepted env Hretry Hacc unmark w2 I) in Hv. discriminate.
  - split; [reflexivity|]. split; [reflexivity|]. eexists.
    split; [reflexivity|]. intros Hretry Hacc.
    rewrite (sendMessage_passed_accepted env Hretry Hacc unmark w2 I).
    cbn [events world transportCalls app]. eexists. split; [reflexivity|].
    apply (sendMessage_message_accepted env Hretry Hacc (mkMessage _ _ _ _)).
Qed.

Lemma X23_silence_example :
  exists text calls,
    dispatched (events (processCallbackQuery envOk queryTok
                          (mkCallback "silence" groupLabels) world0))
    = [CEditMarkup (mkEditMarkup 5 7 (Some []));
       CMessage (mkMessage 5 text ModeHTML None)]
    /\ transportCalls (events (processCallbackQuery envOk queryTok
                                 (mkCallback "silence" groupLabels) world0))
       = CEditMarkup (mkEditMarkup 5 7 (Some [])) :: calls
    /\ sentInChunks 5 ModeHTML None text calls.
Proof.
  destruct (X23_silence_posts_exact_matchers envOk world0 queryTok
              (mkCallback "silence" groupLabels)) as (_ & _ & H).
  - reflexivity.
  - destruct H as (text & Hd & Hwire). exists text.
    destruct Hwire as (calls & Ht & Hs).
    + vm_compute. discriminate.
    + intros n c. reflexivity.
    + exists calls. split; [exact Hd|]. split; [exact Ht|exact Hs].
Defined.


(** X24.  Pressing [Close menu]: when the token of the callback query is
    in the cache with an intent of type [close], the router removes
    exactly that entry and hands exactly one request to [sendMessage],
    the delete of the menu message. *)
Theorem X24_close_deletes_menu env (w : World) (cq : CallbackQuery) (cb : Callback)
    (b : string) :
  Cache w !! cq_Data cq = Some cb ->
  cb_Type cb = "close" ->
  json_Marshal env (VCallback cb) = Ok b ->
  let o := handleUpdate env (mkUpdate None None (Some cq)) w in
  dispatched (events o) = [CDelete (mkDelete (cq_ChatID cq) (cq_MessageID cq))]
  /\ Cache (world o) = delete (cq_Data cq) (Cache w)
  /\ ksuids (world o) = ksuids w.
Proof.
  intros Hget Htype Hb o. subst o.
  unfold handleUpdate. cbn [upd_Message upd_EditedMessage upd_CallbackQuery].
  unfold call, log_Printf, emit, ret, bind, Cache_Get, Cache_Remove.
  cbn [value world events app]. rewrite Hget. cbn [value world events app].
  rewrite Hb. cbn [value world events app].
  unfold processCallbackQuery. rewrite Htype. cbn [String.eqb Ascii.eqb Bool.eqb].
  use_sendMessageOrError.
  destruct (value (sendMessageOrError env _ _)); cbn [value world events app dispatched];
    rewrite ?dispatched_app; cbn [dispatched app];
    repeat match goal with H : dispatched _ = [] |- _ => rewrite H end;
    by repeat split.
Qed.

Lemma X24_close_example :
  let w := world (Cache_Set "tok" (mkCallback "close" ∅) world0) in
  dispatched (events (handleUpdate envOk (mkUpdate None None (Some queryTok)) w))
  = [CDelete (mkDelete 5 7)]
  /\ Cache (world (handleUpdate envOk (mkUpdate None None (Some queryTok)) w))
     = delete "tok" (Cache w)
  /\ ksuids (world (handleUpdate envOk (mkUpdate None None (Some queryTok)) w)) = ksuids w.
Proof.
  apply (X24_close_deletes_menu envOk (world (Cache_Set "tok" (mkCallback "close" ∅) world0))
           queryTok (mkCallback "close" ∅) "{}").
  - vm_compute. reflexivity.
  - reflexivity.
  - reflexivity.
Defined.

(** X25.  Pressing a job button: when the targets menu is built, one
    [Go back] row is appended whose data is the key of the one further
    cache entry, an intent of type [jobs].  Without [leave_last_message]
    one edit of the menu message into [Select target:] with that keyboard
    is handed to [sendMessage].  With [leave_last_message] set to [yes]
    the removal of the keyboard of the current message is handed over
    first, and the menu as a new message only if that removal returned no
    error.  With a positive retry count and a transport that accepts
    every call, the edit goes out as it is in the first case, and in the
    second the removal and then the menu, its text with a newline in
    front. *)
Theorem X25_job_button_shows_targets env (w : World) (cq : CallbackQuery) (cb : Callback)
    (kb : InlineKeyboardMarkup) :
  cb_Type cb = "job" ->
  value (newTargetsKB env (mapGet (cb_Data cb) "job_name") w) = Ok kb ->
  let w1 := world (newTargetsKB env (mapGet (cb_Data cb) "job_name") w) in
  let cacheID := ksuid_New env (ksuids w1) in
  let menu := kb ++ [[mkButton "Go back" cacheID]] in
  let w2 := mkWorld (<[cacheID := mkCallback "jobs" ∅]> (Cache w1)) (S (ksuids w1))
              (sends w1) (clock w1) in
  let unmark := CEditMarkup (mkEditMarkup (cq_ChatID cq) (cq_MessageID cq) (Some [])) in
  let edit := CEditText (mkEditText (cq_ChatID cq) (cq_MessageID cq) "Select target:"
                           EmptyString (Some menu)) in
  let o := processCallbackQuery env cq cb w in
  Cache (world o) = <[cacheID := mkCallback "jobs" ∅]> (Cache w1)
  /\ if String.eqb (mapGet (cb_Data cb) "leave_last_message") "yes"
     then dispatched (events o)
          = unmark :: match value (sendMessage env unmark w2) with
                      | None => [CMessage (mkMessage (cq_ChatID cq) "Select target:"
                                             EmptyString (Some menu))]
                      | Some _ => []
                      end
          /\ (1 <= SendMessageRetryCount (cfg env) ->
              (forall n c, BotAPI_Send env n c = SendOk) ->
              transportCalls (events o)
              = [unmark;
                 CMessage (mkMessage (cq_ChatID cq) (nl +:+ "Select target:")
                             EmptyString (Some menu))])
     else dispatched (events o) = [edit]
          /\ (1 <= SendMessageRetryCount (cfg env) ->
              (forall n c, BotAPI_Send env n c = SendOk) ->
              transportCalls (events o) = [edit]).
Proof.
  intros Htype Hkb w1 cacheID menu w2 unmark edit o. subst o.
  unfold processCallbackQuery. rewrite Htype. cbn [String.eqb Ascii.eqb Bool.eqb]. cbv zeta.
  pose proof (newTargetsKB_lookup env (mapGet (cb_Data cb) "job_name") w) as Hl.
  pose proof (dispatched_lookup _ Hl) as Hld.
  pose proof (transportCalls_lookup _ Hl) as Hlt.
  unfold goBackRow. observe. rewrite Hkb, Hld, Hlt. observe.
  fold w1. fold cacheID. fold menu. fold w2.
  change (CEditMarkup (NewEditMessageReplyMarkup (cq_ChatID cq) (cq_MessageID cq) []))
    with unmark.
  destruct (String.eqb (mapGet (cb_Data cb) "leave_last_message") "yes"); observe.
  - destruct (value (sendMessage env unmark w2)) as [e|] eqn:Hv; observe.
    + split; [reflexivity|]. split; [reflexivity|]. intros Hretry Hacc.
      rewrite (sendMessage_passed_accepted env Hretry Hacc unmark w2 I) in Hv. discriminate.
    + split; [reflexivity|]. split; [reflexivity|]. intros Hretry Hacc.
      rewrite (sendMessage_passed_accepted env Hretry Hacc unmark w2 I).
      cbn [events world transportCalls app].
      rewrite (sendMessage_short_accepted env Hretry Hacc) by (vm_compute; reflexivity).
      reflexivity.
  - split; [reflexivity|]. split; [reflexivity|]. intros Hretry Hacc.
    rewrite (sendMessage_edit_short_accepted env Hretry Hacc) by (vm_compute; reflexivity).
    reflexivity.
Qed.

Lemma X25_job_button_example :
  dispatched (events (processCallbackQuery envInventory queryTok (jobIntent "api") world0))
  = [CEditText (mkEditText 5 7 "Select target:" EmptyString
                  (Some (kbTargets ++ [[mkButton "Go back" "ksuid-2"]])))]
  /\ transportCalls
       (events (processCallbackQuery envInventory queryTok (jobIntent "api") world0))
     = [CEditText (mkEditText 5 7 "Select target:" EmptyString
                     (Some (kbTargets ++ [[mkButton "Go back" "ksuid-2"]])))].
Proof.
  destruct (X25_job_button_shows_targets envInventory world0 queryTok (jobIntent "api")
              kbTargets) as [_ H].
  - reflexivity.
  - vm_compute. reflexivity.
  - destruct H as [Hd Hwire]. split; [exact Hd|]. apply Hwire.
    + vm_compute. discriminate.
    + intros n c. reflexivity.
Defined.

(** ** Live buttons stay valid *)

Section LiveTokens.

Variable env : Env.
Variable t : string.

Ltac keeps_more :=
  first
    [ apply keeps_store; intros
    | apply keeps_sendMessageOrError
    | apply keeps_sendMessage
    | apply keeps_newJobsKB
    | apply keeps_newTargetsKB
    | apply keeps_applyTemplate
    | apply keeps_processCallbackQuery
    | apply keeps_call
    | apply keeps_since
    | apply keeps_now
    | apply keeps_log
    | apply keeps_emit
    | apply keeps_ret
    | assumption
    | apply keeps_bind; [|intros]
    | match goal with
      | |- keeps _ _ (match ?x with _ => _ end) => destruct x
      end ].

Lemma keeps_processMessage (m : Message) : keeps env t (processMessage env m).
Proof. unfold processMessage. cbv zeta. repeat keeps_more. Qed.

Lemma keeps_handleHTTP (ctx : RequestCtx) : keeps env t (handleHTTP env ctx).
Proof. unfold handleHTTP. cbv zeta. repeat keeps_more. Qed.

Lemma keeps_Cache_Get (key : string) : keeps env t (Cache_Get key).
Proof. intros w _. split; [reflexivity|]. cbn. lia. Qed.

Lemma keeps_Cache_Remove (key : string) : key <> t -> keeps env t (Cache_Remove key).
Proof.
  intros Hne w _. cbn. split; [by apply lookup_delete_ne|lia].
Qed.

Lemma keeps_handleUpdate (update : Update) :
  (forall cq, upd_Message update = None -> upd_EditedMessage update = None ->
              upd_CallbackQuery update = Some cq -> cq_Data cq <> t) ->
  keeps env t (handleUpdate env update).
Proof.
  intros Hne. unfold handleUpdate.
  destruct (upd_Message update) as [m|].
  { repeat first [apply keeps_processMessage | keeps_more]. }
  destruct (upd_EditedMessage update) as [m|].
  { repeat first [apply keeps_processMessage | keeps_more]. }
  destruct (upd_CallbackQuery update) as [cq|]; [|apply keeps_log].
  specialize (Hne cq eq_refl eq_refl eq_refl).
  apply keeps_bind; [apply keeps_Cache_Get|]. intros [cb|err]; [|apply keeps_log].
  apply keeps_bind; [by apply keeps_Cache_Remove|]. intros _.
  repeat keeps_more.
Qed.

End LiveTokens.

(** X26.  A cache entry survives everything but its own consumption:
    when no identifier generated from now on equals the token [t], then
    a command, a webhook and an update that is not a callback query
    carrying [t] leave the entry of [t] exactly as it is. *)
Theorem X26_other_tokens_survive env (t : string) (w : World) :
  (forall n, (ksuids w <= n)%nat -> ksuid_New env n <> t) ->
  (forall m, Cache (world (processMessage env m w)) !! t = Cache w !! t)
  /\ (forall ctx, Cache (world (handleHTTP env ctx w)) !! t = Cache w !! t)
  /\ (forall update,
        (forall cq, upd_Message update = None -> upd_EditedMessage update = None ->
                    upd_CallbackQuery update = Some cq -> cq_Data cq <> t) ->
        Cache (world (handleUpdate env update w)) !! t = Cache w !! t).
Proof.
  intros Hfresh. split; [|split].
  - intros m. apply (keeps_processMessage env t m w Hfresh).
  - intros ctx. apply (keeps_handleHTTP env t ctx w Hfresh).
  - intros update Hne. apply (keeps_handleUpdate env t update Hne w Hfresh).
Qed.

Lemma X26_other_tokens_survive_example :
  let w := world (Cache_Set "tok" (mkCallback "close" ∅) world0) in
  Cache (world (processMessage envJobs (mkMsg "admin" 5 "/targets" true "targets" EmptyString) w))
  !! "tok" = Some (mkCallback "close" ∅).
Proof.
  intros w.
  destruct (X26_other_tokens_survive envJobs "tok" w) as [H _].
  - intros n _. discriminate.
  - rewrite H. reflexivity.
Defined.

(** ** The webhook: dropped requests and the message text *)

(** X28.  A request to another path, a request that is not a POST, a
    request without a numeric [chatid] and a request whose body is not a
    payload are dropped: they are logged, nothing is sent, queried or
    rendered, and the state is unchanged. *)
Theorem X28_bad_requests_are_dropped env (w : World) (ctx : RequestCtx) :
  req_Path ctx <> "/alerts"
  \/ req_IsPost ctx = false
  \/ (exists e, strconv_ParseInt env (req_chatid ctx) = Err e)
  \/ (exists e, json_Unmarshal env (req_PostBody ctx) = Err e) ->
  world (handleHTTP env ctx w) = w
  /\ Forall (fun e => isLog e = true) (events (handleHTTP env ctx w)).
Proof.
  intros Hbad. unfold handleHTTP.
  destruct (String.eqb_spec (req_Path ctx) "/alerts") as [Hpath|Hpath];
    [|split; [reflexivity|by repeat constructor]].
  destruct (req_IsPost ctx) eqn:Hpost; cbn [negb];
    [|split; [reflexivity|by repeat constructor]].
  destruct (strconv_ParseInt env (req_chatid ctx)) as [chatID|e] eqn:Hid;
    [|split; [reflexivity|by repeat constructor]].
  destruct (json_Unmarshal env (req_PostBody ctx)) as [data|e] eqn:Hjson;
    [|split; [reflexivity|by repeat constructor]].
  exfalso. destruct Hbad as [H|[H|[[e H]|[e H]]]]; congruence.
Qed.

Lemma X28_bad_requests_example :
  world (handleHTTP envFiring (mkRequest "127.0.0.1:50000" "/alerts" false "GET"
                                 "-123456789" "{payload}") world0) = world0
  /\ Forall (fun e => isLog e = true)
       (events (handleHTTP envFiring (mkRequest "127.0.0.1:50000" "/alerts" false "GET"
                                        "-123456789" "{payload}") world0)).
Proof.
  apply (X28_bad_requests_are_dropped envFiring world0
           (mkRequest "127.0.0.1:50000" "/alerts" false "GET" "-123456789" "{payload}")).
  right. left. reflexivity.
Defined.

(** X29.  A well-formed webhook request is forwarded to the chat named
    by [chatid]: exactly one message is handed to [sendMessage], the body
    verbatim and without parse mode when no webhook template is
    configured, the rendered text as HTML otherwise; with a positive
    retry count and a transport that accepts every call that text goes
    out in chunks, one new message per chunk.  When the template cannot
    be loaded or executed nothing is handed to [sendMessage], nothing
    goes out and no cache entry is made, even for a firing group. *)
Theorem X29_webhook_message_text env (w : World) (ctx : RequestCtx) (chatID : Z)
    (data : Data) :
  req_Path ctx = "/alerts" ->
  req_IsPost ctx = true ->
  strconv_ParseInt env (req_chatid ctx) = Ok chatID ->
  json_Unmarshal env (req_PostBody ctx) = Ok data ->
  let o := handleHTTP env ctx w in
  let path := WebhookAlertsTemplatePath (cfg env) in
  let forwarded text parseMode :=
    exists markup,
      dispatched (events o) = [CMessage (mkMessage chatID text parseMode markup)]
      /\ (1 <= SendMessageRetryCount (cfg env) ->
          (forall n c, BotAPI_Send env n c = SendOk) ->
          sentInChunks chatID parseMode markup text (transportCalls (events o))) in
  if strlen path =? 0
  then forwarded (req_PostBody ctx) EmptyString
  else match template_ParseFiles env path, template_Execute env path (VData data) with
       | None, Ok s => forwarded s ModeHTML
       | _, _ =>
           dispatched (events o) = []
           /\ transportCalls (events o) = []
           /\ Cache (world o) = Cache w
           /\ ksuids (world o) = ksuids w
       end.
Proof.
  intros Hpath Hpost Hid Hjson o path forwarded. subst o path.
  assert (Hok : forall text parseMode,
            webhookRenders env ctx data text parseMode -> forwarded text parseMode).
  { intros text parseMode Hren.
    destruct (handleHTTP_forwards env w ctx chatID data text parseMode
                Hpath Hpost Hid Hjson Hren) as (Hd & Ht & _).
    eexists. split; [exact Hd|]. intros Hretry Hacc. rewrite Ht.
    apply (sendMessage_message_accepted env Hretry Hacc (mkMessage _ _ _ _)). }
  destruct (strlen (WebhookAlertsTemplatePath (cfg env)) =? 0) eqn:Hp.
  { apply Hok. left. by repeat split. }
  destruct (template_ParseFiles env (WebhookAlertsTemplatePath (cfg env))) as [err|] eqn:Hparse.
  - assert (Hfail : dispatched (events (handleHTTP env ctx w)) = []
                    /\ transportCalls (events (handleHTTP env ctx w)) = []
                    /\ Cache (world (handleHTTP env ctx w)) = Cache w
                    /\ ksuids (world (handleHTTP env ctx w)) = ksuids w).
    { unfold handleHTTP. rewrite Hpath, Hpost, Hid, Hjson, Hp.
      cbn [String.eqb Ascii.eqb Bool.eqb negb].
      unfold applyTemplate. rewrite Hparse. observe. by repeat split. }
    by destruct (template_Execute env (WebhookAlertsTemplatePath (cfg env)) (VData data)).
  - destruct (template_Execute env (WebhookAlertsTemplatePath (cfg env)) (VData data))
      as [s|err] eqn:Hexec.
    + apply Hok. right. by repeat split.
    + unfold handleHTTP. rewrite Hpath, Hpost, Hid, Hjson, Hp.
      cbn [String.eqb Ascii.eqb Bool.eqb negb].
      unfold applyTemplate. rewrite Hparse, Hexec. observe. by repeat split.
Qed.

Lemma X29_webhook_message_example :
  exists markup,
    dispatched (events (handleHTTP envFiring requestAlerts world0))
    = [CMessage (mkMessage (-123456789) "{payload}" EmptyString markup)]
    /\ sentInChunks (-123456789) EmptyString markup "{payload}"
         (transportCalls (events (handleHTTP envFiring requestAlerts world0))).
Proof.
  destruct (X29_webhook_message_text envFiring world0 requestAlerts (-123456789)
              (mkData "telegram" "firing" [] groupLabels ∅ ∅ EmptyString))
    as (markup & Hd & Hwire).
  - reflexivity.
  - reflexivity.
  - reflexivity.
  - reflexivity.
  - exists markup. split; [exact Hd|]. apply Hwire.
    + vm_compute. discriminate.
    + intros n c. reflexivity.
Defined.
